(** * Spatial data analysis: a shallow embedding of the parking-load pipeline

    The development follows the three Python modules of the repository:
    [moran_auto.py] (Moran's I under three weight schemes),
    [process_data.py] (curation of the occupancy tables, price changes) and
    [gmm.py] (the per-time-slot mixture evaluator).

    Conventions of the embedding.
    - Python exceptions are values of [exn]; fallible code lives in the
      [result] monad.
    - numpy's float64 scalars are modelled by [npfloat]: an exact rational or
      one of the special values inf, -inf, nan.  Rounding and signed zeros
      are not modelled; a silent numpy division by zero yields a special
      value, a division of two Python floats by zero raises.
    - dicts are [gmap]s, numpy vectors are lists, matrices are lists of rows;
      every subscript is bounds-checked and raises [IndexError]. *)

From Stdlib Require Import QArith Qminmax Qabs Lqa.
From stdpp Require Import gmap strings list fin_maps sorting.

Local Open Scope string_scope.
Local Open Scope list_scope.

(** ** Exceptions and the result monad *)

Inductive exn : Type :=
| UnboundLocalError (name : string)
| AttributeError (name : string)
| IndexError
| KeyError
| ValueError
| TypeError
| ZeroDivisionError.

Inductive result (A : Type) : Type :=
| Ok (a : A)
| Err (e : exn).
Arguments Ok {A} a.
Arguments Err {A} e.

#[global] Instance result_ret : MRet result := fun A a => Ok a.
#[global] Instance result_bind : MBind result := fun A B f r =>
  match r with
  | Ok a => f a
  | Err e => Err e
  end.
#[global] Instance result_fmap : FMap result := fun A B f r =>
  match r with
  | Ok a => Ok (f a)
  | Err e => Err e
  end.

(** [l[i]] on a Python list or a numpy vector. *)
Definition getitem {A} (l : list A) (i : nat) : result A :=
  match l !! i with
  | Some a => Ok a
  | None => Err IndexError
  end.

(** [d[k]] on a plain dict. *)
Definition dict_get `{Countable K} {V} (d : gmap K V) (k : K) : result V :=
  match d !! k with
  | Some v => Ok v
  | None => Err KeyError
  end.

(** [[f(i) for i in idx]], stopping at the first exception. *)
Fixpoint comprehension {A B} (f : A -> result B) (idx : list A) : result (list B) :=
  match idx with
  | [] => Ok []
  | i :: rest => b ← f i; bs ← comprehension f rest; Ok (b :: bs)
  end.

(** A [for] loop threading the state [s] through the body. *)
Fixpoint for_loop {A S} (body : S -> A -> result S) (s : S) (idx : list A) : result S :=
  match idx with
  | [] => Ok s
  | i :: rest => s' ← body s i; for_loop body s' rest
  end.

(** [Series.unique()]: the distinct values in order of first appearance. *)
Fixpoint pd_unique `{EqDecision A} (l : list A) : list A :=
  match l with
  | [] => []
  | a :: rest => a :: List.filter (fun b => bool_decide (b <> a)) (pd_unique rest)
  end.

(** [xrange(n)]. *)
Definition xrange (n : nat) : list nat := seq 0 n.

(** ** Numbers *)

Definition QN (n : nat) : Q := inject_Z (Z.of_nat n).

(** The builtin [sum] over a generator: a left fold from 0. *)
Fixpoint sum_from (acc : Q) (l : list Q) : Q :=
  match l with
  | [] => acc
  | v :: rest => sum_from (acc + v)%Q rest
  end.
Definition py_sum (l : list Q) : Q := sum_from 0%Q l.

(** [sum(f(i) for i in idx)]. *)
Definition sum_gen {A} (f : A -> result Q) (idx : list A) : result Q :=
  for_loop (fun acc i => t ← f i; Ok (acc + t)%Q) 0%Q idx.

(** [a / b] on Python floats. *)
Definition py_float_div (a b : Q) : result Q :=
  if Qeq_bool b 0 then Err ZeroDivisionError else Ok (a / b)%Q.

Inductive npfloat : Type :=
| Fin (q : Q)
| PInf
| NInf
| NaN.

Definition np_of_sign (c : comparison) : npfloat :=
  match c with
  | Gt => PInf
  | Lt => NInf
  | Eq => NaN
  end.

Definition npneg (a : npfloat) : npfloat :=
  match a with
  | Fin q => Fin (- q)%Q
  | PInf => NInf
  | NInf => PInf
  | NaN => NaN
  end.

Definition npadd (a b : npfloat) : npfloat :=
  match a, b with
  | Fin p, Fin q => Fin (p + q)%Q
  | NaN, _ | _, NaN => NaN
  | PInf, NInf | NInf, PInf => NaN
  | PInf, _ | _, PInf => PInf
  | NInf, _ | _, NInf => NInf
  end.

Definition npsub (a b : npfloat) : npfloat := npadd a (npneg b).

Definition npmul (a b : npfloat) : npfloat :=
  match a, b with
  | Fin p, Fin q => Fin (p * q)%Q
  | NaN, _ | _, NaN => NaN
  | Fin p, PInf | PInf, Fin p => np_of_sign (p ?= 0)%Q
  | Fin p, NInf | NInf, Fin p => np_of_sign (0 ?= p)%Q
  | PInf, PInf | NInf, NInf => PInf
  | PInf, NInf | NInf, PInf => NInf
  end.

Definition npdiv (a b : npfloat) : npfloat :=
  match a, b with
  | NaN, _ | _, NaN => NaN
  | Fin p, Fin q =>
      match (q ?= 0)%Q with
      | Eq => np_of_sign (p ?= 0)%Q
      | _ => Fin (p / q)%Q
      end
  | Fin _, (PInf | NInf) => Fin 0%Q
  | (PInf | NInf), (PInf | NInf) => NaN
  | PInf, Fin q => match (q ?= 0)%Q with Lt => NInf | _ => PInf end
  | NInf, Fin q => match (q ?= 0)%Q with Lt => PInf | _ => NInf end
  end.

(** Equality of float results up to the representation of the rational. *)
Definition npeq (a b : npfloat) : Prop :=
  match a, b with
  | Fin p, Fin q => (p == q)%Q
  | PInf, PInf | NInf, NInf | NaN, NaN => True
  | _, _ => False
  end.

(** [x.mean()] of a non-empty vector; numpy returns nan on an empty one, where
    the centred vector [x - x.mean()] is empty whatever the mean is. *)
Definition np_mean (x : list Q) : Q := (py_sum x / QN (length x))%Q.

(** [x - x.mean()]. *)
Definition centered (x : list Q) : list Q := map (fun v => v - np_mean x)%Q x.

(** [np.dot(z.T, z)] on vectors. *)
Definition np_dot (a b : list Q) : Q := py_sum (zip_with Qmult a b).

Abbreviation matrix := (list (list Q)).

(** [np.zeros((n, m))]. *)
Definition np_zeros (n m : nat) : matrix := replicate n (replicate m 0%Q).

(** [w.sum()]. *)
Definition np_sum2 (w : matrix) : Q := py_sum (concat w).

(** [w[i, j]]. *)
Definition getitem2 (w : matrix) (i j : nat) : result Q :=
  row ← getitem w i; getitem row j.

(** [row[idxs] = v] with an integer index list. *)
Fixpoint set_items (row : list Q) (idxs : list nat) (v : Q) : result (list Q) :=
  match idxs with
  | [] => Ok row
  | j :: js =>
      if decide (j < length row) then set_items (<[j:=v]> row) js v
      else Err IndexError
  end.

(** [w[i, idxs] = v]. *)
Definition set_row_items (w : matrix) (i : nat) (idxs : list nat) (v : Q) : result matrix :=
  row ← getitem w i; row' ← set_items row idxs v; Ok (<[i:=row']> w).

(** [w[np.diag_indices(N)] = 0] on an N x N matrix. *)
Definition zero_diag (w : matrix) : matrix := imap (fun i row => <[i:=0%Q]> row) w.

(** ** moran_auto.py *)

Module moran_auto.

(** A row of [paystation_info.csv], restricted to the columns the code keeps:
    ELMNTKEY, PAIDAREA, SUBAREA. *)
Record paystation := {
  ELMNTKEY : Z;
  PAIDAREA : string;
  SUBAREA : string
}.

Abbreviation area_t := (string * string)%type.

(** The locals of the first loop of [get_area_weights]; [area] is unbound
    until its first assignment. *)
Record area_locals := {
  area : option area_t;
  area_dict : gmap area_t (list nat);
  key_dict : gmap Z area_t;
  count : nat
}.

(** [area_info.loc[area_info['ELMNTKEY'] == key][col].unique().tolist()[0]]. *)
Definition first_of_key {A} (col : paystation -> A) (area_info : list paystation) (key : Z)
  : result A :=
  getitem (map col (List.filter (fun r => bool_decide (ELMNTKEY r = key)) area_info)) 0.

(** [area_info['ELMNTKEY'].unique().tolist()]. *)
Definition all_keys (area_info : list paystation) : list Z :=
  pd_unique (map ELMNTKEY area_info).

Definition area_body (area_info : list paystation) (st : area_locals) (key : Z)
  : result area_locals :=
  bound ← (if decide (key ∈ all_keys area_info) then
             neighborhood ← first_of_key PAIDAREA area_info key;
             subarea ← first_of_key SUBAREA area_info key;
             Ok (Some (neighborhood, subarea))
           else Ok (area st));
  match bound with
  | None => Err (UnboundLocalError "area")
  | Some a =>
      Ok {| area := Some a;
            area_dict := <[a := default [] (area_dict st !! a) ++ [count st]]> (area_dict st);
            key_dict := <[key := a]> (key_dict st);
            count := S (count st) |}
  end.

Definition get_area_weights (area_info : list paystation)
    (train_active_index : list Z) (N : nat) : result matrix :=
  let weights := np_zeros N N in
  st ← for_loop (area_body area_info)
         {| area := None; area_dict := ∅; key_dict := ∅; count := 0 |}
         train_active_index;
  weights ← for_loop (fun weights i =>
               key ← getitem train_active_index i;
               a ← dict_get (key_dict st) key;
               set_row_items weights i (default [] (area_dict st !! a)) 1%Q)
             weights (xrange N);
  Ok (zero_diag weights).

Definition moran_area (area_info : list paystation) (x : list Q)
    (train_active_index : list Z) (N : nat) : result npfloat :=
  weights ← get_area_weights area_info train_active_index N;
  let W := np_sum2 weights in
  let z := centered x in
  top ← sum_gen (fun '(i, j) =>
           w ← getitem2 weights i j; zi ← getitem z i; zj ← getitem z j;
           Ok (w * zi * zj)%Q)
         (list_prod (xrange N) (xrange N));
  let bottom := np_dot z z in
  Ok (npdiv (npmul (npdiv (Fin (QN N)) (Fin W)) (Fin top)) (Fin bottom)).

(** The square of [np.linalg.norm(v)].  [sorted] compares the norms, which
    are non-negative, and two of them compare as their squares do. *)
Definition norm2 (v : list Q) : Q := py_sum (map (fun d => d * d)%Q v).

(** [sorted(l, key=lambda x: x[1])]: a stable sort on the second component. *)
Fixpoint insert_by_key (p : nat * Q) (l : list (nat * Q)) : list (nat * Q) :=
  match l with
  | [] => [p]
  | q :: rest =>
      if Qle_bool (snd p) (snd q) then p :: q :: rest
      else q :: insert_by_key p rest
  end.
Definition sorted_by_key (l : list (nat * Q)) : list (nat * Q) :=
  foldr insert_by_key [] l.

Definition get_neighbor_weights (gps_loc : list (list Q)) (N k : nat) : result matrix :=
  for_loop (fun weights i =>
      pairs ← comprehension (fun j =>
                 gi ← getitem gps_loc i; gj ← getitem gps_loc j;
                 Ok (j, norm2 (zip_with Qminus gi gj)))
               (xrange N);
      let nearest := take k (drop 1 (sorted_by_key pairs)) in
      match nearest with
      | [] => Err ValueError
      | _ => set_row_items weights i (map fst nearest) 1%Q
      end)
    (np_zeros N N) (xrange N).


(** [np.where(train_labels == label)[0].tolist()]. *)
Definition where_eq (train_labels : list nat) (label : nat) : list nat :=
  List.filter (fun j => bool_decide (train_labels !! j = Some label))
    (seq 0 (length train_labels)).

Definition get_mixture_weights (train_labels : list nat) (N : nat) : result matrix :=
  weights ← for_loop (fun weights i =>
               label ← getitem train_labels i;
               let matching := where_eq train_labels label in
               set_row_items weights i matching 1%Q)
             (np_zeros N N) (xrange N);
  Ok (zero_diag weights).

Definition moran_mixture (x : list Q) (train_labels : list nat) (N : nat)
  : result npfloat :=
  weights ← get_mixture_weights train_labels N;
  let W := np_sum2 weights in
  let z := centered x in
  top ← sum_gen (fun '(i, j) =>
           w ← getitem2 weights i j; zi ← getitem z i; zj ← getitem z j;
           Ok (w * zi * zj)%Q)
         (list_prod (xrange N) (xrange N));
  let bottom := np_dot z z in
  Ok (npdiv (npmul (npdiv (Fin (QN N)) (Fin W)) (Fin top)) (Fin bottom)).

(** [-1./(N - 1.)]: a division of Python floats, which raises on zero. *)
Definition moran_expectation (N : nat) : result Q :=
  py_float_div (- (1)) (QN N - 1).

(** [N**(-1)] on a Python int. *)
Definition int_inverse (N : nat) : result Q :=
  if decide (N = 0) then Err ZeroDivisionError else Ok (/ QN N)%Q.

Definition moran_variance (x : list Q) (w : matrix) (N : nat) : result npfloat :=
  let W := np_sum2 w in
  let z := centered x in
  s_1raw ← sum_gen (fun '(i, j) =>
              wij ← getitem2 w i j; wji ← getitem2 w j i;
              Ok ((wij + wji) ^ 2)%Q)
            (list_prod (xrange N) (xrange N));
  let s_1 := ((1 # 2) * s_1raw)%Q in
  s_2 ← sum_gen (fun i =>
           r ← sum_gen (fun j => getitem2 w i j) (xrange N);
           c ← sum_gen (fun j => getitem2 w j i) (xrange N);
           Ok ((r + c) ^ 2)%Q)
         (xrange N);
  n1 ← int_inverse N;
  n2 ← int_inverse N;
  let s_3 := npdiv (Fin (n1 * py_sum (map (fun v => v ^ 4) z))%Q)
                   (Fin ((n2 * py_sum (map (fun v => v ^ 2) z)) ^ 2)%Q) in
  let s_4 := ((QN N ^ 2 - 3 * QN N + 3) * s_1 - QN N * s_2 + 3 * W ^ 2)%Q in
  let s_5 := ((QN N ^ 2 - QN N) * s_1 - 2 * QN N * s_2 + 6 * W ^ 2)%Q in
  let quot := npdiv (npsub (Fin (QN N * s_4)%Q) (npmul s_3 (Fin s_5)))
                    (Fin ((QN N - 1) * (QN N - 2) * (QN N - 3) * W ^ 2)%Q) in
  e ← moran_expectation N;
  Ok (npsub quot (Fin (e ^ 2)%Q)).

(** The two scipy/numpy primitives the significance test relies on. *)
Record stats_lib := {
  np_sqrt : npfloat -> npfloat;
  norm_sf : npfloat -> npfloat
}.

Definition npabs (a : npfloat) : npfloat :=
  match a with
  | Fin q => Fin (Qabs q)
  | PInf | NInf => PInf
  | NaN => NaN
  end.

Definition z_score (L : stats_lib) (I : npfloat) (expectation : Q) (variance : npfloat)
  : npfloat :=
  npdiv (npsub I (Fin expectation)) (np_sqrt L variance).

Definition p_value (L : stats_lib) (z : npfloat) : npfloat * npfloat :=
  (norm_sf L (npabs z), npmul (norm_sf L (npabs z)) (Fin 2%Q)).

End moran_auto.

(** ** process_data.py *)

Module process_data.

Local Open Scope Z_scope.

(** *** Dates and timestamps

    A [datetime.date] is its proleptic Gregorian ordinal ([date.toordinal()]),
    a time of day is a number of seconds after midnight, and a timestamp is
    the number of seconds counted from the midnight that starts ordinal 0. *)

Definition is_leap (y : Z) : bool :=
  ((y mod 4 =? 0) && negb (y mod 100 =? 0)) || (y mod 400 =? 0).

Definition days_in_month (y m : Z) : Z :=
  if m =? 2 then (if is_leap y then 29 else 28)
  else if (m =? 4) || (m =? 6) || (m =? 9) || (m =? 11) then 30
  else 31.

Definition days_before_year (y : Z) : Z :=
  let p := y - 1 in p * 365 + p / 4 - p / 100 + p / 400.

Definition days_before_month (y m : Z) : Z :=
  foldr Z.add 0 (map (fun i => days_in_month y (Z.of_nat i)) (seq 1 (Z.to_nat (m - 1)))).

(** [datetime.date(y, m, d)]. *)
Definition mkdate (y m d : Z) : result Z :=
  if (1 <=? y) && (y <=? 9999) && (1 <=? m) && (m <=? 12)
     && (1 <=? d) && (d <=? days_in_month y m)
  then Ok (days_before_year y + days_before_month y m + d)
  else Err ValueError.

(** [calendar.monthrange(y, m)[1]]. *)
Definition monthrange_days (y m : Z) : result Z :=
  if (1 <=? m) && (m <=? 12) then Ok (days_in_month y m) else Err ValueError.

Definition date_of (t : Z) : Z := t / 86400.
Definition time_of (t : Z) : Z := t mod 86400.
(** [date.weekday()]: Monday is 0 and Sunday is 6. *)
Definition weekday_of (t : Z) : Z := (date_of t + 6) mod 7.
Definition hour_of (t : Z) : Z := time_of t / 3600.
Definition minute_of (t : Z) : Z := (time_of t mod 3600) / 60.
(** [datetime.datetime.combine(date, time)]. *)
Definition combine (d tm : Z) : Z := d * 86400 + tm.

(** *** Tables *)

(** A line of a per-block load file; a missing field is [None]. *)
Record raw_row := {
  raw_Datetime : option Z;
  raw_Load : option Q
}.

(** A row of [block_data]; a blanked load (nan) is [None]. *)
Record block_row := {
  Datetime : Z;
  Load : option Q;
  Date : Z;
  Time : Z;
  Day : Z;
  Hour : Z;
  Minute : Z
}.

(** A row of [block_info.csv] after the conversion of its hour and date
    columns; an empty cell (NaT) is [None]. *)
Record info_row := {
  ElementKey : Z;
  PeakHourStart1 : option Z;
  PeakHourEnd1 : option Z;
  PeakHourStart2 : option Z;
  PeakHourEnd2 : option Z;
  PeakHourStart3 : option Z;
  PeakHourEnd3 : option Z;
  EffectiveStartDate : option Z;
  EffectiveEndDate : option Z
}.

(** The rules of [USFederalHolidayCalendar]: which dates are holidays. *)
Record holiday_calendar := {
  is_holiday : Z -> bool
}.

(** [cal.holidays(start, end)]: the holidays from [start] to [end], both
    included. *)
Definition cal_holidays (cal : holiday_calendar) (start end_ : Z) : list Z :=
  List.filter (is_holiday cal)
    (map (fun i => start + Z.of_nat i) (seq 0 (Z.to_nat (end_ - start + 1)))).

(** [Series.isin]. *)
Definition isin (l : list Z) (d : Z) : bool := existsb (Z.eqb d) l.

(** [sort_values(by='Datetime')], ties in file order. *)
Fixpoint insert_by {A} (leb : A -> A -> bool) (a : A) (l : list A) : list A :=
  match l with
  | [] => [a]
  | b :: rest => if leb a b then a :: b :: rest else b :: insert_by leb a rest
  end.
Definition sort_by {A} (leb : A -> A -> bool) (l : list A) : list A :=
  foldr (insert_by leb) [] l.

(** [read_csv], [to_datetime], [sort_values], [dropna] and the derived
    columns. *)
Definition read_block (rows : list raw_row) : list block_row :=
  let complete :=
    omap (fun r => match raw_Datetime r, raw_Load r with
                   | Some t, Some v => Some (t, v)
                   | _, _ => None
                   end) rows in
  map (fun '(t, v) =>
         {| Datetime := t; Load := Some v; Date := date_of t; Time := time_of t;
            Day := weekday_of t; Hour := hour_of t; Minute := minute_of t |})
      (sort_by (fun a b => fst a <=? fst b) complete).

(** [Series.clip_upper(1.5)]. *)
Definition clip_upper (threshold v : Q) : Q :=
  if Qle_bool v threshold then v else threshold.

Definition set_Load (r : block_row) (l : option Q) : block_row :=
  {| Datetime := Datetime r; Load := l; Date := Date r; Time := Time r;
     Day := Day r; Hour := Hour r; Minute := Minute r |}.

(** Lines 100 to 110: the date window, Sundays, holidays, clipping. *)
Definition restrict_and_clip (holidays : list Z) (date_start date_end : Z)
    (block_data : list block_row) : list block_row :=
  let block_data :=
    List.filter (fun r => (date_start <=? Date r) && (Date r <=? date_end)) block_data in
  let block_data := List.filter (fun r => negb (Day r =? 6)) block_data in
  let block_data := List.filter (fun r => negb (isin holidays (Date r))) block_data in
  map (fun r => set_Load r (clip_upper (3 # 2) <$> Load r)) block_data.

(** [a <= b] on timestamps where [a] may be NaT: a comparison with NaT is
    false. *)
Definition ts_le (a : option Z) (b : Z) : bool :=
  match a with Some a => a <=? b | None => false end.
Definition ts_ge (a : option Z) (b : Z) : bool :=
  match a with Some a => b <=? a | None => false end.

(** One of the three peak-hour masks of an info row, for one row of
    [block_data]. *)
Definition peak_mask (start_date end_date : option Z) (null_end : bool)
    (peak_start peak_end : Z) (r : block_row) : bool :=
  let start_i := combine (Date r) peak_start in
  let end_i := combine (Date r) peak_end in
  if null_end then
    ts_le start_date (Datetime r) && (start_i <=? Datetime r)
    && (Datetime r <? end_i) && negb (Day r =? 5)
  else
    ts_le start_date (Datetime r) && ts_ge end_date (Datetime r)
    && (start_i <=? Datetime r) && (Datetime r <? end_i) && negb (Day r =? 5).

(** [block_data.loc[mask, 'Load'] = np.nan] for the window
    [peak_start, peak_end); [datetime.combine] rejects a missing end time. *)
Definition blank_window (start_date end_date : option Z) (null_end : bool)
    (peak_start peak_end : option Z) (block_data : list block_row)
  : result (list block_row) :=
  match peak_start with
  | None => Ok block_data
  | Some s =>
      match peak_end, block_data with
      | None, _ :: _ => Err TypeError
      | None, [] => Ok block_data
      | Some e, _ =>
          Ok (map (fun r => if peak_mask start_date end_date null_end s e r
                            then set_Load r None else r) block_data)
      end
  end.

(** The body of the loop over [curr_block_info.iterrows()]. *)
Definition blank_rule (block_data : list block_row) (row : info_row)
  : result (list block_row) :=
  if bool_decide (is_Some (PeakHourStart1 row)) && bool_decide (is_Some (PeakHourStart2 row))
     && bool_decide (is_Some (PeakHourStart3 row))
  then Ok block_data
  else
    let null_end := bool_decide (EffectiveEndDate row = None) in
    let end_date := (fun d => d + (23 * 3600 + 59 * 60 + 59)) <$> EffectiveEndDate row in
    let start_date := EffectiveStartDate row in
    block_data ← blank_window start_date end_date null_end
                   (PeakHourStart1 row) (PeakHourEnd1 row) block_data;
    block_data ← blank_window start_date end_date null_end
                   (PeakHourStart2 row) (PeakHourEnd2 row) block_data;
    blank_window start_date end_date null_end
      (PeakHourStart3 row) (PeakHourEnd3 row) block_data.

(** The (Day, Hour) groups of [groupby(['Day', 'Hour'])], in key order. *)
Definition day_hour_groups (block_data : list block_row) : list (Z * Z) :=
  sort_by (fun a b => (fst a <? fst b) || ((fst a =? fst b) && (snd a <=? snd b)))
    (pd_unique (map (fun r => (Day r, Hour r)) block_data)).

(** The mean of the loads present in a group; nan when there is none. *)
Definition group_mean (block_data : list block_row) (g : Z * Z) : npfloat :=
  let loads :=
    omap Load (List.filter (fun r => (Day r =? fst g) && (Hour r =? snd g)) block_data) in
  npdiv (Fin (py_sum loads)) (Fin (QN (length loads))).

(** [l[-k]] for [k > 0]. *)
Definition getitem_back {A} (l : list A) (k : nat) : result A :=
  if decide (k <= length l)%nat then getitem l (length l - k)%nat else Err IndexError.

(** [Load != 0] on a cell; nan differs from every number. *)
Definition load_ne_0 (l : option Q) : bool :=
  match l with
  | Some q => negb (Qeq_bool q 0)
  | None => true
  end.

(** What [load_data] accumulates over the block files. *)
Record load_state := {
  avg_loads : list (list npfloat);
  gps_loc : list (list Q);
  element_keys : list Z;
  park_data : gmap Z (list block_row)
}.

(** The body of the loop over the files of a load directory. *)
Definition load_block (locations : gmap Z (list Q)) (block_info : list info_row)
    (holidays : list Z) (date_start date_end : Z)
    (st : load_state) (file : Z * list raw_row) : result load_state :=
  let key := fst file in
  let block_data := restrict_and_clip holidays date_start date_end (read_block (snd file)) in
  if decide (length block_data = 0%nat) then Ok st
  else if decide (length (List.filter (fun r => load_ne_0 (Load r)) block_data) = 0%nat)
  then Ok st
  else
    match locations !! key with
    | None => Ok st
    | Some curr_block =>
        lat1 ← getitem curr_block 1; lat2 ← getitem_back curr_block 2;
        lon1 ← getitem curr_block 0; lon2 ← getitem_back curr_block 3;
        let mid_lat := ((lat1 + lat2) / 2)%Q in
        let mid_long := ((lon1 + lon2) / 2)%Q in
        let curr_block_info :=
          List.filter (fun row => ElementKey row =? key) block_info in
        block_data ← for_loop blank_rule block_data curr_block_info;
        let groups := day_hour_groups block_data in
        if decide (length groups = 72%nat) then
          Ok {| avg_loads := avg_loads st ++ [map (group_mean block_data) groups];
                gps_loc := gps_loc st ++ [[mid_lat; mid_long]];
                element_keys := element_keys st ++ [key];
                park_data := <[key := block_data]> (park_data st) |}
        else Ok st
    end.

(** The ordinal of 2012-01-01, the first day of the holiday list. *)
Definition holidays_start : Z := 734503.

(** The curated outputs of [load_data]: the block keys, the average-load
    matrix, the coordinate matrix and the occupancy table, whose rows carry
    their block key and are ordered by (Datetime, ID). *)
Record curated := {
  out_element_keys : list Z;
  out_avg_loads : list (list npfloat);
  out_gps_loc : list (list Q);
  out_park_data : list (Z * block_row)
}.

Definition load_data (locations : gmap Z (list Q)) (block_info : list info_row)
    (cal : holiday_calendar) (today : Z)
    (load_paths : list (list (Z * list raw_row)))
    (month_year_start month_year_end : Z * Z) (day_start day_end : option Z)
  : result curated :=
  let holidays := cal_holidays cal holidays_start today in
  let day_start := default 1 day_start in
  day_end ← match day_end with
            | Some d => Ok d
            | None => monthrange_days (snd month_year_end) (fst month_year_end)
            end;
  date_start ← mkdate (snd month_year_start) (fst month_year_start) day_start;
  date_end ← mkdate (snd month_year_end) (fst month_year_end) day_end;
  st ← for_loop (fun st load_path =>
          for_loop (load_block locations block_info holidays date_start date_end) st
            (sort_by (fun a b => fst a <=? fst b) load_path))
        {| avg_loads := []; gps_loc := []; element_keys := []; park_data := ∅ |}
        load_paths;
  match avg_loads st with
  | [] => Err ValueError
  | _ =>
      let rows :=
        concat (map (fun kv => map (pair (fst kv)) (snd kv)) (map_to_list (park_data st))) in
      Ok {| out_element_keys := element_keys st;
            out_avg_loads := avg_loads st;
            out_gps_loc := gps_loc st;
            out_park_data :=
              sort_by (fun a b => (Datetime (snd a) <? Datetime (snd b))
                                  || ((Datetime (snd a) =? Datetime (snd b))
                                      && (fst a <=? fst b))) rows |}
  end.

(** *** Price and time changes *)

(** A row of [block_info.csv] as [get_price_changes] reads it: numeric cells
    may be empty (nan, [None]) and the dates are the strings of the file. *)
Record csv_row := {
  csv_ElementKey : Z;
  csv_PaidParkingArea : string;
  csv_WeekdayRate1 : option Q;
  csv_WeekdayRate2 : option Q;
  csv_WeekdayRate3 : option Q;
  csv_SaturdayRate1 : option Q;
  csv_SaturdayRate2 : option Q;
  csv_SaturdayRate3 : option Q;
  csv_StartTimeWeekday : option Q;
  csv_EndTimeWeekday : option Q;
  csv_StartTimeSaturday : option Q;
  csv_EndTimeSaturday : option Q;
  csv_EffectiveStartDate : option string;
  csv_EffectiveEndDate : option string
}.

Definition prices_of (r : csv_row) : list (option Q) :=
  [csv_WeekdayRate1 r; csv_WeekdayRate2 r; csv_WeekdayRate3 r;
   csv_SaturdayRate1 r; csv_SaturdayRate2 r; csv_SaturdayRate3 r].

Definition times_of (r : csv_row) : list (option Q) :=
  [csv_StartTimeWeekday r; csv_EndTimeWeekday r;
   csv_StartTimeSaturday r; csv_EndTimeSaturday r].

(** [a == b] on float cells: nan equals nothing. *)
Definition cell_eqb (a b : option Q) : bool :=
  match a, b with
  | Some p, Some q => Qeq_bool p q
  | _, _ => false
  end.

(** [np.array_equal] on two vectors. *)
Definition array_equal (a b : list (option Q)) : bool :=
  bool_decide (length a = length b) && forallb (fun '(p, q) => cell_eqb p q) (zip a b).

(** [a - b] on float vectors: nan where either cell is. *)
Definition array_sub (a b : list (option Q)) : list (option Q) :=
  zip_with (fun p q => match p, q with
                       | Some p, Some q => Some (p - q)%Q
                       | _, _ => None
                       end) a b.

(** The order of [sort_values(by='EffectiveStartDate')]: strings ascending,
    missing dates last, ties in table order. *)
Definition start_leb (a b : csv_row) : bool :=
  match csv_EffectiveStartDate a, csv_EffectiveStartDate b with
  | Some x, Some y => String.leb x y
  | _, None => true
  | None, Some _ => false
  end.

Abbreviation date_pair := (option string * option string)%type.

Record changes := {
  price_changes : gmap date_pair (list (Z * list (option Q)));
  time_changes : gmap date_pair (list (Z * list (option Q) * list (option Q)))
}.

(** [d[k].append(v)] on a [defaultdict(list)]. *)
Definition dd_append `{Countable K} {V} (d : gmap K (list V)) (k : K) (v : V)
  : gmap K (list V) :=
  <[k := default [] (d !! k) ++ [v]]> d.

(** The body of the inner loop, on rows [i] and [i+1] of the sorted block. *)
Definition compare_rows (key : Z) (acc : changes) (p : csv_row * csv_row) : changes :=
  let '(cur, next) := p in
  let k := (csv_EffectiveStartDate next, csv_EffectiveStartDate cur) in
  let pc :=
    if negb (array_equal (prices_of cur) (prices_of next))
    then dd_append (price_changes acc) k (key, array_sub (prices_of cur) (prices_of next))
    else price_changes acc in
  let tc :=
    if negb (array_equal (times_of cur) (times_of next))
    then dd_append (time_changes acc) k (key, times_of cur, times_of next)
    else time_changes acc in
  {| price_changes := pc; time_changes := tc |}.

Definition get_price_changes (area : string) (block_info : list csv_row) : changes :=
  let area_rows :=
    List.filter (fun r => bool_decide (csv_PaidParkingArea r = area)) block_info in
  foldl (fun acc key =>
           let block := List.filter (fun r => csv_ElementKey r =? key) area_rows in
           let block := List.filter (fun r => bool_decide (is_Some (csv_WeekdayRate1 r))) block in
           let block := sort_by start_leb block in
           foldl (compare_rows key) acc (zip block (drop 1 block)))
        {| price_changes := ∅; time_changes := ∅ |}
        (pd_unique (map csv_ElementKey area_rows)).

End process_data.

(** ** gmm.py *)

Module gmm.

Import moran_auto process_data.

(** What the evaluator requires from scikit-learn and from the builtin
    [round]: a min-max scaler, a Gaussian mixture with its fitted means and
    its label prediction, and rounding to two decimals. *)
Record sklearn := {
  scaler_t : Type;
  mixture_t : Type;
  MinMaxScaler_fit : matrix -> result scaler_t;
  scaler_transform : scaler_t -> matrix -> result matrix;
  scaler_min_ : scaler_t -> list Q;
  scaler_scale_ : scaler_t -> list Q;
  GaussianMixture_fit : matrix -> result mixture_t;
  mixture_means_ : mixture_t -> matrix;
  mixture_predict : mixture_t -> matrix -> result (list nat);
  round2 : npfloat -> npfloat
}.

(** The names [gmm.py] looks up in the module [moran_auto], each bound to
    what [moran_auto.py] defines under that name, or unbound. *)
Record moran_auto_namespace := {
  attr_get_mixture_weights : option (list nat -> nat -> result matrix);
  attr_moran_mixture : option (list Q -> list nat -> nat -> result npfloat);
  attr_moran_expectation : option (nat -> result Q);
  attr_moran_variance : option (list Q -> matrix -> nat -> result npfloat);
  attr_z_score : option (npfloat -> Q -> npfloat -> npfloat);
  attr_p_value : option (npfloat -> npfloat * npfloat);
  attr_get_area_weights : option (list Z -> nat -> result matrix);
  attr_moran_area : option (list Q -> list Z -> nat -> result npfloat);
  attr_get_adjacent_weights : option (list (list Q) -> nat -> result matrix);
  attr_moran_adjacent : option (list Q -> list (list Q) -> nat -> nat -> result npfloat)
}.

(** [moran_auto.py] defines [get_neighbor_weights] and [moran_neighbor]; it
    has no [get_adjacent_weights] and no [moran_adjacent]. *)
Definition moran_auto_module (area_info : list paystation) (L : stats_lib)
  : moran_auto_namespace :=
  {| attr_get_mixture_weights := Some get_mixture_weights;
     attr_moran_mixture := Some moran_mixture;
     attr_moran_expectation := Some moran_expectation;
     attr_moran_variance := Some moran_variance;
     attr_z_score := Some (z_score L);
     attr_p_value := Some (p_value L);
     attr_get_area_weights := Some (get_area_weights area_info);
     attr_moran_area := Some (moran_area area_info);
     attr_get_adjacent_weights := None;
     attr_moran_adjacent := None |}.

(** [module.name]. *)
Definition getattr {A} (name : string) (bound : option A) : result A :=
  match bound with
  | Some a => Ok a
  | None => Err (AttributeError name)
  end.

(** [l.index(a)]. *)
Fixpoint list_index `{EqDecision A} (l : list A) (a : A) : result nat :=
  match l with
  | [] => Err ValueError
  | b :: rest => if decide (b = a) then Ok 0%nat else S <$> list_index rest a
  end.

(** [np.array(l).mean()] on numbers; nan on an empty list. *)
Definition mean_Q (l : list Q) : npfloat :=
  npdiv (Fin (py_sum l)) (Fin (QN (length l))).

(** [np.array(l).mean()] on floats. *)
Definition mean_np (l : list npfloat) : npfloat :=
  npdiv (foldl npadd (Fin 0%Q) l) (Fin (QN (length l))).

(** The rows of the table for one slot and one timestamp,
    [data_df.xs(t, level=0).dropna()], as (block key, load) pairs. *)
Definition rows_at (data_df : list (Z * block_row)) (t : Z) : list (Z * Q) :=
  omap (fun kr => pair (fst kr) <$> Load (snd kr))
    (List.filter (fun kr => Datetime (snd kr) =? t)%Z data_df).

(** The three lists of Moran tuples, the centres and the accuracies that
    [GMM] accumulates over the training dates. *)
Record gmm_lists := {
  average_accuracies : list npfloat;
  centers : list (list (list npfloat));
  morans_mixture : list (list npfloat);
  morans_area : list (list npfloat);
  morans_adjacent : list (list npfloat)
}.

(** Lines 192 to 205: the agreement count of a test date and its accuracy. *)
Definition accuracy_of (test_labels train_labels : list nat)
    (test_active_index : list Z) (train_to_label_map : gmap Z nat) : result Q :=
  counts ← for_loop (fun '(correct, incorrect) i =>
              key ← getitem test_active_index i;
              idx ← dict_get train_to_label_map key;
              test_label ← getitem test_labels i;
              train_label ← getitem train_labels idx;
              if decide (test_label = train_label)
              then Ok (S correct, incorrect)
              else Ok (correct, S incorrect))
            (0%nat, 0%nat) (xrange (length test_labels));
  let '(correct, incorrect) := counts in
  py_float_div (QN correct) (QN (correct + incorrect)).

(** Lines 171 to 206: the body of the loop over the test dates. *)
Definition test_body (sk : sklearn) (data_df : list (Z * block_row))
    (gps_loc : list (list Q)) (block_keys train_active_index : list Z)
    (train_to_label_map : gmap Z nat) (scaler : scaler_t sk) (gmm : mixture_t sk)
    (train_labels : list nat) (test_time : Z) : result Q :=
  let test_data :=
    List.filter (fun kv => bool_decide (fst kv ∈ train_active_index))
      (rows_at data_df test_time) in
  let test_active_index := map fst test_data in
  test_mask ← comprehension (list_index block_keys) test_active_index;
  let test_loads := map snd test_data in
  test_gps ← comprehension (getitem gps_loc) test_mask;
  let test := zip_with cons test_loads test_gps in
  test ← scaler_transform sk scaler test;
  test_labels ← mixture_predict sk gmm test;
  accuracy_of test_labels train_labels test_active_index train_to_label_map.

(** Lines 100 to 209: the body of the loop over the training dates. *)
Definition train_body (sk : sklearn) (ns : moran_auto_namespace)
    (data_df : list (Z * block_row)) (gps_loc : list (list Q)) (block_keys : list Z)
    (k : nat) (acc : gmm_lists) (train_time : Z) : result gmm_lists :=
  let train_data := rows_at data_df train_time in
  let N := length train_data in
  let train_active_index := map fst train_data in
  train_mask ← comprehension (list_index block_keys) train_active_index;
  let train_to_label_map : gmap Z nat :=
    list_to_map (reverse (imap (fun i key => (key, i)) train_active_index)) in
  let train_loads := map snd train_data in
  train_gps ← comprehension (getitem gps_loc) train_mask;
  let train := zip_with cons train_loads train_gps in
  scaler ← MinMaxScaler_fit sk train;
  train ← scaler_transform sk scaler train;
  gmm ← GaussianMixture_fit sk train;
  let means :=
    map (fun mean =>
           zip_with (fun a b => npdiv (Fin a) (Fin b))
             (zip_with Qminus (drop 1 mean) (drop 1 (scaler_min_ sk scaler)))
             (drop 1 (scaler_scale_ sk scaler)))
        (mixture_means_ sk gmm) in
  (* [covs] is computed next to [means] and never used. *)
  let centers := centers acc ++ [means] in
  train_labels ← mixture_predict sk gmm train;
  (* Moran's I with the mixture component connections. *)
  f ← getattr "get_mixture_weights" (attr_get_mixture_weights ns);
  weights ← f train_labels N;
  f ← getattr "moran_mixture" (attr_moran_mixture ns);
  I ← f train_loads train_labels N;
  f ← getattr "moran_expectation" (attr_moran_expectation ns);
  expectation ← f N;
  f ← getattr "moran_variance" (attr_moran_variance ns);
  variance ← f train_loads weights N;
  f ← getattr "z_score" (attr_z_score ns);
  let z := f I expectation variance in
  f ← getattr "p_value" (attr_p_value ns);
  let '(p_one_sided, p_two_sided) := f z in
  let morans_mixture :=
    morans_mixture acc ++ [[I; Fin expectation; variance; z; p_one_sided; p_two_sided]] in
  (* Moran's I with the paid area connections. *)
  f ← getattr "get_area_weights" (attr_get_area_weights ns);
  weights ← f train_active_index N;
  f ← getattr "moran_area" (attr_moran_area ns);
  I ← f train_loads train_active_index N;
  f ← getattr "moran_expectation" (attr_moran_expectation ns);
  expectation ← f N;
  f ← getattr "moran_variance" (attr_moran_variance ns);
  variance ← f train_loads weights N;
  f ← getattr "z_score" (attr_z_score ns);
  let z := f I expectation variance in
  f ← getattr "p_value" (attr_p_value ns);
  let '(p_one_sided, p_two_sided) := f z in
  let morans_area :=
    morans_area acc ++ [[I; Fin expectation; variance; z; p_one_sided; p_two_sided]] in
  (* Moran's I with the adjacent weight matrix. *)
  f ← getattr "get_adjacent_weights" (attr_get_adjacent_weights ns);
  weights ← f train_gps N;
  f ← getattr "moran_adjacent" (attr_moran_adjacent ns);
  I ← f train_loads train_gps N k;
  f ← getattr "moran_expectation" (attr_moran_expectation ns);
  expectation ← f N;
  f ← getattr "moran_variance" (attr_moran_variance ns);
  variance ← f train_loads weights N;
  f ← getattr "z_score" (attr_z_score ns);
  let z := f I expectation variance in
  f ← getattr "p_value" (attr_p_value ns);
  let '(p_one_sided, p_two_sided) := f z in
  let morans_adjacent :=
    morans_adjacent acc ++ [[I; Fin expectation; variance; z; p_one_sided; p_two_sided]] in
  (* The model fitted on this date, tested on every other date. *)
  accuracies ← comprehension
                  (test_body sk data_df gps_loc block_keys train_active_index
                     train_to_label_map scaler gmm train_labels)
                  (List.filter (fun t => negb (t =? train_time)%Z)
                     (pd_unique (map (fun kr => Datetime (snd kr)) data_df)));
  Ok {| average_accuracies := average_accuracies acc ++ [mean_Q accuracies];
        centers := centers;
        morans_mixture := morans_mixture;
        morans_area := morans_area;
        morans_adjacent := morans_adjacent |}.

(** What [GMM] returns: day, hour, prediction error, the three lists of
    Moran tuples and the centres. *)
Record gmm_result := {
  res_day : Z;
  res_hour : Z;
  res_time_avg_error : npfloat;
  res_morans_mixture : list (list npfloat);
  res_morans_area : list (list npfloat);
  res_morans_adjacent : list (list npfloat);
  res_centers : list (list (list npfloat))
}.

Definition GMM (sk : sklearn) (area_info : list paystation) (L : stats_lib)
    (park_data : list (Z * block_row)) (gps_loc : list (list Q))
    (times : list (Z * Z)) (k : nat) (iteration : nat) : result gmm_result :=
  let ns := moran_auto_module area_info L in
  time ← getitem times iteration;
  let day := fst time in
  let hour := snd time in
  let data_df :=
    List.filter (fun kr => (Day (snd kr) =? day)%Z && (Hour (snd kr) =? hour)%Z) park_data in
  let block_keys := sort_by Z.leb (pd_unique (map fst data_df)) in
  acc ← for_loop (train_body sk ns data_df gps_loc block_keys k)
          {| average_accuracies := []; centers := []; morans_mixture := [];
             morans_area := []; morans_adjacent := [] |}
          (pd_unique (map (fun kr => Datetime (snd kr)) data_df));
  let time_avg_error :=
    round2 sk (npsub (Fin 100%Q) (npmul (mean_np (average_accuracies acc)) (Fin 100%Q))) in
  Ok {| res_day := day; res_hour := hour; res_time_avg_error := time_avg_error;
        res_morans_mixture := morans_mixture acc;
        res_morans_area := morans_area acc;
        res_morans_adjacent := morans_adjacent acc;
        res_centers := centers acc |}.

End gmm.

(** ** The statements of the specification

    The formulas of the specification, written with index sums, and the
    predicates the properties below are stated with. *)

(** [w] has [n] rows of [m] entries. *)
Definition shape (n m : nat) (w : matrix) : Prop :=
  length w = n /\ Forall (fun row => length row = m) w.

(** Every entry is the float 0 or the float 1. *)
Definition binary (w : matrix) : Prop :=
  Forall (Forall (fun v => v = 0%Q \/ v = 1%Q)) w.

(** Every diagonal entry that exists is 0. *)
Definition zero_diagonal (w : matrix) : Prop :=
  forall i row, w !! i = Some row -> i < length row -> row !! i = Some 0%Q.




Module spec.

Local Open Scope Q_scope.

(** The sum of [f i] for [i] from 0 to [n - 1]. *)
Definition big_sum (n : nat) (f : nat -> Q) : Q := foldr Qplus 0 (map f (seq 0 n)).

(** [x[i]] and [w[i, j]], read as 0 outside the array. *)
Definition at_ (x : list Q) (i : nat) : Q := default 0 (x !! i).
Definition entry (w : matrix) (i j : nat) : Q := at_ (default [] (w !! i)) j.

(** W, the sum of all entries of w. *)
Definition total_weight (w : matrix) (N : nat) : Q :=
  big_sum N (fun i => big_sum N (fun j => entry w i j)).

(** z = x minus the mean of x. *)
Definition mean (x : list Q) (N : nat) : Q := big_sum N (at_ x) / QN N.
Definition dev (x : list Q) (N : nat) (i : nat) : Q := at_ x i - mean x N.


(** E[I] = -1 / (N - 1). *)
Definition expectation (N : nat) : Q := - (1) / (QN N - 1).

Definition S1 (w : matrix) (N : nat) : Q :=
  (1 # 2) * big_sum N (fun i => big_sum N (fun j => (entry w i j + entry w j i) ^ 2)).

Definition row_sum (w : matrix) (N i : nat) : Q := big_sum N (fun j => entry w i j).
Definition col_sum (w : matrix) (N i : nat) : Q := big_sum N (fun j => entry w j i).

Definition S2 (w : matrix) (N : nat) : Q :=
  big_sum N (fun i => (row_sum w N i + col_sum w N i) ^ 2).

Definition S3 (x : list Q) (N : nat) : Q :=
  (/ QN N * big_sum N (fun i => dev x N i ^ 4))
  / (/ QN N * big_sum N (fun i => dev x N i ^ 2)) ^ 2.

Definition S4 (w : matrix) (N : nat) : Q :=
  (QN N ^ 2 - 3 * QN N + 3) * S1 w N - QN N * S2 w N + 3 * total_weight w N ^ 2.

Definition S5 (w : matrix) (N : nat) : Q :=
  (QN N ^ 2 - QN N) * S1 w N - 2 * QN N * S2 w N + 6 * total_weight w N ^ 2.

(** Var[I] = (N S4 - S3 S5) / ((N-1)(N-2)(N-3) W^2) - E[I]^2. *)
Definition variance (x : list Q) (w : matrix) (N : nat) : Q :=
  (QN N * S4 w N - S3 x N * S5 w N)
  / ((QN N - 1) * (QN N - 2) * (QN N - 3) * total_weight w N ^ 2)
  - expectation N ^ 2.

End spec.




(** *** The curated table *)

(** The caller-specified window of [load_data]: from day [day_start]
    (default 1) of the start month to day [day_end] (default: the last) of
    the end month. *)
Definition range_start (month_year_start : Z * Z) (day_start : option Z) : result Z :=
  process_data.mkdate (snd month_year_start) (fst month_year_start) (default 1%Z day_start).

Definition range_end (month_year_end : Z * Z) (day_end : option Z) : result Z :=
  day_end ← match day_end with
            | Some d => Ok d
            | None => process_data.monthrange_days (snd month_year_end) (fst month_year_end)
            end;
  process_data.mkdate (snd month_year_end) (fst month_year_end) day_end.

(** The three properties of a curated row, for the window
    [date_start, date_end] and a holiday list. *)
Definition curated_row (holidays : list Z) (date_start date_end : Z)
    (r : process_data.block_row) : Prop :=
  process_data.Day r <> 6%Z
  /\ (date_start <= process_data.Date r <= date_end)%Z
  /\ process_data.isin holidays (process_data.Date r) = false.

(** Blanking changes loads only. *)
Definition same_keys (r r' : process_data.block_row) : Prop :=
  process_data.Datetime r' = process_data.Datetime r
  /\ process_data.Date r' = process_data.Date r
  /\ process_data.Day r' = process_data.Day r
  /\ (process_data.Load r' = None \/ process_data.Load r' = process_data.Load r).

(** The load of [r], when present, is the clipped value of a line of the
    file [raws] with the timestamp of [r]. *)
Definition from_file (raws : list process_data.raw_row) (r : process_data.block_row) : Prop :=
  exists v : Q,
    {| process_data.raw_Datetime := Some (process_data.Datetime r);
       process_data.raw_Load := Some v |} ∈ raws
    /\ (process_data.Load r = None \/ process_data.Load r = Some (Qmin v (3 # 2))).

(** The invariant of the loops of [load_data] on [park_data]. *)
Definition park_data_ok (holidays : list Z) (date_start date_end : Z)
    (load_paths : list (list (Z * list process_data.raw_row)))
    (pd : gmap Z (list process_data.block_row)) : Prop :=
  forall id rows r, pd !! id = Some rows -> r ∈ rows ->
    curated_row holidays date_start date_end r
    /\ exists load_path raws, load_path ∈ load_paths /\ (id, raws) ∈ load_path
                              /\ from_file raws r.

(** *** Sample inputs *)

Module sample.

Import moran_auto process_data gmm.
Local Open Scope Z_scope.

(** A load file with one line per hour from 8 to 19 on six consecutive days
    from [first_day] on, all with the load [v]. *)
Definition week_of_loads (first_day : Z) (v : Q) : list raw_row :=
  map (fun n => {| raw_Datetime :=
                     Some (combine (first_day + Z.of_nat (n / 12))
                                   ((8 + Z.of_nat (n mod 12)) * 3600));
                   raw_Load := Some v |})
      (seq 0 72).

(** The Independence Day rule of the federal calendar without its shift to
    the nearest workday: the 4th of July.  In 2011 and 2012 the 4th is a
    Monday and a Wednesday, and the rule proper gives the same dates. *)
Definition fourth_of_july : holiday_calendar :=
  {| is_holiday := fun d =>
       existsb (fun y => match mkdate (Z.of_nat y) 7 4 with
                         | Ok d' => d' =? d
                         | Err _ => false
                         end) (seq 2000 40) |}.

(** One block, 2759, with coordinates and no operating-hour rule. *)
Definition locations : gmap Z (list Q) :=
  {[ 2759 := [(-122 # 1); (47 # 1); (11 # 1); (-121 # 1); (48 # 1); (12 # 1)]%Q ]}.

(** 2011-07-04, a Monday, and the 2013-01-01 taken as the current date. *)
Definition monday_2011_07_04 : Z := 734322.
Definition today : Z := 734869.

(** One load directory with the file of block 2759 for the week of Monday
    2012-07-09, every load 2.0, and the table [load_data] makes of July 2012
    from it. *)
Definition july_2012 : list (list (Z * list raw_row)) :=
  [[(2759, week_of_loads 734693 (2 # 1)%Q)]].

Definition july_2012_table : curated :=
  Eval vm_compute in
    match load_data locations [] fourth_of_july today july_2012 (7, 2012) (7, 2012)
            None None with
    | Ok out => out
    | Err _ => {| out_element_keys := []; out_avg_loads := []; out_gps_loc := [];
                  out_park_data := [] |}
    end.

(** A metadata row with a first weekday rate and an effective start date,
    its other rate tiers empty. *)
Definition price_row (area : string) (key : Z) (rate1 : Q) (start : string) : csv_row :=
  {| csv_ElementKey := key; csv_PaidParkingArea := area;
     csv_WeekdayRate1 := Some rate1; csv_WeekdayRate2 := Some rate1;
     csv_WeekdayRate3 := None;
     csv_SaturdayRate1 := Some rate1; csv_SaturdayRate2 := None;
     csv_SaturdayRate3 := None;
     csv_StartTimeWeekday := Some 480%Q; csv_EndTimeWeekday := Some 1080%Q;
     csv_StartTimeSaturday := Some 480%Q; csv_EndTimeSaturday := Some 1080%Q;
     csv_EffectiveStartDate := Some start; csv_EffectiveEndDate := None |}.

(** Stand-ins for the libraries, enough to run [GMM]: a scaler that leaves
    the features as they are, a mixture that puts every point in component
    0, the identity for the square root, the survival function and the
    rounding. *)
Definition sk : sklearn :=
  {| scaler_t := unit; mixture_t := unit;
     MinMaxScaler_fit := fun _ => Ok tt;
     scaler_transform := fun _ m => Ok m;
     scaler_min_ := fun _ => [0; 0; 0]%Q;
     scaler_scale_ := fun _ => [1; 1; 1]%Q;
     GaussianMixture_fit := fun _ => Ok tt;
     mixture_means_ := fun _ => [];
     mixture_predict := fun _ m => Ok (map (fun _ => 0%nat) m);
     round2 := fun a => a |}.

Definition stats : stats_lib := {| np_sqrt := fun a => a; norm_sf := fun a => a |}.

(** Four block-faces of one paid area, with their coordinates. *)
Definition area_info : list paystation :=
  [ {| ELMNTKEY := 10; PAIDAREA := "Pike"; SUBAREA := "North" |};
    {| ELMNTKEY := 11; PAIDAREA := "Pike"; SUBAREA := "North" |};
    {| ELMNTKEY := 12; PAIDAREA := "Pike"; SUBAREA := "South" |};
    {| ELMNTKEY := 13; PAIDAREA := "Pike"; SUBAREA := "South" |} ].

Definition four_gps : list (list Q) := [[0; 0]; [1; 0]; [3; 0]; [7; 0]]%Q.

(** A row of the curated table for block [id] at 8 o'clock on day
    [date]. *)
Definition slot_row (id date : Z) (load : option Q) : Z * block_row :=
  let t := combine date (8 * 3600) in
  (id, {| Datetime := t; Load := load; Date := date_of t; Time := time_of t;
          Day := weekday_of t; Hour := hour_of t; Minute := minute_of t |}).

(** Two Mondays at 8 o'clock with a load for each of the four blocks. *)
Definition two_mondays : list (Z * block_row) :=
  [ slot_row 10 734693 (Some (1 # 2)%Q); slot_row 11 734693 (Some (3 # 4)%Q);
    slot_row 12 734693 (Some (1 # 4)%Q); slot_row 13 734693 (Some 1%Q);
    slot_row 10 734700 (Some (1 # 2)%Q); slot_row 11 734700 (Some (1 # 4)%Q);
    slot_row 12 734700 (Some (3 # 4)%Q); slot_row 13 734700 (Some 1%Q) ].


End sample.

(** ** The rest of the code

    The functions and expressions of the three files that the modules above
    leave out. *)

(** The index list that row [i] of the neighbor matrix is filled from: the
    right-hand side of line 89 of [moran_auto.py]. *)
Definition neighbors_of (gps_loc : list (list Q)) (N k i : nat) : result (list nat) :=
  pairs ← comprehension (fun j =>
             gi ← getitem gps_loc i; gj ← getitem gps_loc j;
             Ok (j, moran_auto.norm2 (zip_with Qminus gi gj)))
           (xrange N);
  match take k (drop 1 (moran_auto.sorted_by_key pairs)) with
  | [] => Err ValueError
  | nearest => Ok (map fst nearest)
  end.

(** [locational_demand_analysis] of [gmm.py]: [GMM] on every (day, hour)
    slot of the table.  [pool.map] re-raises an exception of a task that
    failed; when several tasks fail, the one of the first slot stands for
    it here. *)
Definition locational_demand_analysis (sk : gmm.sklearn)
    (area_info : list moran_auto.paystation) (L : moran_auto.stats_lib)
    (park_data : list (Z * process_data.block_row)) (gps_loc : list (list Q)) (k : nat)
  : result (list gmm.gmm_result) :=
  let days :=
    process_data.sort_by Z.leb
      (pd_unique (map (fun kr => process_data.Day (snd kr)) park_data)) in
  let hours :=
    process_data.sort_by Z.leb
      (pd_unique (map (fun kr => process_data.Hour (snd kr)) park_data)) in
  let times := list_prod days hours in
  comprehension (gmm.GMM sk area_info L park_data gps_loc times k)
    (seq 0 (length times)).

(** Lines 227 to 237 of [process_data.py]: the two dictionaries between the
    columns of [avg_loads] and the (day, hour) pairs, computed from the block
    [park_data.keys()[0]] picks.  The second dictionary is filled in the
    order of the items of the first. *)
Record index_maps_t := {
  idx_to_day_hour : gmap nat (Z * Z);
  day_hour_to_idx : gmap (Z * Z) nat
}.

Definition index_maps (block_data : list process_data.block_row) : index_maps_t :=
  let index := process_data.day_hour_groups block_data in
  let days := process_data.sort_by Z.leb (pd_unique (map fst index)) in
  let hours := process_data.sort_by Z.leb (pd_unique (map snd index)) in
  let idx_to_day_hour : gmap nat (Z * Z) :=
    foldl (fun d ij =>
             <[(fst ij * length hours + snd ij)%nat :=
                 (default 0%Z (days !! fst ij), default 0%Z (hours !! snd ij))]> d)
          ∅ (list_prod (seq 0 (length days)) (seq 0 (length hours))) in
  let day_hour_to_idx : gmap (Z * Z) nat :=
    foldl (fun d kv => <[snd kv := fst kv]> d) ∅ (map_to_list idx_to_day_hour) in
  {| idx_to_day_hour := idx_to_day_hour; day_hour_to_idx := day_hour_to_idx |}.

(** ** Further statements *)

(** *** Weight matrices *)

(** The co-membership matrix of a label vector: entry (i, j) is 1 when i and
    j differ and carry the same label. *)
Definition same_label_matrix (train_labels : list nat) : matrix :=
  imap (fun i li => imap (fun j lj => if decide (i <> j /\ li = lj) then 1%Q else 0%Q)
                         train_labels) train_labels.



(** The number of entries of a row equal to 1. *)
Definition count_ones (row : list Q) : nat :=
  length (List.filter (fun v => Qeq_bool v 1) row).




(** *** Moran's I and its variance *)





(** *** The evaluator *)

(** What [GMM] returns on a slot without rows: no tuple, no centre, and the
    rounded mean of an empty list of accuracies. *)
Definition empty_slot_result (sk : gmm.sklearn) (day hour : Z) : gmm.gmm_result :=
  {| gmm.res_day := day; gmm.res_hour := hour;
     gmm.res_time_avg_error := gmm.round2 sk NaN;
     gmm.res_morans_mixture := []; gmm.res_morans_area := [];
     gmm.res_morans_adjacent := []; gmm.res_centers := [] |}.

(** Test point [n] keeps its label: the label predicted for it is the label
    its block had on the training date. *)
Definition keeps_label (test_labels train_labels : list nat) (test_active_index : list Z)
    (train_to_label_map : gmap Z nat) (n : nat) : bool :=
  match test_active_index !! n with
  | Some key =>
      match train_to_label_map !! key with
      | Some idx =>
          match test_labels !! n, train_labels !! idx with
          | Some t, Some t' => bool_decide (t = t')
          | _, _ => false
          end
      | None => false
      end
  | None => false
  end.

(** *** The curated arrays *)

(** What the operating-hour rules may do to a row: leave it, or blank its
    load when it is not a Saturday row. *)
Definition blanked (r r' : process_data.block_row) : Prop :=
  r' = r \/ (r' = process_data.set_Load r None /\ process_data.Day r <> 5%Z).

(** The columns [load_data] derives from the timestamp of a row. *)
Definition derived_columns (r : process_data.block_row) : Prop :=
  process_data.Date r = process_data.date_of (process_data.Datetime r)
  /\ process_data.Time r = process_data.time_of (process_data.Datetime r)
  /\ process_data.Day r = process_data.weekday_of (process_data.Datetime r)
  /\ process_data.Hour r = process_data.hour_of (process_data.Datetime r)
  /\ process_data.Minute r = process_data.minute_of (process_data.Datetime r).

(** The order of the rows of the returned table: by timestamp, then by
    block key. *)
Definition table_le (a b : Z * process_data.block_row) : Prop :=
  (process_data.Datetime (snd a) < process_data.Datetime (snd b)
   \/ (process_data.Datetime (snd a) = process_data.Datetime (snd b) /\ fst a <= fst b))%Z.

(** An average load: nan, or a number that is at most 1.5. *)
Definition average_ok (v : npfloat) : Prop :=
  match v with
  | Fin q => (q <= 3 # 2)%Q
  | NaN => True
  | PInf | NInf => False
  end.

(** *** The comparisons of get_price_changes *)

(** The block [get_price_changes] compares the rows of, for one key: the
    rows of the area with that key and a first weekday rate, sorted by start
    date. *)
Definition block_of (area : string) (block_info : list process_data.csv_row) (key : Z)
  : list process_data.csv_row :=
  process_data.sort_by process_data.start_leb
    (List.filter (fun r => bool_decide (is_Some (process_data.csv_WeekdayRate1 r)))
       (List.filter (fun r => (process_data.csv_ElementKey r =? key)%Z)
          (List.filter (fun r => bool_decide (process_data.csv_PaidParkingArea r = area))
             block_info))).

(** The pairs (row i, row i+1) of a block. *)
Definition consecutive {A} (l : list A) : list (A * A) := zip l (drop 1 l).



(** * Properties *)

(** ** The result monad and the loops *)

Section monad_facts.
Context {A B : Type}.

Lemma bind_Ok_inv (r : result A) (f : A -> result B) (b : B) :
  r ≫= f = Ok b -> exists a, r = Ok a /\ f a = Ok b.
Proof. destruct r as [a|e]; cbn; [eauto | discriminate]. Qed.

Lemma bind_Err_inv (r : result A) (f : A -> result B) (e : exn) :
  r ≫= f = Err e -> r = Err e \/ exists a, r = Ok a /\ f a = Err e.
Proof. destruct r as [a|e']; cbn; [eauto | left; congruence]. Qed.

Lemma getitem_Ok (l : list A) (i : nat) (a : A) :
  getitem l i = Ok a <-> l !! i = Some a.
Proof. unfold getitem. destruct (l !! i); split; congruence. Qed.

Lemma getitem_lt (l : list A) (i : nat) :
  i < length l -> exists a, getitem l i = Ok a /\ l !! i = Some a.
Proof.
  intros Hi. destruct (lookup_lt_is_Some_2 l i Hi) as [a Ha].
  exists a. split; [by apply getitem_Ok | done].
Qed.

Lemma getitem_Err (l : list A) (i : nat) (e : exn) :
  getitem l i = Err e -> e = IndexError.
Proof. unfold getitem. destruct (l !! i); congruence. Qed.
End monad_facts.

Ltac inv_bind H :=
  let a := fresh "a" in
  let Ha := fresh "H" a in
  apply bind_Ok_inv in H as (a & Ha & H).

(** A loop that returns has maintained every invariant of its body. *)
Lemma for_loop_invariant {A S} (P : S -> Prop) (body : S -> A -> result S)
    (idx : list A) (s s' : S) :
  (forall s i s', i ∈ idx -> P s -> body s i = Ok s' -> P s') ->
  P s -> for_loop body s idx = Ok s' -> P s'.
Proof.
  revert s. induction idx as [|i idx IH]; intros s Hbody Hs Hrun; cbn in Hrun.
  - congruence.
  - inv_bind Hrun. apply (IH a); [| |done].
    + intros ? ? ? ?. apply Hbody. by right.
    + eapply Hbody; [left | done | done].
Qed.

(** A loop that raises does so in its body. *)
Lemma for_loop_Err {A S} (body : S -> A -> result S) (idx : list A) (s : S) (e : exn) :
  for_loop body s idx = Err e -> exists s' i, i ∈ idx /\ body s' i = Err e.
Proof.
  revert s. induction idx as [|i idx IH]; intros s Hrun; cbn in Hrun; [discriminate|].
  apply bind_Err_inv in Hrun as [Hrun | (s' & _ & Hrun)].
  - exists s, i. split; [left | done].
  - destruct (IH _ Hrun) as (s'' & j & Hj & Hb). exists s'', j. split; [by right | done].
Qed.

(** A loop whose body never raises under the invariant runs to its end. *)
Lemma for_loop_total {A S} (P : S -> Prop) (body : S -> A -> result S)
    (idx : list A) (s : S) :
  (forall s i, i ∈ idx -> P s -> exists s', body s i = Ok s' /\ P s') ->
  P s -> exists s', for_loop body s idx = Ok s' /\ P s'.
Proof.
  revert s. induction idx as [|i idx IH]; intros s Hbody Hs; cbn.
  - eauto.
  - destruct (Hbody s i) as (s1 & -> & Hs1); [left | done |]. cbn.
    apply IH; [|done]. intros ? ? ?. apply Hbody. by right.
Qed.

Lemma comprehension_inv {A B} (f : A -> result B) (idx : list A) (bs : list B) :
  comprehension f idx = Ok bs -> Forall2 (fun i b => f i = Ok b) idx bs.
Proof.
  revert bs. induction idx as [|i idx IH]; intros bs H; cbn in H.
  - injection H as <-. constructor.
  - apply bind_Ok_inv in H as (b & Hb & H). apply bind_Ok_inv in H as (bs' & Hbs & H).
    injection H as <-. constructor; [done | by apply IH].
Qed.

Lemma comprehension_Ok {A B} (f : A -> result B) (g : A -> B) (idx : list A) :
  (forall i, i ∈ idx -> f i = Ok (g i)) -> comprehension f idx = Ok (map g idx).
Proof.
  induction idx as [|i idx IH]; intros Hf; cbn; [done|].
  rewrite Hf by left. cbn. rewrite IH; [done|]. intros ? ?. apply Hf. by right.
Qed.

(** ** Shapes of the weight matrices *)

Lemma np_zeros_shape n m : shape n m (np_zeros n m).
Proof.
  unfold shape, np_zeros. split; [apply length_replicate|].
  apply Forall_replicate, length_replicate.
Qed.

Lemma np_zeros_binary n m : binary (np_zeros n m).
Proof. unfold binary, np_zeros. apply Forall_replicate, Forall_replicate. by left. Qed.

Lemma set_items_length row idxs v row' :
  set_items row idxs v = Ok row' -> length row' = length row.
Proof.
  revert row. induction idxs as [|j js IH]; intros row H; cbn in H.
  - congruence.
  - case_decide; [|discriminate]. rewrite (IH _ H). apply length_insert.
Qed.

Lemma set_items_binary row idxs row' :
  Forall (fun v => v = 0%Q \/ v = 1%Q) row ->
  set_items row idxs 1%Q = Ok row' -> Forall (fun v => v = 0%Q \/ v = 1%Q) row'.
Proof.
  revert row. induction idxs as [|j js IH]; intros row Hrow H; cbn in H.
  - congruence.
  - case_decide; [|discriminate]. apply (IH _ (Forall_insert _ _ _ _ Hrow (or_intror eq_refl)) H).
Qed.

Lemma set_items_total row idxs v :
  Forall (fun j => j < length row) idxs -> exists row', set_items row idxs v = Ok row'.
Proof.
  revert row. induction idxs as [|j js IH]; intros row Hidx; cbn; [eauto|].
  apply Forall_cons in Hidx as [Hj Hjs]. rewrite decide_True by done.
  apply IH. eapply Forall_impl; [done|]. intros ? ?. by rewrite length_insert.
Qed.

Lemma set_items_Err row idxs v e : set_items row idxs v = Err e -> e = IndexError.
Proof.
  revert row. induction idxs as [|j js IH]; intros row H; cbn in H; [discriminate|].
  case_decide; [eauto | congruence].
Qed.

Lemma set_row_items_shape n m w i idxs v w' :
  shape n m w -> set_row_items w i idxs v = Ok w' -> shape n m w'.
Proof.
  intros [Hn Hm] H. unfold set_row_items in H. inv_bind H. inv_bind H.
  injection H as <-. apply getitem_Ok in Ha.
  split; [by rewrite length_insert|].
  apply Forall_insert; [done|]. rewrite (set_items_length _ _ _ _ Ha0).
  by eapply (Forall_lookup_1 _ _ _ _ Hm).
Qed.

Lemma set_row_items_binary w i idxs w' :
  binary w -> set_row_items w i idxs 1%Q = Ok w' -> binary w'.
Proof.
  intros Hb H. unfold set_row_items in H. inv_bind H. inv_bind H.
  injection H as <-. apply getitem_Ok in Ha.
  apply Forall_insert; [done|]. eapply set_items_binary; [|done].
  by eapply (Forall_lookup_1 _ _ _ _ Hb).
Qed.

Lemma set_row_items_total n m w i idxs v :
  shape n m w -> i < n -> Forall (fun j => j < m) idxs ->
  exists w', set_row_items w i idxs v = Ok w'.
Proof.
  intros [Hn Hm] Hi Hidx. unfold set_row_items.
  destruct (getitem_lt w i) as (row & -> & Hrow); [lia|]. cbn.
  destruct (set_items_total row idxs v) as [row' ->]; [|cbn; eauto].
  by rewrite (Forall_lookup_1 _ _ _ _ Hm Hrow).
Qed.

Lemma set_row_items_Err w i idxs v e : set_row_items w i idxs v = Err e -> e = IndexError.
Proof.
  unfold set_row_items. intros H.
  apply bind_Err_inv in H as [H | (row & _ & H)]; [by eapply getitem_Err|].
  apply bind_Err_inv in H as [H | (row' & _ & H)]; [by eapply set_items_Err | discriminate].
Qed.

Lemma zero_diag_shape n m w : shape n m w -> shape n m (zero_diag w).
Proof.
  intros [Hn Hm]. unfold zero_diag. split; [by rewrite length_imap|].
  apply Forall_lookup. intros i row Hrow.
  apply list_lookup_imap_Some in Hrow as (row0 & Hrow0 & ->).
  rewrite length_insert. by eapply (Forall_lookup_1 _ _ _ _ Hm).
Qed.

Lemma zero_diag_binary w : binary w -> binary (zero_diag w).
Proof.
  intros Hb. unfold zero_diag. apply Forall_lookup. intros i row Hrow.
  apply list_lookup_imap_Some in Hrow as (row0 & Hrow0 & ->).
  apply Forall_insert; [|by left]. by eapply (Forall_lookup_1 _ _ _ _ Hb).
Qed.

Lemma zero_diag_zero_diagonal w : zero_diagonal (zero_diag w).
Proof.
  intros i row Hrow Hi. unfold zero_diag in Hrow.
  apply list_lookup_imap_Some in Hrow as (row0 & Hrow0 & ->).
  rewrite length_insert in Hi. by apply list_lookup_insert_eq.
Qed.

Lemma elem_of_pd_unique `{EqDecision A} (l : list A) (a : A) : a ∈ pd_unique l <-> a ∈ l.
Proof.
  induction l as [|b l IH]; cbn; [done|].
  rewrite !elem_of_cons, <- IH, (list_elem_of_In (List.filter _ _) a), filter_In.
  rewrite bool_decide_eq_true, <- list_elem_of_In. destruct (decide (a = b)); tauto.
Qed.

Lemma NoDup_pd_unique `{EqDecision A} (l : list A) : NoDup (pd_unique l).
Proof.
  induction l as [|b l IH]; cbn; [constructor|].
  constructor.
  - rewrite list_elem_of_In, filter_In, bool_decide_eq_true. tauto.
  - apply NoDup_ListNoDup, List.NoDup_filter, NoDup_ListNoDup, IH.
Qed.

(** ** get_area_weights: the unbound local (C9) *)

Section area_weights.
Import moran_auto.
Variable area_info : list paystation.

Lemma first_of_key_total {A} (col : paystation -> A) (key : Z) :
  key ∈ all_keys area_info -> exists a, first_of_key col area_info key = Ok a.
Proof.
  unfold all_keys, first_of_key. rewrite elem_of_pd_unique, list_elem_of_fmap.
  intros (r & -> & Hr).
  destruct (List.filter _ area_info) as [|r0 l] eqn:Hf.
  - assert (In r []) as []. rewrite <- Hf. apply filter_In.
    split; [by apply list_elem_of_In | by apply bool_decide_eq_true].
  - cbn. eauto.
Qed.

Lemma area_body_Err (st : area_locals) (key : Z) (e : exn) :
  area_body area_info st key = Err e ->
  e = UnboundLocalError "area" /\ area st = None /\ key ∉ all_keys area_info.
Proof.
  unfold area_body. intros H. case_decide as Hkey.
  - destruct (first_of_key_total PAIDAREA key Hkey) as [p Hp].
    destruct (first_of_key_total SUBAREA key Hkey) as [q Hq].
    rewrite Hp, Hq in H. cbn in H. discriminate.
  - cbn in H. destruct (area st); [discriminate|]. by injection H as <-.
Qed.

Lemma area_body_unbound (st : area_locals) (key : Z) :
  area st = None -> key ∉ all_keys area_info ->
  area_body area_info st key = Err (UnboundLocalError "area").
Proof. intros Hst Hkey. unfold area_body. by rewrite decide_False, Hst. Qed.

Lemma area_body_Ok (st st' : area_locals) (key : Z) :
  area_body area_info st key = Ok st' ->
  exists a, area st' = Some a
    /\ area_dict st' = <[a := default [] (area_dict st !! a) ++ [count st]]> (area_dict st)
    /\ key_dict st' = <[key := a]> (key_dict st)
    /\ count st' = S (count st).
Proof.
  unfold area_body. intros H. inv_bind H. destruct a as [a|]; [|discriminate].
  injection H as <-. cbn. eauto.
Qed.

Lemma area_body_total (st : area_locals) (key : Z) :
  key ∈ all_keys area_info \/ is_Some (area st) ->
  exists st', area_body area_info st key = Ok st'.
Proof.
  unfold area_body. intros H. case_decide as Hkey.
  - destruct (first_of_key_total PAIDAREA key Hkey) as [p ->].
    destruct (first_of_key_total SUBAREA key Hkey) as [q ->]. cbn. eauto.
  - destruct H as [?|[a Ha]]; [done|]. rewrite Ha. cbn. eauto.
Qed.

(** The first loop can only fail on its first key, before [area] is bound. *)
Lemma area_loop_Err (st : area_locals) (idx : list Z) (e : exn) :
  for_loop (area_body area_info) st idx = Err e ->
  e = UnboundLocalError "area" /\ area st = None
  /\ exists key rest, idx = key :: rest /\ key ∉ all_keys area_info.
Proof.
  destruct idx as [|key rest]; cbn; [discriminate|]. intros H.
  apply bind_Err_inv in H as [H | (st1 & H1 & H)].
  - apply area_body_Err in H as (-> & ? & ?). eauto 6.
  - exfalso. apply area_body_Ok in H1 as (a & Ha & _).
    clear key. revert st1 a Ha H. induction rest as [|key rest IH]; intros st1 a Ha H.
    + discriminate.
    + cbn in H. apply bind_Err_inv in H as [H | (st2 & H2 & H)].
      * apply area_body_Err in H as (_ & ? & _). congruence.
      * apply area_body_Ok in H2 as (a2 & Ha2 & _). eauto.
Qed.

(** C9.  [get_area_weights] fails on the unbound local [area] exactly when
    the first key of [train_active_index] does not occur in the ELMNTKEY
    column of the paystation table: it does so on every such input, and
    with the first key in the table that error cannot arise.  No other
    local is ever unbound. *)
Theorem get_area_weights_unbound_area (train_active_index : list Z) (N : nat) :
  (get_area_weights area_info train_active_index N = Err (UnboundLocalError "area")
   <-> exists key rest, train_active_index = key :: rest /\ key ∉ all_keys area_info)
  /\ (forall name,
        get_area_weights area_info train_active_index N = Err (UnboundLocalError name) ->
        name = "area").
Proof using Type.
  assert (forall name,
            get_area_weights area_info train_active_index N = Err (UnboundLocalError name) ->
            name = "area"
            /\ exists key rest, train_active_index = key :: rest /\ key ∉ all_keys area_info)
    as Hfwd.
  { intros name H. unfold get_area_weights in H.
    apply bind_Err_inv in H as [H | (st & _ & H)].
    { apply area_loop_Err in H as (Hname & _ & ?). split; [congruence | done]. }
    exfalso. apply bind_Err_inv in H as [H | (w & _ & H)]; [|discriminate].
    apply for_loop_Err in H as (w & i & _ & H).
    apply bind_Err_inv in H as [H | (key & _ & H)].
    { by apply getitem_Err in H. }
    apply bind_Err_inv in H as [H | (a & _ & H)].
    { unfold dict_get in H. destruct (_ !! _); discriminate. }
    by apply set_row_items_Err in H. }
  split; [split|].
  - intros H. by apply Hfwd in H as [_ ?].
  - intros (key & rest & -> & Hkey).
    unfold get_area_weights. cbn [for_loop].
    by rewrite area_body_unbound.
  - intros name H. by apply Hfwd in H as [? _].
Qed.

(** A first key outside the table raises; a later one takes the area of
    the key before it. *)
Example stale_area_example :
  get_area_weights
    [ {| ELMNTKEY := 10; PAIDAREA := "Pike"; SUBAREA := "North" |};
      {| ELMNTKEY := 11; PAIDAREA := "Pike"; SUBAREA := "North" |} ]
    [7; 10; 11]%Z 3
  = Err (UnboundLocalError "area")
  /\ get_area_weights
       [ {| ELMNTKEY := 10; PAIDAREA := "Pike"; SUBAREA := "North" |};
         {| ELMNTKEY := 11; PAIDAREA := "Pike"; SUBAREA := "North" |} ]
       [10; 7; 11]%Z 3
     = Ok [[0; 1; 1]; [1; 0; 1]; [1; 1; 0]]%Q.
Proof. split; vm_compute; reflexivity. Qed.
End area_weights.

(** ** The three constructions return N x N matrices *)

Section constructions.
Import moran_auto.

Lemma weight_loop_shape {A} (body : matrix -> A -> result matrix) (idx : list A)
    (n m : nat) (w w' : matrix) :
  (forall w i w', shape n m w -> body w i = Ok w' -> shape n m w') ->
  shape n m w -> for_loop body w idx = Ok w' -> shape n m w'.
Proof. intros Hbody. apply for_loop_invariant. intros ? ? ? _. apply Hbody. Qed.

Lemma weight_loop_binary {A} (body : matrix -> A -> result matrix) (idx : list A)
    (w w' : matrix) :
  (forall w i w', binary w -> body w i = Ok w' -> binary w') ->
  binary w -> for_loop body w idx = Ok w' -> binary w'.
Proof. intros Hbody. apply for_loop_invariant. intros ? ? ? _. apply Hbody. Qed.

Lemma get_mixture_weights_Ok (train_labels : list nat) (N : nat) (w : matrix) :
  get_mixture_weights train_labels N = Ok w ->
  shape N N w /\ binary w /\ zero_diagonal w.
Proof.
  unfold get_mixture_weights. intros H. inv_bind H. injection H as <-.
  split; [|split].
  - apply zero_diag_shape. eapply weight_loop_shape; [|apply np_zeros_shape|done].
    intros w0 i w1 Hw0 Hb. inv_bind Hb. by eapply set_row_items_shape.
  - apply zero_diag_binary. eapply weight_loop_binary; [|apply np_zeros_binary|done].
    intros w0 i w1 Hw0 Hb. inv_bind Hb. by eapply set_row_items_binary.
  - apply zero_diag_zero_diagonal.
Qed.

Lemma where_eq_lt (train_labels : list nat) (label : nat) :
  Forall (fun j => j < length train_labels) (where_eq train_labels label).
Proof.
  unfold where_eq. apply Forall_forall. intros j Hj.
  apply list_elem_of_In, filter_In in Hj as [Hj _]. apply in_seq in Hj. lia.
Qed.

Lemma get_mixture_weights_total (train_labels : list nat) (N : nat) :
  length train_labels = N -> exists w, get_mixture_weights train_labels N = Ok w.
Proof.
  intros Hlen. unfold get_mixture_weights.
  destruct (for_loop_total (shape N N)
              (fun weights i => label ← getitem train_labels i;
                 set_row_items weights i (where_eq train_labels label) 1%Q)
              (xrange N) (np_zeros N N)) as (w & -> & _); [| apply np_zeros_shape | cbn; eauto].
  intros w i Hi Hw. apply list_elem_of_In, in_seq in Hi.
  destruct (getitem_lt train_labels i) as (label & -> & _); [lia|]. cbn.
  destruct (set_row_items_total N N w i (where_eq train_labels label) 1%Q) as [w' Hw'];
    [done | lia | rewrite <- Hlen; apply where_eq_lt |].
  exists w'. split; [done|]. by eapply set_row_items_shape.
Qed.

Lemma get_area_weights_Ok (area_info : list paystation) (train_active_index : list Z)
    (N : nat) (w : matrix) :
  get_area_weights area_info train_active_index N = Ok w ->
  shape N N w /\ binary w /\ zero_diagonal w.
Proof.
  unfold get_area_weights. intros H. inv_bind H. inv_bind H. injection H as <-.
  split; [|split].
  - apply zero_diag_shape. eapply weight_loop_shape; [|apply np_zeros_shape|done].
    intros w0 i w1 Hw0 Hb. inv_bind Hb. inv_bind Hb. by eapply set_row_items_shape.
  - apply zero_diag_binary. eapply weight_loop_binary; [|apply np_zeros_binary|done].
    intros w0 i w1 Hw0 Hb. inv_bind Hb. inv_bind Hb. by eapply set_row_items_binary.
  - apply zero_diag_zero_diagonal.
Qed.

(** What the first loop of [get_area_weights] establishes: every key is
    mapped to an area, and the area lists hold positions below [count]. *)
Lemma area_loop_Ok (area_info : list paystation) (idx : list Z) (st st' : area_locals) :
  for_loop (area_body area_info) st idx = Ok st' ->
  (forall a l, area_dict st !! a = Some l -> Forall (fun j => j < count st) l) ->
  count st' = count st + length idx
  /\ (forall a l, area_dict st' !! a = Some l -> Forall (fun j => j < count st') l)
  /\ (forall key, key ∈ idx \/ is_Some (key_dict st !! key) -> is_Some (key_dict st' !! key)).
Proof.
  revert st. induction idx as [|key idx IH]; intros st H Hst; cbn in H.
  - injection H as <-. split; [cbn; lia|]. split; [done|].
    intros key [Hk|Hk]; [by apply elem_of_nil in Hk | done].
  - inv_bind H. apply area_body_Ok in Ha as (ar & Har & Hd & Hk & Hc).
    destruct (IH a H) as (IH1 & IH2 & IH3).
    + intros a' l. rewrite Hd, Hc. intros Hl.
      apply lookup_insert_Some in Hl as [[<- <-]|[_ Hl]].
      * apply Forall_app. split; [|repeat constructor; lia].
        destruct (area_dict st !! ar) as [l0|] eqn:El; cbn; [|constructor].
        eapply Forall_impl; [by eapply Hst|]. cbn. lia.
      * eapply Forall_impl; [by eapply Hst|]. cbn. lia.
    + split; [cbn; lia|]. split; [done|].
      intros key' Hkey'. apply IH3. rewrite Hk.
      destruct (decide (key' = key)) as [->|Hne].
      * right. rewrite lookup_insert_eq. eauto.
      * rewrite lookup_insert_ne by done.
        destruct Hkey' as [Hkey'|?]; [|by right].
        apply elem_of_cons in Hkey' as [?|?]; [done | by left].
Qed.

Lemma get_area_weights_total (area_info : list paystation) (train_active_index : list Z)
    (N : nat) :
  length train_active_index = N ->
  Forall (fun key => key ∈ all_keys area_info) train_active_index ->
  exists w, get_area_weights area_info train_active_index N = Ok w.
Proof.
  intros Hlen Hkeys. unfold get_area_weights.
  set (st0 := {| area := None; area_dict := ∅; key_dict := ∅; count := 0 |}).
  destruct (for_loop (area_body area_info) st0 train_active_index) as [st|e] eqn:Hloop.
  2:{ apply area_loop_Err in Hloop as (_ & _ & key & rest & -> & Hkey).
      by apply Forall_cons in Hkeys as [? _]. }
  apply area_loop_Ok in Hloop as (Hc & Hd & Hk); [|intros a l; unfold st0; cbn; by rewrite lookup_empty].
  cbn in Hc. cbn [mbind result_bind].
  destruct (for_loop_total (shape N N)
              (fun weights i => key ← getitem train_active_index i;
                 a ← dict_get (key_dict st) key;
                 set_row_items weights i (default [] (area_dict st !! a)) 1%Q)
              (xrange N) (np_zeros N N)) as (w & -> & _); [| apply np_zeros_shape | cbn; eauto].
  intros w i Hi Hw. apply list_elem_of_In, in_seq in Hi.
  destruct (getitem_lt train_active_index i) as (key & -> & Hkey); [lia|]. cbn.
  destruct (Hk key) as [a Ha]; [left; by eapply list_elem_of_lookup_2|].
  unfold dict_get. rewrite Ha. cbn.
  destruct (set_row_items_total N N w i (default [] (area_dict st !! a)) 1%Q) as [w' Hw'];
    [done | lia | |].
  { destruct (area_dict st !! a) as [l|] eqn:El; cbn; [|constructor].
    eapply Forall_impl; [by eapply Hd|]. cbn. lia. }
  exists w'. split; [done|]. by eapply set_row_items_shape.
Qed.

Lemma get_neighbor_weights_Ok (gps_loc : list (list Q)) (N k : nat) (w : matrix) :
  get_neighbor_weights gps_loc N k = Ok w -> shape N N w /\ binary w.
Proof.
  unfold get_neighbor_weights. intros H. split.
  - eapply weight_loop_shape; [|apply np_zeros_shape|done].
    intros w0 i w1 Hw0 Hb. inv_bind Hb.
    destruct (take k _); [discriminate|]. by eapply set_row_items_shape.
  - eapply weight_loop_binary; [|apply np_zeros_binary|done].
    intros w0 i w1 Hw0 Hb. inv_bind Hb.
    destruct (take k _); [discriminate|]. by eapply set_row_items_binary.
Qed.

End constructions.

Section neighbor_weights.
Import moran_auto.

Lemma insert_by_key_perm (p : nat * Q) (l : list (nat * Q)) :
  insert_by_key p l ≡ₚ p :: l.
Proof.
  induction l as [|q l IH]; cbn; [done|].
  destruct (Qle_bool _ _); [done|]. by rewrite IH, Permutation_swap.
Qed.

Lemma sorted_by_key_perm (l : list (nat * Q)) : sorted_by_key l ≡ₚ l.
Proof.
  induction l as [|p l IH]; cbn; [done|]. by rewrite insert_by_key_perm, IH.
Qed.

(** With at least [N] coordinate rows and [0 < k < N], the construction
    returns. *)
Lemma get_neighbor_weights_total (gps_loc : list (list Q)) (N k : nat) :
  N <= length gps_loc -> 0 < k < N -> exists w, get_neighbor_weights gps_loc N k = Ok w.
Proof.
  intros Hlen Hk. unfold get_neighbor_weights.
  match goal with
  | |- exists w, for_loop ?b ?s ?idx = _ =>
      destruct (for_loop_total (shape N N) b idx s) as (w & -> & _);
        [| apply np_zeros_shape | eauto]
  end.
  intros w i Hi Hw. apply list_elem_of_In, in_seq in Hi.
  destruct (getitem_lt gps_loc i) as (gi & Hgi & _); [lia|].
  set (d := fun j => norm2 (zip_with Qminus gi (default [] (gps_loc !! j)))).
  rewrite (comprehension_Ok _ (fun j => (j, d j))).
  2:{ intros j Hj. apply list_elem_of_In, in_seq in Hj. rewrite Hgi. cbn.
      destruct (getitem_lt gps_loc j) as (gj & -> & Hgj); [lia|]. cbn.
      unfold d. by rewrite Hgj. }
  cbn [mbind result_bind].
  set (pairs := map _ (xrange N)).
  assert (length (sorted_by_key pairs) = N) as Hsl.
  { rewrite (Permutation_length (sorted_by_key_perm pairs)). unfold pairs, xrange.
    by rewrite length_map, length_seq. }
  assert (Forall (fun j => j < N) (map fst (take k (drop 1 (sorted_by_key pairs))))) as Hfst.
  { apply Forall_forall. intros j Hj. apply list_elem_of_fmap in Hj as (p & -> & Hp).
    apply elem_of_take in Hp as (n & Hp & _).
    rewrite lookup_drop in Hp. apply list_elem_of_lookup_2 in Hp.
    rewrite sorted_by_key_perm in Hp. unfold pairs in Hp.
    apply list_elem_of_fmap in Hp as (j & -> & Hj). apply list_elem_of_In, in_seq in Hj.
    cbn. lia. }
  destruct (take k (drop 1 (sorted_by_key pairs))) as [|p nearest] eqn:Hn.
  { apply (f_equal length) in Hn. rewrite length_take, length_drop, Hsl in Hn. cbn in Hn. lia. }
  destruct (set_row_items_total N N w i (map fst (p :: nearest)) 1%Q) as [w' Hw'];
    [done | lia | done |].
  exists w'. split; [done|]. by eapply set_row_items_shape.
Qed.

End neighbor_weights.

(** The part of C4 that holds: the three constructions return N x N
    matrices of zeros and ones, unless they raise; the area and mixture
    matrices have a zero diagonal; and under the preconditions of each
    scheme the construction returns. *)
Lemma weight_matrices_square_binary (N : nat) :
  (forall area_info train_active_index,
     (forall w, moran_auto.get_area_weights area_info train_active_index N = Ok w ->
        shape N N w /\ binary w /\ zero_diagonal w)
     /\ (length train_active_index = N ->
         Forall (fun key => key ∈ moran_auto.all_keys area_info) train_active_index ->
         exists w, moran_auto.get_area_weights area_info train_active_index N = Ok w))
  /\ (forall train_labels,
     (forall w, moran_auto.get_mixture_weights train_labels N = Ok w ->
        shape N N w /\ binary w /\ zero_diagonal w)
     /\ (length train_labels = N ->
         exists w, moran_auto.get_mixture_weights train_labels N = Ok w))
  /\ (forall gps_loc k,
     (forall w, moran_auto.get_neighbor_weights gps_loc N k = Ok w ->
        shape N N w /\ binary w)
     /\ (length gps_loc = N -> 0 < k < N ->
         exists w, moran_auto.get_neighbor_weights gps_loc N k = Ok w)).
Proof.
  split; [|split]; intros; split.
  - apply get_area_weights_Ok.
  - apply get_area_weights_total.
  - apply get_mixture_weights_Ok.
  - apply get_mixture_weights_total.
  - apply get_neighbor_weights_Ok.
  - intros Hlen. apply get_neighbor_weights_total. lia.
Qed.

(** C4.  On three block-faces of which the first two share their
    coordinates, with k = 1, the neighbor matrix has a 1 on its diagonal:
    row 1 keeps block 1 itself, which the stable sort leaves behind block 0
    at distance 0. *)
Theorem get_neighbor_weights_diagonal :
  moran_auto.get_neighbor_weights [[1; 1]; [1; 1]; [5; 5]]%Q 3 1
  = Ok [[0; 1; 0]; [0; 1; 0]; [1; 0; 0]]%Q
  /\ ~ zero_diagonal [[0; 1; 0]; [0; 1; 0]; [1; 0; 0]]%Q.
Proof.
  split; [vm_compute; reflexivity|].
  intros H. specialize (H 1 [0; 1; 0]%Q eq_refl ltac:(cbn; lia)). discriminate.
Qed.

(** ** Sums: the generator loops of the code against the index sums *)

Section sums.
Import spec.
Local Open Scope Q_scope.

Lemma sum_from_foldr (acc : Q) (l : list Q) : sum_from acc l == acc + foldr Qplus 0 l.
Proof.
  revert acc. induction l as [|v l IH]; intros acc; cbn.
  - ring.
  - rewrite IH. ring.
Qed.

Lemma py_sum_foldr (l : list Q) : py_sum l == foldr Qplus 0 l.
Proof. unfold py_sum. rewrite sum_from_foldr. ring. Qed.















Lemma QN_pos (N : nat) : (0 < N)%nat -> 0 < QN N.
Proof. intros H. unfold QN, Qlt. cbn. lia. Qed.

Lemma QN_minus (N k : nat) : (k <= N)%nat -> QN N - QN k == QN (N - k).
Proof.
  intros H. unfold QN, Qeq, Qminus, Qplus, Qopp. cbn. lia.
Qed.





End sums.

(** ** The diagonal of the neighbor matrix *)

Section neighbor_diagonal.
Import moran_auto.
Local Open Scope Q_scope.

Lemma norm2_self (g : list Q) : norm2 (zip_with Qminus g g) == 0.
Proof.
  unfold norm2. rewrite py_sum_foldr.
  induction g as [|a g IH]; cbn [zip_with map foldr]; [reflexivity|].
  rewrite IH. ring.
Qed.

Lemma insert_by_key_min (p : nat * Q) (s : list (nat * Q)) :
  (forall q, q ∈ s -> snd p <= snd q) -> insert_by_key p s = p :: s.
Proof.
  destruct s as [|q s]; intros H; cbn; [done|].
  assert (Qle_bool p.2 q.2 = true) as -> by (apply Qle_bool_iff, H; left). done.
Qed.

(** The stable sort puts first a pair whose key is below every other. *)
Lemma sorted_by_key_head (p : nat * Q) (l : list (nat * Q)) :
  p ∈ l -> (forall q, q ∈ l -> q = p \/ snd p < snd q) ->
  exists rest, sorted_by_key l = p :: rest.
Proof.
  induction l as [|x l IH]; intros Hp Hmin; [by apply elem_of_nil in Hp|].
  cbn [sorted_by_key foldr]. fold (sorted_by_key l).
  destruct (Hmin x ltac:(left)) as [->|Hx].
  - exists (sorted_by_key l). apply insert_by_key_min. intros q Hq.
    rewrite sorted_by_key_perm in Hq.
    destruct (Hmin q ltac:(by right)) as [->|?]; [apply Qle_refl | by apply Qlt_le_weak].
  - apply elem_of_cons in Hp as [->|Hp].
    { exfalso. by apply Qlt_irrefl in Hx. }
    destruct IH as [rest Hrest]; [done | intros q Hq; apply Hmin; by right |].
    rewrite Hrest. cbn [insert_by_key].
    assert (Qle_bool x.2 p.2 = false) as ->; [|eauto].
    apply not_true_is_false. intros Hle. apply Qle_bool_iff in Hle.
    by apply Qle_not_lt in Hle.
Qed.

Lemma set_items_lookup_notin (row : list Q) (idxs : list nat) (v : Q) (row' : list Q)
    (i : nat) :
  set_items row idxs v = Ok row' -> i ∉ idxs -> row' !! i = row !! i.
Proof.
  revert row. induction idxs as [|j js IH]; intros row H Hi; cbn in H.
  - by injection H as <-.
  - case_decide; [|discriminate]. apply not_elem_of_cons in Hi as [Hij Hi].
    rewrite (IH _ H Hi). by apply list_lookup_insert_ne.
Qed.

(** When no two of the first [N] coordinate rows are at distance 0, every
    block sorts first in its own row and the slice [1:k+1] leaves it out:
    the diagonal stays 0. *)
Lemma get_neighbor_weights_zero_diagonal (gps_loc : list (list Q)) (N k : nat) (w : matrix) :
  (forall i j gi gj, (i < N)%nat -> (j < N)%nat -> i <> j ->
     gps_loc !! i = Some gi -> gps_loc !! j = Some gj ->
     0 < norm2 (zip_with Qminus gi gj)) ->
  get_neighbor_weights gps_loc N k = Ok w -> zero_diagonal w.
Proof.
  intros Hdist. unfold get_neighbor_weights.
  apply (for_loop_invariant zero_diagonal).
  2:{ intros i row Hrow Hi. unfold np_zeros in Hrow.
      apply lookup_replicate in Hrow as [-> _]. apply lookup_replicate_2.
      by rewrite length_replicate in Hi. }
  intros w0 i w1 Hi Hw0 Hbody. apply list_elem_of_In, in_seq in Hi.
  apply bind_Ok_inv in Hbody as (pairs & Hpairs & Hbody).
  apply comprehension_inv in Hpairs.
  assert (forall j, (j < N)%nat -> exists gi gj,
            gps_loc !! i = Some gi /\ gps_loc !! j = Some gj
            /\ pairs !! j = Some (j, norm2 (zip_with Qminus gi gj))) as Hrows.
  { intros j Hj.
    destruct (Forall2_lookup_l _ _ _ j j Hpairs) as (b & Hb & Hf).
    { apply lookup_seq. lia. }
    apply bind_Ok_inv in Hf as (gi & Hgi & Hf). apply bind_Ok_inv in Hf as (gj & Hgj & Hf).
    injection Hf as <-. apply getitem_Ok in Hgi, Hgj. eauto 6. }
  destruct (Hrows i ltac:(lia)) as (gi & gi' & Hgi & Hgi' & Hii).
  rewrite Hgi in Hgi'. injection Hgi' as <-.
  pose proof (Forall2_length _ _ _ Hpairs) as Hlen. unfold xrange in Hlen.
  rewrite length_seq in Hlen.
  destruct (sorted_by_key_head (i, norm2 (zip_with Qminus gi gi)) pairs) as [rest Hrest].
  { by eapply list_elem_of_lookup_2. }
  { intros q Hq. apply list_elem_of_lookup in Hq as [j Hq].
    pose proof (lookup_lt_Some _ _ _ Hq) as Hj.
    destruct (Hrows j ltac:(lia)) as (gi' & gj & Hgi' & Hgj & Hjj).
    rewrite Hq in Hjj. injection Hjj as ->. rewrite Hgi in Hgi'. injection Hgi' as <-.
    destruct (decide (j = i)) as [->|Hne].
    - left. rewrite Hgi in Hgj. by injection Hgj as <-.
    - right. cbn. rewrite norm2_self. apply (Hdist i j); auto; lia. }
  assert (NoDup (map fst pairs)) as Hnd0.
  { replace (map fst pairs) with (seq 0 N); [apply NoDup_ListNoDup, seq_NoDup|].
    apply list_eq. intros j. rewrite list_lookup_fmap.
    destruct (decide (j < N)%nat) as [Hj|Hj].
    - destruct (Hrows j Hj) as (? & ? & _ & _ & ->). cbn. apply lookup_seq. lia.
    - rewrite (lookup_ge_None_2 pairs) by lia. cbn. apply lookup_ge_None_2.
      rewrite length_seq. lia. }
  rewrite Hrest in Hbody. change (drop 1 (?x :: ?l)) with l in Hbody.
  assert (i ∉ map fst (take k rest)) as Hnotin.
  { intros Hin. apply list_elem_of_fmap in Hin as ([i' di] & Hi' & Hin). cbn in Hi'. subst i'.
    apply elem_of_take in Hin as (n & Hin & _). apply list_elem_of_lookup_2 in Hin.
    assert (NoDup (map fst (sorted_by_key pairs))) as Hnd.
    { by rewrite sorted_by_key_perm. }
    rewrite Hrest in Hnd. cbn in Hnd. apply NoDup_cons in Hnd as [Hnd _].
    apply Hnd, list_elem_of_fmap. by exists (i, di). }
  destruct (take k rest) as [|p nearest] eqn:Hn; [discriminate Hbody|].
  unfold set_row_items in Hbody.
  apply bind_Ok_inv in Hbody as (row & Hrow & Hbody).
  apply bind_Ok_inv in Hbody as (row' & Hrow' & Hbody). injection Hbody as <-.
  apply getitem_Ok in Hrow.
  intros n r Hr Hn'. destruct (decide (n = i)) as [->|Hne].
  - rewrite list_lookup_insert_eq in Hr by (by eapply lookup_lt_Some).
    injection Hr as <-. rewrite (set_items_lookup_notin _ _ _ _ i Hrow' Hnotin).
    apply (Hw0 i row Hrow). by rewrite <- (set_items_length _ _ _ _ Hrow').
  - rewrite list_lookup_insert_ne in Hr by done. by apply (Hw0 n r).
Qed.

End neighbor_diagonal.

(** ** Moran's I (C2) *)

Section moran_I.
Import moran_auto spec.
Local Open Scope Q_scope.



Lemma npdiv_Fin (p q : Q) : ~ q == 0 -> npdiv (Fin p) (Fin q) = Fin (p / q).
Proof.
  intros Hq. cbn. destruct (q ?= 0) eqn:Hc; [|done|done].
  by apply Qeq_alt in Hc.
Qed.







End moran_I.

Section moran_I_claims.
Import moran_auto spec.
Local Open Scope Q_scope.




End moran_I_claims.

(** ** Expectation and variance (C3) *)

Section moran_variance.
Import moran_auto spec.
Local Open Scope Q_scope.

Lemma QN_1 : QN 1 == 1.
Proof. reflexivity. Qed.

Lemma QN_gt (N k : nat) : (k < N)%nat -> QN k < QN N.
Proof. intros H. unfold QN, Qlt. cbn. lia. Qed.

Lemma py_float_div_Ok (a b : Q) : ~ b == 0 -> py_float_div a b = Ok (a / b).
Proof.
  intros Hb. unfold py_float_div. destruct (Qeq_bool b 0) eqn:E; [|done].
  by apply Qeq_bool_iff in E.
Qed.

Lemma moran_expectation_Ok (N : nat) :
  N <> 1%nat -> moran_expectation N = Ok (expectation N).
Proof.
  intros HN. unfold moran_expectation, expectation. apply py_float_div_Ok.
  unfold QN, Qeq, Qminus, Qplus, Qopp. cbn. lia.
Qed.







End moran_variance.

(** ** Invariance of I under scaling (C8) *)

Section scaling.
Import moran_auto spec.
Local Open Scope Q_scope.

Lemma npeq_refl (a : npfloat) : npeq a a.
Proof. destruct a; cbn; [reflexivity | done..]. Qed.














End scaling.

(** ** The curated table (C5, C6) *)

Section curation.
Import process_data.
Local Open Scope Z_scope.

Lemma insert_by_perm {A} (leb : A -> A -> bool) (a : A) (l : list A) :
  insert_by leb a l ≡ₚ a :: l.
Proof.
  induction l as [|b l IH]; cbn; [done|].
  destruct (leb a b); [done|]. by rewrite IH, Permutation_swap.
Qed.

Lemma sort_by_perm {A} (leb : A -> A -> bool) (l : list A) : sort_by leb l ≡ₚ l.
Proof.
  induction l as [|a l IH]; cbn; [done|]. by rewrite insert_by_perm, IH.
Qed.

Lemma elem_of_filter_bool {A} (p : A -> bool) (l : list A) (a : A) :
  a ∈ List.filter p l <-> a ∈ l /\ p a = true.
Proof. by rewrite !list_elem_of_In, filter_In. Qed.

(** The holiday list holds the holidays from [start] to [end_]. *)
Lemma isin_cal_holidays (cal : holiday_calendar) (start end_ d : Z) :
  isin (cal_holidays cal start end_) d = true
  <-> is_holiday cal d = true /\ start <= d <= end_.
Proof.
  unfold isin, cal_holidays. rewrite existsb_exists. split.
  - intros (d' & Hd' & Heq). apply Z.eqb_eq in Heq as <-.
    apply filter_In in Hd' as [Hd' Hh]. split; [done|].
    apply in_map_iff in Hd' as (i & <- & Hi). apply in_seq in Hi. lia.
  - intros [Hh Hr]. exists d. split; [|apply Z.eqb_refl].
    apply filter_In. split; [|done]. apply in_map_iff.
    exists (Z.to_nat (d - start)). split; [lia|]. apply in_seq. lia.
Qed.

Lemma restrict_and_clip_curated (holidays : list Z) (date_start date_end : Z)
    (block_data : list block_row) :
  Forall (curated_row holidays date_start date_end)
    (restrict_and_clip holidays date_start date_end block_data).
Proof.
  unfold restrict_and_clip. apply Forall_forall. intros r Hr.
  apply list_elem_of_fmap in Hr as (r0 & -> & Hr0).
  apply elem_of_filter_bool in Hr0 as [Hr0 Hhol].
  apply elem_of_filter_bool in Hr0 as [Hr0 Hday].
  apply elem_of_filter_bool in Hr0 as [_ Hwin].
  unfold curated_row. cbn. split; [|split].
  - apply negb_true_iff, Z.eqb_neq in Hday. done.
  - apply andb_true_iff in Hwin. lia.
  - by apply negb_true_iff in Hhol.
Qed.

Lemma same_keys_refl (l : list block_row) : Forall2 same_keys l l.
Proof. induction l; constructor; [unfold same_keys; auto | done]. Qed.

Lemma blank_window_same start_date end_date null_end peak_start peak_end block_data out :
  blank_window start_date end_date null_end peak_start peak_end block_data = Ok out ->
  Forall2 same_keys block_data out.
Proof.
  unfold blank_window. intros H.
  destruct peak_start as [s|]; [|injection H as <-; apply same_keys_refl].
  destruct peak_end as [e|].
  - injection H as <-. induction block_data as [|r l IH]; cbn; constructor; [|done].
    unfold same_keys. destruct (peak_mask _ _ _ _ _ _); cbn; auto.
  - destruct block_data; [injection H as <-; constructor | discriminate].
Qed.

Lemma same_keys_trans (l1 l2 l3 : list block_row) :
  Forall2 same_keys l1 l2 -> Forall2 same_keys l2 l3 -> Forall2 same_keys l1 l3.
Proof.
  intros H12. revert l3. induction H12 as [|a b l1 l2 Hab _ IH]; intros l3 H23.
  - by apply Forall2_nil_inv_l in H23 as ->.
  - apply Forall2_cons_inv_l in H23 as (c & l3' & Hbc & H23 & ->).
    constructor; [|by apply IH].
    destruct Hab as (? & ? & ? & Hl1), Hbc as (? & ? & ? & Hl2).
    unfold same_keys. repeat split; try congruence.
    destruct Hl2 as [?|Hl2]; [by left|]. rewrite Hl2. done.
Qed.

Lemma blank_rule_same (block_data out : list block_row) (row : info_row) :
  blank_rule block_data row = Ok out -> Forall2 same_keys block_data out.
Proof.
  unfold blank_rule. intros H. destruct (_ && _).
  - injection H as <-. apply same_keys_refl.
  - inv_bind H. inv_bind H.
    eapply same_keys_trans; [by eapply blank_window_same|].
    eapply same_keys_trans; by eapply blank_window_same.
Qed.

Lemma blank_rules_same (rules : list info_row) (block_data out : list block_row) :
  for_loop blank_rule block_data rules = Ok out -> Forall2 same_keys block_data out.
Proof.
  revert block_data. induction rules as [|row rules IH]; intros block_data H; cbn in H.
  - injection H as <-. apply same_keys_refl.
  - inv_bind H. eapply same_keys_trans; [by eapply blank_rule_same | by apply IH].
Qed.

Lemma same_keys_curated holidays date_start date_end (l l' : list block_row) :
  Forall2 same_keys l l' ->
  Forall (curated_row holidays date_start date_end) l ->
  Forall (curated_row holidays date_start date_end) l'.
Proof.
  induction 1 as [|r r' l l' (Ht & Hd & Hw & _) _ IH]; intros Hl; [done|].
  apply Forall_cons in Hl as [Hr Hl]. constructor; [|by apply IH].
  unfold curated_row in *. rewrite Hd, Hw. done.
Qed.

Lemma same_keys_elem (l l' : list block_row) (r' : block_row) :
  Forall2 same_keys l l' -> r' ∈ l' -> exists r, r ∈ l /\ same_keys r r'.
Proof.
  intros H Hr'. apply list_elem_of_lookup in Hr' as [i Hi].
  destruct (Forall2_lookup_r _ _ _ _ _ H Hi) as (r & Hr & Hrr').
  exists r. split; [by eapply list_elem_of_lookup_2 | done].
Qed.

Lemma clip_upper_min (v : Q) : clip_upper (3 # 2) v = Qmin v (3 # 2).
Proof.
  unfold clip_upper, Qmin, GenericMinMax.gmin.
  destruct (Qle_bool v (3 # 2)) eqn:E.
  - apply Qle_bool_iff in E. destruct (v ?= 3 # 2)%Q eqn:C; [done..|].
    apply Qgt_alt in C. lra.
  - destruct (v ?= 3 # 2)%Q eqn:C; [| |done].
    + apply Qeq_alt in C. assert (Qle_bool v (3 # 2) = true) by (apply Qle_bool_iff; lra).
      congruence.
    + apply Qlt_alt in C. assert (Qle_bool v (3 # 2) = true) by (apply Qle_bool_iff; lra).
      congruence.
Qed.

(** Every row read from a file comes from a complete line of it. *)
Lemma read_block_from_file (raws : list raw_row) (r : block_row) :
  r ∈ read_block raws ->
  exists v, Load r = Some v
    /\ {| raw_Datetime := Some (Datetime r); raw_Load := Some v |} ∈ raws.
Proof.
  unfold read_block. intros Hr. apply list_elem_of_fmap in Hr as ([t v] & -> & Htv).
  rewrite sort_by_perm in Htv. apply list_elem_of_omap in Htv as (raw & Hraw & Hc).
  destruct raw as [[t'|] [v'|]]; cbn in Hc; try discriminate.
  injection Hc as -> ->. exists v. by split.
Qed.

Lemma restrict_and_clip_from_file holidays date_start date_end (raws : list raw_row) :
  Forall (from_file raws)
    (restrict_and_clip holidays date_start date_end (read_block raws)).
Proof.
  unfold restrict_and_clip. apply Forall_forall. intros r Hr.
  apply list_elem_of_fmap in Hr as (r0 & -> & Hr0).
  do 3 apply elem_of_filter_bool, proj1 in Hr0.
  apply read_block_from_file in Hr0 as (v & Hv & Hraw).
  exists v. cbn. split; [done|]. right. by rewrite Hv, <- clip_upper_min.
Qed.

Lemma same_keys_from_file (raws : list raw_row) (l l' : list block_row) :
  Forall2 same_keys l l' -> Forall (from_file raws) l -> Forall (from_file raws) l'.
Proof.
  induction 1 as [|r r' l l' (Ht & _ & _ & Hload) _ IH]; intros Hl; [done|].
  apply Forall_cons in Hl as [(v & Hraw & Hv) Hl]. constructor; [|by apply IH].
  exists v. rewrite Ht. split; [done|].
  destruct Hload as [?| ->]; [by left | done].
Qed.

(** What a file can add to [park_data]: nothing, or its curated rows with
    some loads blanked. *)
Lemma load_block_park_data locations block_info holidays date_start date_end st file st' :
  load_block locations block_info holidays date_start date_end st file = Ok st' ->
  park_data st' = park_data st
  \/ exists block_data,
       park_data st' = <[fst file := block_data]> (park_data st)
       /\ Forall2 same_keys
            (restrict_and_clip holidays date_start date_end (read_block (snd file)))
            block_data.
Proof.
  unfold load_block. intros H.
  case_decide; [injection H as <-; by left|].
  case_decide; [injection H as <-; by left|].
  destruct (locations !! file.1); [|injection H as <-; by left].
  do 5 inv_bind H. case_decide; injection H as <-; [|by left].
  right. eexists. split; [done|]. by eapply blank_rules_same.
Qed.

Lemma load_loops_park_data locations block_info holidays date_start date_end load_paths st :
  for_loop (fun st load_path =>
      for_loop (load_block locations block_info holidays date_start date_end) st
        (sort_by (fun a b => fst a <=? fst b) load_path))
    {| avg_loads := []; gps_loc := []; element_keys := []; park_data := ∅ |}
    load_paths = Ok st ->
  park_data_ok holidays date_start date_end load_paths (park_data st).
Proof.
  apply (for_loop_invariant
           (fun st => park_data_ok holidays date_start date_end load_paths (park_data st))).
  2:{ intros id rows r Hid. cbn in Hid. by rewrite lookup_empty in Hid. }
  intros st0 load_path st1 Hpath Hst0.
  apply (for_loop_invariant
           (fun st => park_data_ok holidays date_start date_end load_paths (park_data st)));
    [|done].
  intros st2 [key raws] st3 Hfile Hst2 Hblock. rewrite sort_by_perm in Hfile.
  apply load_block_park_data in Hblock as [->|(block_data & -> & Hsame)]; [done|].
  intros id rows r Hid Hr. cbn in Hid, Hsame.
  apply lookup_insert_Some in Hid as [[<- <-]|[_ Hid]]; [|by eapply Hst2].
  split.
  - eapply Forall_forall; [|done].
    eapply same_keys_curated; [done | apply restrict_and_clip_curated].
  - exists load_path, raws. split; [done|]. split; [done|].
    eapply Forall_forall; [|done].
    eapply same_keys_from_file; [done | apply restrict_and_clip_from_file].
Qed.

(** The rows of the returned table are the rows of [park_data]. *)
Lemma load_data_rows locations block_info cal today load_paths
    month_year_start month_year_end day_start day_end out :
  load_data locations block_info cal today load_paths
    month_year_start month_year_end day_start day_end = Ok out ->
  exists date_start date_end,
    range_start month_year_start day_start = Ok date_start
    /\ range_end month_year_end day_end = Ok date_end
    /\ forall id r, (id, r) ∈ out_park_data out ->
         curated_row (cal_holidays cal holidays_start today) date_start date_end r
         /\ exists load_path raws, load_path ∈ load_paths /\ (id, raws) ∈ load_path
                                   /\ from_file raws r.
Proof.
  unfold load_data. intros H.
  apply bind_Ok_inv in H as (day_end' & Hde & H).
  apply bind_Ok_inv in H as (date_start & Hds & H).
  apply bind_Ok_inv in H as (date_end & Hdate_end & H).
  apply bind_Ok_inv in H as (st & Hst & H).
  exists date_start, date_end. split; [done|]. split.
  { unfold range_end. by rewrite Hde. }
  destruct (avg_loads st) as [|? ?]; [discriminate|]. injection H as <-. cbn.
  intros id r Hr. rewrite sort_by_perm in Hr.
  apply list_elem_of_In, in_concat in Hr as (rs & Hl & Hr).
  apply list_elem_of_In in Hl, Hr.
  apply list_elem_of_fmap in Hl as ([id' rows] & -> & Hkv). cbn in Hr.
  apply list_elem_of_fmap in Hr as (r' & [= -> ->] & Hr').
  apply elem_of_map_to_list in Hkv.
  by eapply (load_loops_park_data _ _ _ _ _ _ _ Hst).
Qed.

(** C5, amended.  Every row of the curated table has a weekday other than
    6, a date within the inclusive window the caller specified, and a date
    that is not a holiday of the calendar between 2012-01-01 and the current
    date. *)
Theorem load_data_curated_rows locations block_info cal today load_paths
    month_year_start month_year_end day_start day_end out :
  load_data locations block_info cal today load_paths
    month_year_start month_year_end day_start day_end = Ok out ->
  exists date_start date_end,
    range_start month_year_start day_start = Ok date_start
    /\ range_end month_year_end day_end = Ok date_end
    /\ forall id r, (id, r) ∈ out_park_data out ->
         Day r <> 6 /\ date_start <= Date r <= date_end
         /\ ~ (is_holiday cal (Date r) = true /\ holidays_start <= Date r <= today).
Proof.
  intros H. apply load_data_rows in H as (date_start & date_end & Hs & He & Hrows).
  exists date_start, date_end. split; [done|]. split; [done|].
  intros id r Hr. destruct (Hrows id r Hr) as ((Hday & Hwin & Hhol) & _).
  split; [done|]. split; [done|].
  intros Hh. apply isin_cal_holidays in Hh. congruence.
Qed.

Lemma load_data_curated_rows_witness :
  exists date_start date_end,
    range_start (7, 2012) None = Ok date_start
    /\ range_end (7, 2012) None = Ok date_end
    /\ forall id r, (id, r) ∈ out_park_data sample.july_2012_table ->
         Day r <> 6 /\ date_start <= Date r <= date_end
         /\ ~ (is_holiday sample.fourth_of_july (Date r) = true
               /\ holidays_start <= Date r <= sample.today).
Proof.
  apply (load_data_curated_rows sample.locations [] sample.fourth_of_july sample.today
           sample.july_2012 (7, 2012) (7, 2012) None None sample.july_2012_table).
  vm_compute. reflexivity.
Defined.

(** Without the restriction to holidays from 2012-01-01 on, the property
    fails: a file dated in the week of Monday 2011-07-04 keeps its rows of
    the 4th of July. *)
Lemma load_data_keeps_holiday_of_2011 :
  exists out r,
    load_data sample.locations [] sample.fourth_of_july sample.today
      [[(2759, sample.week_of_loads sample.monday_2011_07_04 (2 # 1)%Q)]]
      (7, 2011) (7, 2011) None None = Ok out
    /\ (2759, r) ∈ out_park_data out
    /\ is_holiday sample.fourth_of_july (Date r) = true.
Proof.
  eexists. eexists. split; [vm_compute; reflexivity|].
  split; [left | vm_compute; reflexivity].
Qed.



End curation.

(** ** Price changes (C7) *)

Section price_changes.
Import process_data.
Local Open Scope Z_scope.

Lemma pd_unique_const `{EqDecision A} (l : list A) (k : A) :
  l <> [] -> (forall a, a ∈ l -> a = k) -> pd_unique l = [k].
Proof.
  induction l as [|a l IH]; intros Hne Hall; [done|]. cbn.
  rewrite (Hall a) by left. f_equal.
  destruct l as [|b l]; [done|]. rewrite IH; [|done|].
  - cbn. by rewrite bool_decide_false by naive_solver.
  - intros ? ?. apply Hall. by right.
Qed.

Lemma filter_all {A} (p : A -> bool) (l : list A) :
  (forall a, a ∈ l -> p a = true) -> List.filter p l = l.
Proof.
  induction l as [|a l IH]; intros Hall; [done|]. cbn.
  rewrite Hall by left. f_equal. apply IH. intros ? ?. apply Hall. by right.
Qed.

Lemma cell_eqb_sym (a b : option Q) : cell_eqb a b = cell_eqb b a.
Proof.
  destruct a as [p|], b as [q|]; cbn; try done.
  destruct (Qeq_bool p q) eqn:E, (Qeq_bool q p) eqn:E'; try done.
  - apply Qeq_bool_iff in E. symmetry in E. apply Qeq_bool_iff in E. congruence.
  - apply Qeq_bool_iff in E'. symmetry in E'. apply Qeq_bool_iff in E'. congruence.
Qed.

Lemma array_equal_sym (a b : list (option Q)) : array_equal a b = array_equal b a.
Proof.
  unfold array_equal. f_equal.
  - apply bool_decide_ext. split; congruence.
  - revert b. induction a as [|p a IH]; intros [|q b]; cbn; try done.
    by rewrite cell_eqb_sym, IH.
Qed.

Lemma dd_append_empty `{Countable K} {V} (k : K) (v : V) :
  dd_append (∅ : gmap K (list V)) k v = {[ k := [v] ]}.
Proof. unfold dd_append. by rewrite lookup_empty, insert_empty. Qed.

(** C7, amended.  When the requested area holds one block key and that key
    has exactly two rows with a first weekday rate, with different rate
    vectors, [get_price_changes] returns exactly one price-change entry: its
    key is the pair (later start date, earlier start date), and its value the
    block key with the rate vector of the earlier row minus that of the
    later row, where "earlier" and "later" are taken in the order of the
    effective-start dates (the order of the table on a tie). *)
Theorem get_price_changes_two_rows (area_name : string) (block_info : list csv_row)
    (key : Z) (r1 r2 : csv_row) :
  (forall r, r ∈ block_info -> csv_PaidParkingArea r = area_name -> csv_ElementKey r = key) ->
  List.filter (fun r => bool_decide (is_Some (csv_WeekdayRate1 r)))
    (List.filter (fun r => bool_decide (csv_PaidParkingArea r = area_name)) block_info)
  = [r1; r2] ->
  array_equal (prices_of r1) (prices_of r2) = false ->
  price_changes (get_price_changes area_name block_info)
  = if start_leb r1 r2
    then {[ (csv_EffectiveStartDate r2, csv_EffectiveStartDate r1)
            := [(key, array_sub (prices_of r1) (prices_of r2))] ]}
    else {[ (csv_EffectiveStartDate r1, csv_EffectiveStartDate r2)
            := [(key, array_sub (prices_of r2) (prices_of r1))] ]}.
Proof.
  intros Hkey Hrows Hdiff. unfold get_price_changes.
  set (area_rows := List.filter _ block_info) in *.
  assert (forall r, r ∈ area_rows -> csv_ElementKey r = key) as Hall.
  { intros r Hr. apply elem_of_filter_bool in Hr as [Hr Ha].
    apply bool_decide_eq_true in Ha. auto. }
  rewrite (pd_unique_const _ key).
  2:{ intros Hnil. apply fmap_nil_inv in Hnil. rewrite Hnil in Hrows. discriminate. }
  2:{ intros k Hk. apply list_elem_of_fmap in Hk as (r & -> & Hr). auto. }
  cbn [foldl]. rewrite (filter_all _ area_rows).
  2:{ intros r Hr. apply Z.eqb_eq. auto. }
  rewrite Hrows. cbn [sort_by foldr insert_by].
  destruct (start_leb r1 r2); cbn [zip_with drop foldl compare_rows price_changes].
  - rewrite Hdiff. cbn [negb]. apply dd_append_empty.
  - rewrite array_equal_sym, Hdiff. cbn [negb]. apply dd_append_empty.
Qed.

Lemma get_price_changes_two_rows_witness :
  price_changes (get_price_changes "Pike"
                   [sample.price_row "Pike" 2759 (2 # 1) "2014-01-01";
                    sample.price_row "Pine" 3001 (1 # 1) "2014-01-01";
                    sample.price_row "Pike" 2759 (5 # 2) "2015-06-01"])
  = {[ (Some "2015-06-01", Some "2014-01-01")
       := [(2759, array_sub (prices_of (sample.price_row "Pike" 2759 (2 # 1) "2014-01-01"))
                    (prices_of (sample.price_row "Pike" 2759 (5 # 2) "2015-06-01")))] ]}.
Proof.
  apply (get_price_changes_two_rows "Pike" _ 2759
           (sample.price_row "Pike" 2759 (2 # 1) "2014-01-01")
           (sample.price_row "Pike" 2759 (5 # 2) "2015-06-01")).
  - intros r Hr Ha. cbn in Hr.
    repeat (apply elem_of_cons in Hr as [->|Hr]; [try reflexivity; cbn in Ha; discriminate|]).
    by apply elem_of_nil in Hr.
  - reflexivity.
  - reflexivity.
Defined.

(** Read in table order, the property fails when the table lists the newer
    row first: the entry is keyed by (first row's date, second row's date)
    and holds the second row's rates minus the first row's. *)
Lemma get_price_changes_table_order :
  let first := sample.price_row "Pike" 2759 (5 # 2) "2015-06-01" in
  let second := sample.price_row "Pike" 2759 (2 # 1) "2014-01-01" in
  price_changes (get_price_changes "Pike" [first; second])
  <> {[ (csv_EffectiveStartDate second, csv_EffectiveStartDate first)
        := [(2759, array_sub (prices_of first) (prices_of second))] ]}.
Proof.
  intros first second Heq.
  apply (f_equal (fun m => m !! (csv_EffectiveStartDate first, csv_EffectiveStartDate second)))
    in Heq.
  vm_compute in Heq. discriminate.
Qed.

End price_changes.

(** ** The per-time-slot evaluator (C1, C10) *)

Section evaluator.
Import moran_auto process_data gmm.
Local Open Scope Z_scope.

(** With the module [moran_auto] as it is, the body of the training loop
    never completes: the lookup of [get_adjacent_weights] raises, unless an
    earlier step already has. *)
Lemma train_body_raises sk area_info L data_df gps_loc block_keys k acc train_time :
  exists e, train_body sk (moran_auto_module area_info L) data_df gps_loc block_keys k
              acc train_time = Err e.
Proof.
  destruct (train_body _ _ _ _ _ _ _ _) as [r|e] eqn:H; [exfalso | by exists e].
  unfold train_body in H.
  repeat first
    [ apply bind_Ok_inv in H as (? & ? & H)
    | match type of H with context [let '(_, _) := ?p in _] => destruct p end ].
  cbn in *. congruence.
Qed.

(** A slot with a training date makes [GMM] raise. *)
Lemma slot_with_training_date_raises sk area_info L park_data gps_loc times k iteration day hour id r :
  times !! iteration = Some (day, hour) ->
  (id, r) ∈ park_data -> Day r = day -> Hour r = hour ->
  exists e, GMM sk area_info L park_data gps_loc times k iteration = Err e.
Proof.
  intros Htime Hr Hday Hhour. unfold GMM, getitem. rewrite Htime. cbn.
  set (data_df := List.filter _ park_data).
  assert ((id, r) ∈ data_df) as Hin.
  { apply elem_of_filter_bool. split; [done|]. cbn. rewrite Hday, Hhour, !Z.eqb_refl. done. }
  destruct (pd_unique (map (fun kr => Datetime kr.2) data_df)) as [|t ts] eqn:Ht.
  { assert (Datetime r ∈ pd_unique (map (fun kr => Datetime kr.2) data_df)) as Hd.
    { apply elem_of_pd_unique, list_elem_of_fmap. by exists (id, r). }
    rewrite Ht in Hd. by apply elem_of_nil in Hd. }
  cbn [for_loop].
  edestruct train_body_raises as [e ->]. cbn. eauto.
Qed.

(** Whenever [GMM] returns, the slot had no training date and the three
    lists of Moran tuples are empty. *)
Lemma GMM_returns_no_tuple sk area_info L park_data gps_loc times k iteration res :
  GMM sk area_info L park_data gps_loc times k iteration = Ok res ->
  res_morans_mixture res = [] /\ res_morans_area res = [] /\ res_morans_adjacent res = [].
Proof.
  unfold GMM. intros H.
  apply bind_Ok_inv in H as ([day hour] & _ & H). cbn [fst snd] in H.
  apply bind_Ok_inv in H as (acc & Hloop & H). cbn zeta in H. injection H as <-. cbn.
  destruct (pd_unique (map (fun kr => Datetime kr.2) _)) as [|t ts];
    cbn [for_loop] in Hloop.
  - by injection Hloop as <-.
  - apply bind_Ok_inv in Hloop as (acc1 & Hbody & _).
    edestruct train_body_raises as [e He]. rewrite He in Hbody. discriminate.
Qed.

(** C1.  On a slot with two training dates and four loaded blocks each,
    [GMM] returns no tuple at all: after the mixture and area statistics of
    the first date it looks up [moran_auto.get_adjacent_weights], a name the
    module does not define. *)
Theorem GMM_adjacent_weights_lookup_fails :
  GMM sample.sk sample.area_info sample.stats sample.two_mondays sample.four_gps
    [(0, 8)] 1 0
  = Err (AttributeError "get_adjacent_weights").
Proof. vm_compute. reflexivity. Qed.

(** The accuracy of a test date divides by the number of its labels. *)
Lemma accuracy_of_counts (test_labels train_labels : list nat) test_active_index
    (train_to_label_map : gmap Z nat) (idx : list nat) (c i c' i' : nat) :
  for_loop (fun '(correct, incorrect) n =>
              key ← getitem test_active_index n;
              idx ← dict_get train_to_label_map key;
              test_label ← getitem test_labels n;
              train_label ← getitem train_labels idx;
              if decide (test_label = train_label)
              then Ok (S correct, incorrect)
              else Ok (correct, S incorrect))
           (c, i) idx = Ok (c', i') ->
  (c' + i' = c + i + length idx)%nat.
Proof.
  revert c i. induction idx as [|n idx IH]; intros c i H; cbn in H.
  - injection H as <- <-. cbn. lia.
  - apply bind_Ok_inv in H as ([c1 i1] & Hb & H). apply IH in H. cbn.
    do 4 (apply bind_Ok_inv in Hb as (? & _ & Hb)).
    case_decide; injection Hb as <- <-; lia.
Qed.

(** With no label to compare, the accuracy is 0/0.0 and raises; with at
    least one, the division is defined. *)
Lemma accuracy_of_zero_division (test_labels train_labels : list nat) test_active_index
    (train_to_label_map : gmap Z nat) :
  accuracy_of test_labels train_labels test_active_index train_to_label_map
  = Err ZeroDivisionError <-> test_labels = [].
Proof.
  unfold accuracy_of. split.
  - intros H. apply bind_Err_inv in H as [H | ([c i] & Hc & H)].
    + apply for_loop_Err in H as ([c i] & n & _ & H). exfalso.
      apply bind_Err_inv in H as [H | (? & _ & H)]; [by apply getitem_Err in H|].
      apply bind_Err_inv in H as [H | (? & _ & H)].
      { unfold dict_get in H. destruct (_ !! _); discriminate. }
      apply bind_Err_inv in H as [H | (? & _ & H)]; [by apply getitem_Err in H|].
      apply bind_Err_inv in H as [H | (? & _ & H)]; [by apply getitem_Err in H|].
      case_decide; discriminate.
    + apply accuracy_of_counts in Hc. unfold py_float_div in H.
      destruct (Qeq_bool (QN (c + i)) 0) eqn:E; [|discriminate].
      apply Qeq_bool_iff in E. unfold QN, Qeq in E. cbn in E.
      unfold xrange in Hc. rewrite length_seq in Hc.
      apply length_zero_iff_nil. lia.
  - intros ->. reflexivity.
Qed.

(** Lines 171 to 206 on a test date without comparable rows: when the
    library calls return, without labels, the accuracy raises. *)
Lemma test_body_zero_rows sk data_df gps_loc block_keys train_active_index
    (train_to_label_map : gmap Z nat) scaler gmm train_labels test_time test :
  List.filter (fun kv => bool_decide (kv.1 ∈ train_active_index)) (rows_at data_df test_time)
  = [] ->
  scaler_transform sk scaler [] = Ok test ->
  mixture_predict sk gmm test = Ok [] ->
  test_body sk data_df gps_loc block_keys train_active_index train_to_label_map
    scaler gmm train_labels test_time = Err ZeroDivisionError.
Proof.
  intros Hrows Ht Hp. unfold test_body. rewrite Hrows. cbn.
  rewrite Ht. cbn. rewrite Hp. reflexivity.
Qed.


End evaluator.

(** * Further properties *)

(** ** The rows of the weight matrices *)

Section rows.
Import moran_auto.

Lemma for_loop_ext {A S} (body body' : S -> A -> result S) (idx : list A) (s : S) :
  (forall s i, body s i = body' s i) -> for_loop body s idx = for_loop body' s idx.
Proof.
  intros H. revert s. induction idx as [|i idx IH]; intros s; cbn; [done|].
  rewrite H. destruct (body' s i); cbn; [apply IH | done].
Qed.

(** What [row[idxs] = v] leaves in the row. *)
Lemma set_items_lookup (row : list Q) (idxs : list nat) (v : Q) (row' : list Q) (j : nat) :
  set_items row idxs v = Ok row' -> j < length row ->
  row' !! j = if decide (j ∈ idxs) then Some v else row !! j.
Proof.
  revert row. induction idxs as [|j0 js IH]; intros row H Hj; cbn in H.
  - injection H as <-. rewrite decide_False; [done | apply not_elem_of_nil].
  - case_decide as Hj0; [|discriminate].
    rewrite (IH _ H) by (by rewrite length_insert).
    destruct (decide (j ∈ js)) as [Hin|Hnin].
    + rewrite decide_True; [done | by right].
    + destruct (decide (j = j0)) as [->|Hne].
      * rewrite decide_True by left. by apply list_lookup_insert_eq.
      * rewrite decide_False by (by intros [?|?]%elem_of_cons).
        by apply list_lookup_insert_ne.
Qed.

Lemma set_items_bounds (row : list Q) (idxs : list nat) (v : Q) (row' : list Q) :
  set_items row idxs v = Ok row' -> Forall (fun j => j < length row) idxs.
Proof.
  revert row. induction idxs as [|j0 js IH]; intros row H; cbn in H; [constructor|].
  case_decide; [|discriminate]. constructor; [done|].
  apply IH in H. eapply Forall_impl; [done|]. intros ?. by rewrite length_insert.
Qed.

(** A loop that fills row [i] in round [i], from the index list [F i]. *)
Lemma row_loop (F : nat -> result (list nat)) (a n : nat) (w0 w : matrix) :
  for_loop (fun w i => idxs ← F i; set_row_items w i idxs 1%Q) w0 (seq a n) = Ok w ->
  forall i,
    (a <= i < a + n ->
       exists idxs row0 row, F i = Ok idxs /\ w0 !! i = Some row0
         /\ set_items row0 idxs 1%Q = Ok row /\ w !! i = Some row)
    /\ (~ a <= i < a + n -> w !! i = w0 !! i).
Proof.
  revert a w0. induction n as [|n IH]; intros a w0 H i; cbn in H.
  - injection H as <-. split; [lia | done].
  - apply bind_Ok_inv in H as (w1 & Hbody & H).
    apply bind_Ok_inv in Hbody as (idxs & HF & Hset). unfold set_row_items in Hset.
    apply bind_Ok_inv in Hset as (row0 & Hrow0 & Hset).
    apply bind_Ok_inv in Hset as (row & Hrow & Hset). injection Hset as <-.
    apply getitem_Ok in Hrow0. pose proof (lookup_lt_Some _ _ _ Hrow0) as Ha.
    destruct (IH _ _ H i) as [IHin IHout]. split.
    + intros Hi. destruct (decide (i = a)) as [->|Hne].
      * exists idxs, row0, row. repeat split; try done.
        rewrite IHout by lia. by apply list_lookup_insert_eq.
      * destruct IHin as (idxs' & row0' & row' & ? & Hr0 & ? & ?); [lia|].
        exists idxs', row0', row'. repeat split; try done.
        by rewrite list_lookup_insert_ne in Hr0.
    + intros Hi. rewrite IHout by lia. apply list_lookup_insert_ne. lia.
Qed.

Lemma np_zeros_lookup (n m i : nat) :
  i < n -> np_zeros n m !! i = Some (replicate m 0%Q).
Proof. intros Hi. unfold np_zeros. by apply lookup_replicate_2. Qed.

(** Starting from zeros, row [i] ends as the indicator of [F i]. *)
Lemma row_loop_zeros (F : nat -> result (list nat)) (N : nat) (w : matrix) :
  for_loop (fun w i => idxs ← F i; set_row_items w i idxs 1%Q) (np_zeros N N) (xrange N)
  = Ok w ->
  length w = N
  /\ forall i, i < N ->
       exists idxs row, F i = Ok idxs /\ Forall (fun j => j < N) idxs
         /\ w !! i = Some row /\ length row = N
         /\ forall j, j < N -> row !! j = Some (if decide (j ∈ idxs) then 1%Q else 0%Q).
Proof.
  intros H. split.
  { eapply (weight_loop_shape _ _ N N) in H as [? _]; [done | | apply np_zeros_shape].
    intros w0 i w1 Hw0 Hb. apply bind_Ok_inv in Hb as (? & _ & Hb).
    by eapply set_row_items_shape. }
  intros i Hi. destruct (row_loop F 0 N _ _ H i) as [Hin _].
  destruct Hin as (idxs & row0 & row & HF & Hrow0 & Hset & Hrow); [lia|].
  rewrite np_zeros_lookup in Hrow0 by done. injection Hrow0 as <-.
  exists idxs, row. split; [done|].
  pose proof (set_items_bounds _ _ _ _ Hset) as Hb. rewrite length_replicate in Hb.
  split; [done|]. split; [done|].
  split; [by rewrite (set_items_length _ _ _ _ Hset), length_replicate|].
  intros j Hj. rewrite (set_items_lookup _ _ _ _ j Hset) by (by rewrite length_replicate).
  case_decide; [done|]. by apply lookup_replicate_2.
Qed.

End rows.

(** ** Mixture weights *)

Section mixture_weights.
Import moran_auto.

Lemma elem_of_where_eq (train_labels : list nat) (label j : nat) :
  j ∈ where_eq train_labels label <-> train_labels !! j = Some label.
Proof.
  unfold where_eq. rewrite elem_of_filter_bool, bool_decide_eq_true, list_elem_of_In, in_seq.
  split; [tauto|]. intros H. split; [|done]. apply lookup_lt_Some in H. lia.
Qed.

Lemma zero_diag_lookup (w : matrix) (i : nat) (row : list Q) :
  w !! i = Some row -> zero_diag w !! i = Some (<[i:=0%Q]> row).
Proof. intros H. unfold zero_diag. by rewrite list_lookup_imap, H. Qed.

Lemma get_mixture_weights_eq (train_labels : list nat) :
  get_mixture_weights train_labels (length train_labels)
  = Ok (same_label_matrix train_labels).
Proof.
  set (N := length train_labels).
  destruct (get_mixture_weights_total train_labels N eq_refl) as [w Hw].
  rewrite Hw. f_equal. unfold get_mixture_weights in Hw.
  apply bind_Ok_inv in Hw as (w0 & Hloop & Hw). injection Hw as <-.
  rewrite (for_loop_ext _ (fun w i => idxs ← (label ← getitem train_labels i;
                                              Ok (where_eq train_labels label));
                                      set_row_items w i idxs 1%Q)) in Hloop.
  2:{ intros w i. by destruct (getitem train_labels i). }
  apply row_loop_zeros in Hloop as [Hlen Hrows].
  apply list_eq. intros i. unfold same_label_matrix. rewrite list_lookup_imap.
  destruct (train_labels !! i) as [li|] eqn:Hli; cbn.
  2:{ apply lookup_ge_None in Hli. apply lookup_ge_None. unfold zero_diag.
      rewrite length_imap. fold N in Hli. lia. }
  pose proof (lookup_lt_Some _ _ _ Hli) as Hi. fold N in Hi.
  destruct (Hrows i Hi) as (idxs & row & HF & _ & Hrow & Hrlen & Hent).
  unfold getitem in HF. rewrite Hli in HF. cbn in HF. injection HF as <-.
  rewrite (zero_diag_lookup _ _ _ Hrow). f_equal.
  apply list_eq. intros j. rewrite list_lookup_imap.
  destruct (train_labels !! j) as [lj|] eqn:Hlj; cbn.
  2:{ apply lookup_ge_None in Hlj. apply lookup_ge_None. rewrite length_insert.
      fold N in Hlj. lia. }
  pose proof (lookup_lt_Some _ _ _ Hlj) as Hj. fold N in Hj.
  destruct (decide (i = j)) as [->|Hne].
  - rewrite list_lookup_insert_eq by lia. by rewrite decide_False by tauto.
  - rewrite list_lookup_insert_ne by done. rewrite (Hent j Hj). f_equal.
    destruct (decide (j ∈ where_eq train_labels li)) as [Hin|Hnin].
    + apply elem_of_where_eq in Hin. rewrite decide_True; [done|]. split; congruence.
    + rewrite decide_False; [done|]. intros [_ ->]. by apply Hnin, elem_of_where_eq.
Qed.

(** X1.  On a label vector, with N its length, [get_mixture_weights] returns
    the co-membership matrix: entry (i, j) is 1 when i and j differ and have
    the same label, and 0 otherwise. *)
Theorem get_mixture_weights_co_membership (train_labels : list nat) :
  get_mixture_weights train_labels (length train_labels)
  = Ok (same_label_matrix train_labels).
Proof. apply get_mixture_weights_eq. Qed.

End mixture_weights.

(** ** Area weights *)

Section area_weights_rows.
Import moran_auto.
Variable area_info : list paystation.





End area_weights_rows.

Section area_weights_closed_form.
Import moran_auto.



End area_weights_closed_form.

Section area_weights_errors.
Import moran_auto.


End area_weights_errors.

(** ** Neighbor weights *)

Section neighbor_rows.
Import moran_auto.

Lemma get_neighbor_weights_rows (gps_loc : list (list Q)) (N k : nat) :
  get_neighbor_weights gps_loc N k
  = for_loop (fun w i => idxs ← neighbors_of gps_loc N k i; set_row_items w i idxs 1%Q)
      (np_zeros N N) (xrange N).
Proof.
  unfold get_neighbor_weights. apply for_loop_ext. intros w i. unfold neighbors_of.
  destruct (comprehension _ _) as [pairs|e]; cbn; [|done].
  by destruct (take k _).
Qed.

(** The index lists have no repetition, stay below N and hold min(k, N-1)
    indices. *)
Lemma neighbors_of_Ok (gps_loc : list (list Q)) (N k i : nat) (idxs : list nat) :
  neighbors_of gps_loc N k i = Ok idxs ->
  NoDup idxs /\ Forall (fun j => j < N) idxs /\ length idxs = k `min` (N - 1).
Proof.
  unfold neighbors_of. intros H. apply bind_Ok_inv in H as (pairs & Hpairs & H).
  apply comprehension_inv in Hpairs.
  assert (map fst pairs = seq 0 N) as Hfst.
  { clear H. unfold xrange in Hpairs. revert Hpairs. generalize 0 as a. revert pairs.
    induction N as [|N IH]; intros pairs a Hp; cbn in Hp.
    - by apply Forall2_nil_inv_l in Hp as ->.
    - apply Forall2_cons_inv_l in Hp as (p & pairs' & Hb & Hp & ->). cbn.
      apply bind_Ok_inv in Hb as (? & _ & Hb). apply bind_Ok_inv in Hb as (? & _ & Hb).
      injection Hb as <-. cbn. f_equal. by apply IH. }
  assert (map fst (sorted_by_key pairs) ≡ₚ seq 0 N) as Hperm.
  { by rewrite sorted_by_key_perm, Hfst. }
  assert (idxs = map fst (take k (drop 1 (sorted_by_key pairs)))) as ->.
  { destruct (take k _); [discriminate | by injection H as <-]. }
  rewrite fmap_take, fmap_drop.
  assert (NoDup (map fst (sorted_by_key pairs))) as Hnd.
  { rewrite Hperm. apply NoDup_ListNoDup, seq_NoDup. }
  split; [|split].
  - apply (sublist_NoDup _ (map fst (sorted_by_key pairs))); [done|].
    etransitivity; [apply sublist_take | apply sublist_drop].
  - apply Forall_forall. intros j Hj.
    assert (j ∈ map fst (sorted_by_key pairs)) as Hin.
    { eapply elem_of_sublist; [done|].
      etransitivity; [apply sublist_take | apply sublist_drop]. }
    rewrite Hperm in Hin. apply list_elem_of_In, in_seq in Hin. lia.
  - rewrite length_take, length_drop, length_map.
    rewrite (Permutation_length (sorted_by_key_perm pairs)).
    rewrite <- (length_map fst), Hfst, length_seq. lia.
Qed.

Lemma count_ones_indicator (N : nat) (idxs : list nat) (row : list Q) :
  NoDup idxs -> Forall (fun j => j < N) idxs -> length row = N ->
  (forall j, j < N -> row !! j = Some (if decide (j ∈ idxs) then 1%Q else 0%Q)) ->
  count_ones row = length idxs.
Proof.
  intros Hnd Hlt Hlen Hrow.
  assert (row = map (fun j => if decide (j ∈ idxs) then 1%Q else 0%Q) (seq 0 N)) as ->.
  { apply list_eq. intros j. rewrite list_lookup_fmap.
    destruct (decide (j < N)) as [Hj|Hj].
    - rewrite (Hrow j Hj), lookup_seq_lt by done. done.
    - rewrite !lookup_ge_None_2; [done | rewrite length_seq; lia | lia]. }
  unfold count_ones.
  transitivity (length (List.filter (fun j => bool_decide (j ∈ idxs)) (seq 0 N))).
  { clear. induction (seq 0 N) as [|j l IH]; [done|]. cbn [map List.filter].
    destruct (decide (j ∈ idxs)).
    - rewrite bool_decide_true by done. change (Qeq_bool 1 1) with true.
      cbn [length]. f_equal. exact IH.
    - rewrite bool_decide_false by done. change (Qeq_bool 0 1) with false.
      exact IH. }
  apply Permutation_length, NoDup_Permutation; [|done|].
  - apply NoDup_ListNoDup, List.NoDup_filter, seq_NoDup.
  - intros j. rewrite elem_of_filter_bool, bool_decide_eq_true, list_elem_of_In, in_seq.
    split; [tauto|]. intros Hj. split; [|done].
    eapply Forall_forall in Hlt; [|done]. lia.
Qed.

(** X4.  In the matrix of [get_neighbor_weights] every row holds exactly
    min(k, N - 1) ones: k of them when k < N. *)
Theorem get_neighbor_weights_degree (gps_loc : list (list Q)) (N k : nat) (w : matrix) :
  get_neighbor_weights gps_loc N k = Ok w ->
  length w = N /\ Forall (fun row => count_ones row = k `min` (N - 1)) w.
Proof.
  rewrite get_neighbor_weights_rows. intros H. apply row_loop_zeros in H as [Hlen Hrows].
  split; [done|]. apply Forall_lookup. intros i row Hrow.
  pose proof (lookup_lt_Some _ _ _ Hrow) as Hi. rewrite Hlen in Hi.
  destruct (Hrows i Hi) as (idxs & row' & HF & _ & Hrow' & Hrlen & Hent).
  rewrite Hrow in Hrow'. injection Hrow' as <-.
  apply neighbors_of_Ok in HF as (Hnd & Hlt & <-).
  by apply (count_ones_indicator N).
Qed.

Lemma get_neighbor_weights_degree_witness :
  length [[0; 1; 0; 0]; [1; 0; 0; 0]; [0; 1; 0; 0]; [0; 0; 1; 0]]%Q = 4
  /\ Forall (fun row => count_ones row = 1 `min` (4 - 1))
       [[0; 1; 0; 0]; [1; 0; 0; 0]; [0; 1; 0; 0]; [0; 0; 1; 0]]%Q.
Proof.
  apply (get_neighbor_weights_degree sample.four_gps 4 1).
  vm_compute. reflexivity.
Defined.

Lemma comprehension_Err {A B} (f : A -> result B) (idx : list A) (e : exn) :
  comprehension f idx = Err e -> exists i, i ∈ idx /\ f i = Err e.
Proof.
  induction idx as [|i idx IH]; cbn; [discriminate|]. intros H.
  apply bind_Err_inv in H as [H | (b & _ & H)]; [exists i; split; [left | done]|].
  apply bind_Err_inv in H as [H | (bs & _ & H)]; [|discriminate].
  destruct (IH H) as (j & Hj & Hf). exists j. split; [by right | done].
Qed.

Lemma comprehension_total {A B} (f : A -> result B) (idx : list A) :
  (forall i, i ∈ idx -> exists b, f i = Ok b) -> exists bs, comprehension f idx = Ok bs.
Proof.
  induction idx as [|i idx IH]; intros H; cbn; [eauto|].
  destruct (H i) as [b ->]; [left|]. cbn.
  destruct IH as [bs ->]; [intros ? ?; apply H; by right|]. cbn. eauto.
Qed.

Lemma comprehension_length {A B} (f : A -> result B) (idx : list A) (bs : list B) :
  comprehension f idx = Ok bs -> length bs = length idx.
Proof. intros H. apply comprehension_inv in H. symmetry. by eapply Forall2_length. Qed.

(** The outcome of the index list of row [i], by cases on the input. *)
Lemma neighbors_of_cases (gps_loc : list (list Q)) (N k i : nat) :
  i < N ->
  (length gps_loc < N -> neighbors_of gps_loc N k i = Err IndexError)
  /\ (N <= length gps_loc -> k = 0 \/ N = 1 -> neighbors_of gps_loc N k i = Err ValueError)
  /\ (N <= length gps_loc -> 0 < k -> 2 <= N -> exists idxs, neighbors_of gps_loc N k i = Ok idxs).
Proof.
  intros Hi. unfold neighbors_of.
  set (f := fun j => gi ← getitem gps_loc i; gj ← getitem gps_loc j;
                     Ok (j, norm2 (zip_with Qminus gi gj))).
  assert (forall e j, f j = Err e -> e = IndexError) as Herr.
  { intros e j H. unfold f in H.
    apply bind_Err_inv in H as [H | (? & _ & H)]; [by apply getitem_Err in H|].
    apply bind_Err_inv in H as [H | (? & _ & H)]; [by apply getitem_Err in H | discriminate]. }
  assert (N <= length gps_loc -> exists pairs, comprehension f (xrange N) = Ok pairs
            /\ length (sorted_by_key pairs) = N) as Hok.
  { intros Hlen. destruct (comprehension_total f (xrange N)) as [pairs Hp].
    - intros j Hj. apply list_elem_of_In, in_seq in Hj. unfold f.
      destruct (getitem_lt gps_loc i) as (gi & -> & _); [lia|].
      destruct (getitem_lt gps_loc j) as (gj & -> & _); [lia|]. cbn. eauto.
    - exists pairs. split; [done|].
      rewrite (Permutation_length (sorted_by_key_perm pairs)).
      rewrite (comprehension_length _ _ _ Hp). apply length_seq. }
  split; [|split].
  - intros Hlen. destruct (comprehension f (xrange N)) as [pairs|e] eqn:Hp; cbn.
    + exfalso. apply comprehension_inv in Hp.
      destruct (Forall2_lookup_l _ _ _ (length gps_loc) (length gps_loc) Hp) as (b & _ & Hf).
      { by apply lookup_seq_lt. }
      unfold f in Hf. apply bind_Ok_inv in Hf as (? & _ & Hf).
      apply bind_Ok_inv in Hf as (gj & Hgj & _). apply getitem_Ok in Hgj.
      apply lookup_lt_Some in Hgj. lia.
    + apply comprehension_Err in Hp as (j & _ & Hf). by rewrite (Herr _ _ Hf).
  - intros Hlen Hk. destruct (Hok Hlen) as (pairs & -> & Hsl). cbn.
    destruct (take k (drop 1 (sorted_by_key pairs))) as [|p l] eqn:Hn; [done|].
    apply (f_equal length) in Hn. rewrite length_take, length_drop, Hsl in Hn. cbn in Hn. lia.
  - intros Hlen Hk HN. destruct (Hok Hlen) as (pairs & -> & Hsl). cbn.
    destruct (take k (drop 1 (sorted_by_key pairs))) as [|p l] eqn:Hn; [|eauto].
    apply (f_equal length) in Hn. rewrite length_take, length_drop, Hsl in Hn. cbn in Hn. lia.
Qed.

(** X5.  [get_neighbor_weights] returns the empty matrix for N = 0; for
    N > 0 it raises IndexError when there are fewer than N coordinate rows,
    ValueError when k = 0 or N = 1 (no neighbor to stack), and returns
    otherwise, also when k exceeds N - 1. *)
Theorem get_neighbor_weights_outcome (gps_loc : list (list Q)) (N k : nat) :
  ((exists w, get_neighbor_weights gps_loc N k = Ok w)
   <-> N = 0 \/ (N <= length gps_loc /\ 0 < k /\ 2 <= N))
  /\ (get_neighbor_weights gps_loc N k = Err IndexError <-> 0 < N /\ length gps_loc < N)
  /\ (get_neighbor_weights gps_loc N k = Err ValueError
      <-> 0 < N /\ N <= length gps_loc /\ (k = 0 \/ N = 1)).
Proof.
  rewrite get_neighbor_weights_rows.
  set (run := for_loop _ (np_zeros N N) (xrange N)).
  assert (N = 0 -> run = Ok []) as H0 by (intros ->; done).
  assert (0 < N -> length gps_loc < N -> run = Err IndexError) as H1.
  { intros HN Hlen. unfold run. destruct N as [|N]; [lia|]. cbn [xrange seq for_loop].
    destruct (neighbors_of_cases gps_loc (S N) k 0) as (-> & _); [lia | done | done]. }
  assert (0 < N -> N <= length gps_loc -> k = 0 \/ N = 1 -> run = Err ValueError) as H2.
  { intros HN Hlen Hk. unfold run. destruct N as [|N]; [lia|]. cbn [xrange seq for_loop].
    destruct (neighbors_of_cases gps_loc (S N) k 0) as (_ & -> & _); [lia | done | done | done]. }
  assert (N <= length gps_loc -> 0 < k -> 2 <= N -> exists w, run = Ok w) as H3.
  { intros Hlen Hk HN. unfold run.
    destruct (for_loop_total (shape N N)
                (fun w i => idxs ← neighbors_of gps_loc N k i; set_row_items w i idxs 1%Q)
                (xrange N) (np_zeros N N)) as (w & -> & _); [| apply np_zeros_shape | eauto].
    intros w i Hi Hw. apply list_elem_of_In, in_seq in Hi.
    destruct (neighbors_of_cases gps_loc N k i) as (_ & _ & [idxs Hidxs]); [lia | done..|].
    rewrite Hidxs. cbn.
    apply neighbors_of_Ok in Hidxs as (_ & Hlt & _).
    destruct (set_row_items_total N N w i idxs 1%Q) as [w' Hw']; [done | lia | done |].
    exists w'. split; [done|]. by eapply set_row_items_shape. }
  destruct (decide (N = 0)) as [HN|HN].
  { rewrite (H0 HN). repeat split; intros; try discriminate; try lia; eauto. }
  destruct (decide (length gps_loc < N)) as [Hlen|Hlen].
  { rewrite H1 by lia. repeat split; intros; try discriminate; try lia;
      repeat match goal with H : _ \/ _ |- _ => destruct H | H : ex _ |- _ => destruct H end;
      try discriminate; lia. }
  destruct (decide (k = 0 \/ N = 1)) as [Hk|Hk].
  { rewrite H2 by (done || lia). repeat split; intros; try discriminate; try lia; try done;
      repeat match goal with H : _ \/ _ |- _ => destruct H | H : ex _ |- _ => destruct H end;
      try discriminate; lia. }
  destruct H3 as [w ->]; [lia..|].
  repeat split; intros; try discriminate; try lia; eauto; try (right; lia).
Qed.

End neighbor_rows.

(** ** The k nearest neighbors *)

Section neighbor_nearest.
Import moran_auto.







End neighbor_nearest.

(** ** Moran's I and its variance under a change of units *)

Section change_of_units.
Import moran_auto.
Local Open Scope Q_scope.














Lemma npeq_np_of_sign (c : comparison) : npeq (np_of_sign c) (np_of_sign c).
Proof. apply npeq_refl. Qed.










End change_of_units.

(** ** Neighbor weights under a similarity of the plane *)

Section neighbor_similarity.
Import moran_auto.
Local Open Scope Q_scope.











End neighbor_similarity.

(** ** Degenerate inputs of the Moran functions *)

Section degenerate.
Import moran_auto spec.
Local Open Scope Q_scope.























End degenerate.

(** ** One mixture component *)

Section single_component.
Import moran_auto spec.
Local Open Scope Q_scope.











End single_component.

(** ** The expectation *)

Section significance.
Import moran_auto.
Local Open Scope Q_scope.

Lemma moran_expectation_cases (N : nat) :
  (N = 1%nat -> moran_expectation N = Err ZeroDivisionError)
  /\ (N <> 1%nat -> moran_expectation N = Ok (- (1) / (QN N - 1)))
  /\ ((2 <= N)%nat -> - (1) <= - (1) / (QN N - 1) /\ - (1) / (QN N - 1) < 0).
Proof.
  split; [|split].
  - intros ->. reflexivity.
  - intros HN. by apply moran_expectation_Ok.
  - intros HN. pose proof (QN_gt N 1 ltac:(lia)) as H1. change (QN 1) with 1 in H1.
    assert (1 <= QN N - 1) as H2.
    { pose proof (QN_minus N 2 HN) as E. change (QN 2) with 2 in E.
      pose proof (QN_pos (N - 2)) as Hp.
      destruct (decide (N = 2)%nat) as [->|]; [vm_compute; discriminate|].
      specialize (Hp ltac:(lia)). lra. }
    assert (0 < / (QN N - 1)) as Hinv by (apply Qinv_lt_0_compat; lra).
    assert (/ (QN N - 1) <= 1) as Hle.
    { apply Qle_shift_inv_r; lra. }
    unfold Qdiv. split; nra.
Qed.

(** X13.  [moran_expectation] raises ZeroDivisionError exactly for N = 1;
    for every N >= 2 it returns a value in [-1, 0). *)
Theorem moran_expectation_outcome (N : nat) :
  (moran_expectation N = Err ZeroDivisionError <-> N = 1%nat)
  /\ ((2 <= N)%nat ->
      exists e, moran_expectation N = Ok e /\ - (1) <= e /\ e < 0).
Proof.
  destruct (moran_expectation_cases N) as (H1 & H2 & H3). split; [split; [|done]|].
  - intros He. destruct (decide (N = 1%nat)) as [|HN]; [done|].
    rewrite (H2 HN) in He. discriminate He.
  - intros HN. eexists. split; [apply H2; lia|]. by apply H3.
Qed.

Lemma moran_expectation_outcome_witness :
  exists e, moran_expectation 5 = Ok e /\ - (1) <= e /\ e < 0.
Proof. apply (proj2 (moran_expectation_outcome 5)). lia. Defined.

End significance.

(** ** The evaluator of gmm.py *)

Section evaluator_slots.
Import moran_auto process_data gmm.

Variable sk : sklearn.
Variable area_info : list paystation.
Variable L : stats_lib.

Lemma GMM_empty_slot park_data gps_loc times k iteration day hour :
  times !! iteration = Some (day, hour) ->
  (forall kr, kr ∈ park_data -> ~ (Day (snd kr) = day /\ Hour (snd kr) = hour)) ->
  GMM sk area_info L park_data gps_loc times k iteration
  = Ok (empty_slot_result sk day hour).
Proof.
  intros Htime Hnone. unfold GMM, getitem. rewrite Htime. cbn [mbind result_bind fst snd].
  assert (List.filter (fun kr => (Day kr.2 =? day)%Z && (Hour kr.2 =? hour)%Z) park_data = [])
    as ->.
  { destruct (List.filter _ park_data) as [|kr l] eqn:Hf; [done|]. exfalso.
    assert (kr ∈ kr :: l) as Hin by left. rewrite <- Hf in Hin.
    apply elem_of_filter_bool in Hin as [Hin Hb].
    apply andb_true_iff in Hb as [Hd%Z.eqb_eq Hh%Z.eqb_eq]. by apply (Hnone kr). }
  reflexivity.
Qed.

Lemma GMM_Ok_inv park_data gps_loc times k iteration res :
  GMM sk area_info L park_data gps_loc times k iteration = Ok res ->
  exists day hour,
    times !! iteration = Some (day, hour)
    /\ (forall kr, kr ∈ park_data -> ~ (Day (snd kr) = day /\ Hour (snd kr) = hour))
    /\ res = empty_slot_result sk day hour.
Proof.
  intros Hres. destruct (times !! iteration) as [[day hour]|] eqn:Htime.
  2:{ unfold GMM, getitem in Hres. rewrite Htime in Hres. discriminate Hres. }
  exists day, hour. split; [done|].
  assert (forall kr, kr ∈ park_data -> ~ (Day kr.2 = day /\ Hour kr.2 = hour)) as Hnone.
  { intros [id r] Hin [Hd Hh].
    destruct (slot_with_training_date_raises sk area_info L park_data gps_loc times k
                iteration day hour id r Htime Hin Hd Hh) as [e He].
    rewrite He in Hres. discriminate Hres. }
  split; [done|].
  rewrite (GMM_empty_slot park_data gps_loc times k iteration day hour Htime Hnone) in Hres.
  by injection Hres as <-.
Qed.

Lemma locational_demand_analysis_cases park_data gps_loc k :
  (park_data = [] -> locational_demand_analysis sk area_info L park_data gps_loc k = Ok [])
  /\ (park_data <> [] ->
      exists e, locational_demand_analysis sk area_info L park_data gps_loc k = Err e).
Proof.
  split; [intros ->; reflexivity|]. intros Hne.
  destruct park_data as [|[id r] rest] eqn:Hpd; [done|]. rewrite <- Hpd. clear Hne.
  assert ((id, r) ∈ park_data) as Hin by (rewrite Hpd; left).
  unfold locational_demand_analysis.
  set (days := sort_by Z.leb (pd_unique (map (fun kr => Day kr.2) park_data))).
  set (hours := sort_by Z.leb (pd_unique (map (fun kr => Hour kr.2) park_data))).
  set (times := list_prod days hours).
  assert ((Day r, Hour r) ∈ times) as Hslot.
  { apply list_elem_of_In, in_prod; apply list_elem_of_In.
    - unfold days. rewrite sort_by_perm. apply elem_of_pd_unique, list_elem_of_fmap.
      by exists (id, r).
    - unfold hours. rewrite sort_by_perm. apply elem_of_pd_unique, list_elem_of_fmap.
      by exists (id, r). }
  apply list_elem_of_lookup in Hslot as [n Hn].
  destruct (comprehension _ (seq 0 (length times))) as [results|e] eqn:Hc; [|eauto].
  exfalso. apply comprehension_inv in Hc.
  destruct (Forall2_lookup_l _ _ _ n n Hc) as (res & _ & Hres).
  { apply lookup_seq. split; [done|]. by eapply lookup_lt_Some. }
  destruct (slot_with_training_date_raises sk area_info L park_data gps_loc times k
              n (Day r) (Hour r) id r Hn Hin eq_refl eq_refl) as [e He].
  rewrite He in Hres. discriminate Hres.
Qed.

End evaluator_slots.

Section evaluator_outcomes.
Import moran_auto process_data gmm.

(** X14.  [GMM] returns only on a slot of [times] for which the table has
    no row at all, and what it returns then holds no Moran tuple, no centre
    and the rounding of nan as its error; on every slot with a row it
    raises. *)
Theorem GMM_returns_only_on_empty_slot (sk : sklearn) (area_info : list paystation)
    (L : stats_lib) (park_data : list (Z * block_row)) (gps_loc : list (list Q))
    (times : list (Z * Z)) (k iteration : nat) (res : gmm_result) :
  GMM sk area_info L park_data gps_loc times k iteration = Ok res
  <-> exists day hour,
        times !! iteration = Some (day, hour)
        /\ (forall kr, kr ∈ park_data -> ~ (Day (snd kr) = day /\ Hour (snd kr) = hour))
        /\ res = empty_slot_result sk day hour.
Proof.
  split; [apply GMM_Ok_inv|].
  intros (day & hour & Htime & Hnone & ->). by apply GMM_empty_slot.
Qed.

(** X15.  [locational_demand_analysis] returns, and then the empty list,
    exactly when the table has no row; on every table with a row it
    raises. *)
Theorem locational_demand_analysis_returns (sk : sklearn) (area_info : list paystation)
    (L : stats_lib) (park_data : list (Z * block_row)) (gps_loc : list (list Q)) (k : nat)
    (results : list gmm_result) :
  locational_demand_analysis sk area_info L park_data gps_loc k = Ok results
  <-> park_data = [] /\ results = [].
Proof.
  destruct (locational_demand_analysis_cases sk area_info L park_data gps_loc k) as [H0 H1].
  split.
  - intros Hres. destruct park_data as [|kr rest] eqn:Hpd.
    + rewrite H0 in Hres by done. by injection Hres as <-.
    + destruct H1 as [e He]; [done|]. rewrite He in Hres. discriminate Hres.
  - intros [-> ->]. by apply H0.
Qed.

End evaluator_outcomes.

(** ** Prediction accuracy *)

Section accuracy.
Import gmm.
Local Open Scope Q_scope.

Lemma accuracy_loop_correct (test_labels train_labels : list nat) test_active_index
    (train_to_label_map : gmap Z nat) (idx : list nat) (c i c' i' : nat) :
  for_loop (fun '(correct, incorrect) n =>
              key ← getitem test_active_index n;
              idx ← dict_get train_to_label_map key;
              test_label ← getitem test_labels n;
              train_label ← getitem train_labels idx;
              if decide (test_label = train_label)
              then Ok (S correct, incorrect)
              else Ok (correct, S incorrect))
           (c, i) idx = Ok (c', i') ->
  c' = (c + length (List.filter (keeps_label test_labels train_labels test_active_index
                                   train_to_label_map) idx))%nat.
Proof.
  revert c i. induction idx as [|n idx IH]; intros c i H; cbn [for_loop] in H.
  - injection H as <- <-. cbn. lia.
  - apply bind_Ok_inv in H as ([c1 i1] & Hbody & H).
    apply bind_Ok_inv in Hbody as (key & Hkey & Hbody).
    apply bind_Ok_inv in Hbody as (ix & Hix & Hbody).
    apply bind_Ok_inv in Hbody as (t & Ht & Hbody).
    apply bind_Ok_inv in Hbody as (t' & Ht' & Hbody).
    apply getitem_Ok in Hkey, Ht, Ht'. unfold dict_get in Hix.
    destruct (train_to_label_map !! key) as [ix'|] eqn:Hm; [|discriminate Hix].
    injection Hix as ->.
    apply IH in H. cbn [List.filter]. unfold keeps_label at 1.
    rewrite Hkey, Hm, Ht, Ht'.
    destruct (decide (t = t')) as [Heq|Hne]; injection Hbody as <- <-.
    + rewrite bool_decide_true by done. cbn [length]. lia.
    + rewrite bool_decide_false by done. lia.
Qed.

(** X16.  When [accuracy_of] returns, its value is the fraction of the test
    points that keep their label, a number between 0 and 1. *)
Theorem accuracy_of_fraction (test_labels train_labels : list nat) (test_active_index : list Z)
    (train_to_label_map : gmap Z nat) (a : Q) :
  accuracy_of test_labels train_labels test_active_index train_to_label_map = Ok a ->
  a == QN (length (List.filter (keeps_label test_labels train_labels test_active_index
                                  train_to_label_map) (xrange (length test_labels))))
       / QN (length test_labels)
  /\ 0 <= a <= 1.
Proof.
  unfold accuracy_of. intros H. apply bind_Ok_inv in H as ([c i] & Hloop & H).
  pose proof (accuracy_of_counts _ _ _ _ _ _ _ _ _ Hloop) as Hsum.
  pose proof (accuracy_loop_correct _ _ _ _ _ _ _ _ _ Hloop) as Hc.
  unfold xrange in Hsum. rewrite length_seq in Hsum. cbn in Hsum, Hc.
  unfold py_float_div in H. destruct (Qeq_bool (QN (c + i)) 0) eqn:E; [discriminate H|].
  injection H as <-. apply Qeq_bool_neq in E.
  assert (0 < QN (c + i)) as Hpos.
  { apply QN_pos. destruct (c + i)%nat eqn:Hz; [|lia]. exfalso. apply E. reflexivity. }
  rewrite <- Hc, <- Hsum. split; [reflexivity|].
  assert (0 <= QN c) as H0 by (unfold QN, Qle; cbn; lia).
  assert (QN c <= QN (c + i)) as H1 by (unfold QN, Qle; cbn; lia).
  split.
  - apply Qle_shift_div_l; [done | lra].
  - apply Qle_shift_div_r; [done | lra].
Qed.

Lemma accuracy_of_fraction_witness :
  (3 # 4) == QN (length (List.filter (keeps_label [0; 1; 1; 2]%nat [0; 1; 2; 2]%nat
                           [10; 11; 12; 13]%Z
                           (list_to_map [(10%Z, 0%nat); (11%Z, 1%nat); (12%Z, 2%nat); (13%Z, 3%nat)]))
                          (xrange (length [0; 1; 1; 2]%nat))))
              / QN (length [0; 1; 1; 2]%nat)
  /\ 0 <= (3 # 4) <= 1.
Proof.
  apply (accuracy_of_fraction [0; 1; 1; 2]%nat [0; 1; 2; 2]%nat [10; 11; 12; 13]%Z
           (list_to_map [(10%Z, 0%nat); (11%Z, 1%nat); (12%Z, 2%nat); (13%Z, 3%nat)])).
  vm_compute. reflexivity.
Defined.

End accuracy.

(** ** The loops of load_data *)

Section load_loops.
Import process_data.
Local Open Scope Z_scope.

Variable locations : gmap Z (list Q).
Variable block_info : list info_row.
Variable holidays : list Z.
Variable date_start date_end : Z.

(** A file leaves the state as it is, or adds one block: a row of 72
    averages, a coordinate pair, its key and its rows after the operating-hour
    rules. *)
Lemma load_block_inv (st st' : load_state) (file : Z * list raw_row) :
  load_block locations block_info holidays date_start date_end st file = Ok st' ->
  st' = st
  \/ exists curr_block block_data mid_lat mid_long,
       locations !! fst file = Some curr_block
       /\ restrict_and_clip holidays date_start date_end (read_block (snd file)) <> []
       /\ for_loop blank_rule
            (restrict_and_clip holidays date_start date_end (read_block (snd file)))
            (List.filter (fun row => ElementKey row =? fst file) block_info)
          = Ok block_data
       /\ length (day_hour_groups block_data) = 72%nat
       /\ st' = {| avg_loads := avg_loads st
                               ++ [map (group_mean block_data) (day_hour_groups block_data)];
                   gps_loc := gps_loc st ++ [[mid_lat; mid_long]];
                   element_keys := element_keys st ++ [fst file];
                   park_data := <[fst file := block_data]> (park_data st) |}.
Proof.
  unfold load_block. intros H.
  destruct (decide (length _ = 0%nat)) as [|Hlen]; [injection H as <-; by left|].
  case_decide; [injection H as <-; by left|].
  destruct (locations !! file.1) as [curr_block|] eqn:Hloc; [|injection H as <-; by left].
  apply bind_Ok_inv in H as (lat1 & _ & H). apply bind_Ok_inv in H as (lat2 & _ & H).
  apply bind_Ok_inv in H as (lon1 & _ & H). apply bind_Ok_inv in H as (lon2 & _ & H).
  apply bind_Ok_inv in H as (block_data & Hrules & H).
  case_decide; injection H as <-; [|by left].
  right. exists curr_block, block_data, ((lat1 + lat2) / 2)%Q, ((lon1 + lon2) / 2)%Q.
  repeat split; try done. intros Hnil. apply Hlen. by rewrite Hnil.
Qed.

Lemma load_loops_invariant (P : load_state -> Prop)
    (load_paths : list (list (Z * list raw_row))) (st : load_state) :
  P {| avg_loads := []; gps_loc := []; element_keys := []; park_data := ∅ |} ->
  (forall st file st', P st ->
     load_block locations block_info holidays date_start date_end st file = Ok st' -> P st') ->
  for_loop (fun st load_path =>
      for_loop (load_block locations block_info holidays date_start date_end) st
        (sort_by (fun a b => fst a <=? fst b) load_path))
    {| avg_loads := []; gps_loc := []; element_keys := []; park_data := ∅ |}
    load_paths = Ok st ->
  P st.
Proof.
  intros H0 Hstep. apply (for_loop_invariant P); [|done].
  intros st0 load_path st1 _ Hst0. apply (for_loop_invariant P); [|done].
  intros st2 file st3 _ Hst2. by apply Hstep.
Qed.

Lemma blanked_refl (l : list block_row) : Forall2 blanked l l.
Proof. apply Forall_Forall2_diag, Forall_forall. intros r _. by left. Qed.

Lemma blanked_trans (l1 l2 l3 : list block_row) :
  Forall2 blanked l1 l2 -> Forall2 blanked l2 l3 -> Forall2 blanked l1 l3.
Proof.
  intros H12. revert l3. induction H12 as [|r1 r2 l1 l2 Hr _ IH]; intros l3 H23.
  - by apply Forall2_nil_inv_l in H23 as ->.
  - apply Forall2_cons_inv_l in H23 as (r3 & l3' & Hr' & H23 & ->).
    constructor; [|by apply IH].
    destruct Hr as [->|[-> Hd]]; [done|].
    destruct Hr' as [->|[-> _]]; right; by split.
Qed.

Lemma blank_window_blanked start_date end_date null_end peak_start peak_end block_data out :
  blank_window start_date end_date null_end peak_start peak_end block_data = Ok out ->
  Forall2 blanked block_data out.
Proof.
  unfold blank_window. intros H.
  destruct peak_start as [s|]; [|injection H as <-; apply blanked_refl].
  destruct peak_end as [e|]; [|destruct block_data; [injection H as <-; constructor | done]].
  injection H as <-. apply Forall2_fmap_r, Forall_Forall2_diag, Forall_forall.
  intros r _. unfold compose.
  destruct (peak_mask start_date end_date null_end s e r) eqn:Hm; [|by left].
  right. split; [done|]. unfold peak_mask in Hm.
  destruct null_end; repeat (apply andb_true_iff in Hm as [Hm ?]);
    match goal with H : negb (Day r =? 5) = true |- _ =>
      apply negb_true_iff, Z.eqb_neq in H; exact H end.
Qed.

Lemma blank_rule_blanked (block_data out : list block_row) (row : info_row) :
  blank_rule block_data row = Ok out -> Forall2 blanked block_data out.
Proof.
  unfold blank_rule. intros H.
  destruct (_ && _) eqn:E; [injection H as <-; apply blanked_refl|].
  apply bind_Ok_inv in H as (b1 & H1 & H). apply bind_Ok_inv in H as (b2 & H2 & H).
  apply blank_window_blanked in H1, H2, H.
  eapply blanked_trans; [|done]. by eapply blanked_trans.
Qed.

Lemma blank_rules_blanked (rules : list info_row) (block_data out : list block_row) :
  for_loop blank_rule block_data rules = Ok out -> Forall2 blanked block_data out.
Proof.
  revert block_data. induction rules as [|row rules IH]; intros block_data H; cbn in H.
  - injection H as <-. apply blanked_refl.
  - apply bind_Ok_inv in H as (b & Hb & H). apply blank_rule_blanked in Hb.
    eapply blanked_trans; [done | by apply IH].
Qed.

Lemma read_block_derived (raws : list raw_row) (r : block_row) :
  r ∈ read_block raws -> derived_columns r /\ is_Some (Load r).
Proof.
  unfold read_block. intros Hr. apply list_elem_of_fmap in Hr as ([t v] & -> & _).
  by repeat split.
Qed.

Lemma restrict_and_clip_derived (raws : list raw_row) (r : block_row) :
  r ∈ restrict_and_clip holidays date_start date_end (read_block raws) ->
  derived_columns r /\ is_Some (Load r) /\ Day r <> 6.
Proof.
  unfold restrict_and_clip. intros Hr. apply list_elem_of_fmap in Hr as (r0 & -> & Hr0).
  apply elem_of_filter_bool in Hr0 as [Hr0 _].
  apply elem_of_filter_bool in Hr0 as [Hr0 Hday].
  apply elem_of_filter_bool in Hr0 as [Hr0 _].
  apply negb_true_iff, Z.eqb_neq in Hday.
  apply read_block_derived in Hr0 as [Hd [v Hv]].
  split; [exact Hd|]. split; [|done]. cbn. rewrite Hv. by eexists.
Qed.

(** The rows a block is stored with: derived from their timestamps, never
    on a Sunday, and with a load on every Saturday row. *)
Lemma stored_rows (raws : list raw_row) (rules : list info_row) (block_data : list block_row)
    (r : block_row) :
  for_loop blank_rule (restrict_and_clip holidays date_start date_end (read_block raws))
    rules = Ok block_data ->
  r ∈ block_data ->
  derived_columns r /\ Day r <> 6 /\ (Day r = 5 -> is_Some (Load r)).
Proof.
  intros H Hr. apply blank_rules_blanked in H.
  apply list_elem_of_lookup in Hr as [i Hi].
  destruct (Forall2_lookup_r _ _ _ _ _ H Hi) as (r0 & Hr0 & Hb).
  apply list_elem_of_lookup_2, restrict_and_clip_derived in Hr0 as (Hd & Hl & Hday).
  destruct Hb as [->|[-> Hsat]]; [done|].
  split; [exact Hd|]. split; [done|]. cbn. intros; congruence.
Qed.

Lemma load_loops_rows (P : block_row -> Prop)
    (load_paths : list (list (Z * list raw_row))) (st : load_state) :
  (forall raws rules block_data r,
     for_loop blank_rule (restrict_and_clip holidays date_start date_end (read_block raws))
       rules = Ok block_data ->
     r ∈ block_data -> P r) ->
  for_loop (fun st load_path =>
      for_loop (load_block locations block_info holidays date_start date_end) st
        (sort_by (fun a b => fst a <=? fst b) load_path))
    {| avg_loads := []; gps_loc := []; element_keys := []; park_data := ∅ |}
    load_paths = Ok st ->
  forall id rows r, park_data st !! id = Some rows -> r ∈ rows -> P r.
Proof.
  intros HP. apply (load_loops_invariant
    (fun st => forall id rows r, park_data st !! id = Some rows -> r ∈ rows -> P r)).
  - intros id rows r Hid. cbn in Hid. by rewrite lookup_empty in Hid.
  - intros st0 file st1 Hst0 Hblock.
    apply load_block_inv in Hblock as [->|(cb & bd & la & lo & _ & _ & Hrules & _ & ->)];
      [done|].
    intros id rows r Hid Hr. cbn in Hid.
    apply lookup_insert_Some in Hid as [[<- <-]|[_ Hid]]; [|by eapply Hst0].
    by eapply HP.
Qed.

(** The state of the loops: as many keys as rows of averages and as
    coordinate pairs, 72 averages per row, and the keys are the blocks
    stored, each with at least one row and with coordinates. *)
Lemma load_loops_state (load_paths : list (list (Z * list raw_row))) (st : load_state) :
  for_loop (fun st load_path =>
      for_loop (load_block locations block_info holidays date_start date_end) st
        (sort_by (fun a b => fst a <=? fst b) load_path))
    {| avg_loads := []; gps_loc := []; element_keys := []; park_data := ∅ |}
    load_paths = Ok st ->
  (length (avg_loads st) = length (element_keys st)
   /\ length (gps_loc st) = length (element_keys st)
   /\ Forall (fun row => length row = 72%nat) (avg_loads st)
   /\ Forall (fun g => length g = 2%nat) (gps_loc st))
  /\ (forall id, id ∈ element_keys st <-> is_Some (park_data st !! id))
  /\ (forall id rows, park_data st !! id = Some rows -> rows <> [])
  /\ (forall id, id ∈ element_keys st -> is_Some (locations !! id)).
Proof.
  apply (load_loops_invariant (fun st =>
    (length (avg_loads st) = length (element_keys st)
     /\ length (gps_loc st) = length (element_keys st)
     /\ Forall (fun row => length row = 72%nat) (avg_loads st)
     /\ Forall (fun g => length g = 2%nat) (gps_loc st))
    /\ (forall id, id ∈ element_keys st <-> is_Some (park_data st !! id))
    /\ (forall id rows, park_data st !! id = Some rows -> rows <> [])
    /\ (forall id, id ∈ element_keys st -> is_Some (locations !! id)))).
  - split; [cbn; by repeat split|]. split; [|split].
    + intros id. cbn. rewrite lookup_empty.
      split; [intros H; by apply elem_of_nil in H | by intros [? ?]].
    + intros id rows H. cbn in H. by rewrite lookup_empty in H.
    + intros id H. by apply elem_of_nil in H.
  - intros st0 file st1 ((Ha & Hg & H72 & H2) & Hkeys & Hne & Hloc) Hblock.
    apply load_block_inv in Hblock as [->|(cb & bd & la & lo & Hcb & Hnil & Hrules & Hgr & ->)];
      [done|]. cbn.
    split; [|split; [|split]].
    + rewrite !length_app. cbn. repeat split; try lia.
      * apply Forall_app. split; [done|]. constructor; [|done]. by rewrite length_map.
      * apply Forall_app. split; [done|]. by repeat constructor.
    + intros id. rewrite elem_of_app, list_elem_of_singleton, Hkeys.
      destruct (decide (id = file.1)) as [->|Hid].
      * rewrite lookup_insert_eq. split; [by eexists | by right].
      * rewrite lookup_insert_ne by done. split; [intros [?|?]; done | by left].
    + intros id rows Hid. apply lookup_insert_Some in Hid as [[<- <-]|[_ Hid]]; [|by eapply Hne].
      apply blank_rules_blanked, Forall2_length in Hrules. intros ->.
      apply Hnil. by apply length_zero_iff_nil.
    + intros id Hid. apply elem_of_app in Hid as [Hid|Hid]; [by apply Hloc|].
      apply list_elem_of_singleton in Hid as ->. by eexists.
Qed.

Lemma stored_loads (raws : list raw_row) (rules : list info_row) (block_data : list block_row)
    (r : block_row) (l : Q) :
  for_loop blank_rule (restrict_and_clip holidays date_start date_end (read_block raws))
    rules = Ok block_data ->
  r ∈ block_data -> Load r = Some l -> (l <= 3 # 2)%Q.
Proof.
  intros H Hr Hl. apply blank_rules_blanked in H.
  apply list_elem_of_lookup in Hr as [i Hi].
  destruct (Forall2_lookup_r _ _ _ _ _ H Hi) as (r0 & Hr0 & Hb).
  assert (Load r0 = Some l) as Hl0.
  { destruct Hb as [->|[-> _]]; [done | discriminate Hl]. }
  apply list_elem_of_lookup_2 in Hr0. unfold restrict_and_clip in Hr0.
  apply list_elem_of_fmap in Hr0 as (r1 & -> & _). cbn in Hl0.
  destruct (Load r1) as [v|]; [|discriminate Hl0]. injection Hl0 as <-.
  rewrite clip_upper_min. apply Q.le_min_r.
Qed.

Lemma py_sum_bound (c : Q) (l : list Q) :
  Forall (fun v => v <= c)%Q l -> (py_sum l <= QN (length l) * c)%Q.
Proof.
  intros H. rewrite py_sum_foldr. induction H as [|v l Hv H IH]; cbn [foldr length].
  - change (QN 0) with 0%Q. lra.
  - assert (QN (S (length l)) == QN (length l) + 1)%Q as ->.
    { unfold QN. rewrite Nat2Z.inj_succ, <- Z.add_1_r, inject_Z_plus. reflexivity. }
    lra.
Qed.

Lemma group_mean_ok (block_data : list block_row) (g : Z * Z) :
  (forall r l, r ∈ block_data -> Load r = Some l -> (l <= 3 # 2)%Q) ->
  average_ok (group_mean block_data g).
Proof.
  intros Hle. unfold group_mean.
  set (loads := omap Load (List.filter _ block_data)).
  assert (Forall (fun v => v <= 3 # 2)%Q loads) as Hall.
  { apply Forall_forall. intros v Hv. apply list_elem_of_omap in Hv as (r & Hr & Hl).
    apply elem_of_filter_bool in Hr as [Hr _]. by eapply Hle. }
  pose proof (py_sum_bound _ _ Hall) as Hsum.
  destruct loads as [|v loads']; [vm_compute; done|].
  assert (0 < QN (length (v :: loads')))%Q as Hpos by (apply QN_pos; cbn; lia).
  rewrite npdiv_Fin by lra. cbv [average_ok]. apply Qle_shift_div_r; [done | lra].
Qed.

Lemma load_loops_averages (load_paths : list (list (Z * list raw_row))) (st : load_state) :
  for_loop (fun st load_path =>
      for_loop (load_block locations block_info holidays date_start date_end) st
        (sort_by (fun a b => fst a <=? fst b) load_path))
    {| avg_loads := []; gps_loc := []; element_keys := []; park_data := ∅ |}
    load_paths = Ok st ->
  Forall (Forall average_ok) (avg_loads st).
Proof.
  apply (load_loops_invariant (fun st => Forall (Forall average_ok) (avg_loads st))).
  - constructor.
  - intros st0 file st1 Hst0 Hblock.
    apply load_block_inv in Hblock as [->|(cb & bd & la & lo & _ & _ & Hrules & _ & ->)];
      [done|]. cbn.
    apply Forall_app. split; [done|]. constructor; [|constructor].
    apply Forall_forall. intros v Hv. apply list_elem_of_fmap in Hv as (g & -> & _).
    apply group_mean_ok. intros r l Hr Hl. by eapply stored_loads.
Qed.

(** Without coordinates for any file, the loops add no block. *)
Lemma load_loops_no_location (load_paths : list (list (Z * list raw_row))) :
  (forall load_path file, load_path ∈ load_paths -> file ∈ load_path ->
     locations !! fst file = None) ->
  for_loop (fun st load_path =>
      for_loop (load_block locations block_info holidays date_start date_end) st
        (sort_by (fun a b => fst a <=? fst b) load_path))
    {| avg_loads := []; gps_loc := []; element_keys := []; park_data := ∅ |}
    load_paths
  = Ok {| avg_loads := []; gps_loc := []; element_keys := []; park_data := ∅ |}.
Proof.
  generalize {| avg_loads := []; gps_loc := []; element_keys := []; park_data := ∅ |}.
  induction load_paths as [|load_path load_paths IH]; intros st Hnone; [done|].
  cbn [for_loop].
  assert (for_loop (load_block locations block_info holidays date_start date_end) st
            (sort_by (fun a b => a.1 <=? b.1) load_path) = Ok st) as ->.
  { assert (forall file, file ∈ sort_by (fun a b => a.1 <=? b.1) load_path ->
              locations !! file.1 = None) as Hfiles.
    { intros file Hfile. rewrite sort_by_perm in Hfile. apply (Hnone load_path); [left | done]. }
    induction (sort_by _ load_path) as [|file files IHf]; [done|]. cbn [for_loop].
    assert (load_block locations block_info holidays date_start date_end st file = Ok st)
      as ->.
    { unfold load_block. repeat case_decide; try done.
      by rewrite (Hfiles file ltac:(left)). }
    cbn. apply IHf. intros f Hf. apply Hfiles. by right. }
  cbn. apply IH. intros lp file Hlp. apply Hnone. by right.
Qed.

(** The keys added by the files of one directory follow the order of the
    files. *)
Lemma load_files_keys (files : list (Z * list raw_row)) (st st' : load_state) :
  for_loop (load_block locations block_info holidays date_start date_end) st files = Ok st' ->
  exists ks, element_keys st' = element_keys st ++ ks /\ ks `sublist_of` map fst files.
Proof.
  revert st. induction files as [|file files IH]; intros st H; cbn [for_loop] in H.
  - injection H as <-. exists []. by rewrite app_nil_r.
  - apply bind_Ok_inv in H as (st1 & Hblock & H).
    destruct (IH _ H) as (ks & -> & Hks).
    apply load_block_inv in Hblock as [->|(cb & bd & la & lo & _ & _ & _ & _ & ->)].
    + exists ks. split; [done|]. by apply sublist_cons.
    + exists (file.1 :: ks). cbn. split; [by rewrite <- app_assoc|]. by apply sublist_skip.
Qed.

(** The row of averages of the last block stored under a key is computed
    from the rows stored under that key. *)
Lemma load_loops_average_rows (load_paths : list (list (Z * list raw_row))) (st : load_state) :
  for_loop (fun st load_path =>
      for_loop (load_block locations block_info holidays date_start date_end) st
        (sort_by (fun a b => fst a <=? fst b) load_path))
    {| avg_loads := []; gps_loc := []; element_keys := []; park_data := ∅ |}
    load_paths = Ok st ->
  forall i key row,
    element_keys st !! i = Some key -> avg_loads st !! i = Some row ->
    (forall j, (i < j)%nat -> element_keys st !! j <> Some key) ->
    exists rows, park_data st !! key = Some rows
                 /\ row = map (group_mean rows) (day_hour_groups rows).
Proof.
  intros Hst.
  cut (length (avg_loads st) = length (element_keys st)
       /\ forall i key row,
            element_keys st !! i = Some key -> avg_loads st !! i = Some row ->
            (forall j, (i < j)%nat -> element_keys st !! j <> Some key) ->
            exists rows, park_data st !! key = Some rows
                         /\ row = map (group_mean rows) (day_hour_groups rows)).
  { by intros [_ H]. }
  revert Hst. apply (load_loops_invariant (fun st =>
    length (avg_loads st) = length (element_keys st)
    /\ forall i key row,
         element_keys st !! i = Some key -> avg_loads st !! i = Some row ->
         (forall j, (i < j)%nat -> element_keys st !! j <> Some key) ->
         exists rows, park_data st !! key = Some rows
                      /\ row = map (group_mean rows) (day_hour_groups rows))).
  - split; [done|]. intros i key row Hk. cbn in Hk. by rewrite lookup_nil in Hk.
  - intros st0 file st1 [Hlen Hrows] Hblock.
    apply load_block_inv in Hblock as [->|(cb & bd & la & lo & _ & _ & _ & _ & ->)];
      [done|]. cbn.
    split; [rewrite !length_app; cbn; lia|].
    intros i key row Hk Ha Hlast.
    destruct (decide (i < length (element_keys st0))%nat) as [Hi|Hi].
    + rewrite lookup_app_l in Hk by done. rewrite lookup_app_l in Ha by lia.
      destruct (decide (key = file.1)) as [->|Hne].
      * exfalso. apply (Hlast (length (element_keys st0)) Hi).
        by rewrite lookup_app_r, Nat.sub_diag by lia.
      * rewrite lookup_insert_ne by done. apply (Hrows i key row Hk Ha).
        intros j Hj Hkj. apply (Hlast j Hj). apply lookup_app_l_Some. exact Hkj.
    + pose proof (lookup_lt_Some _ _ _ Hk) as Hb. rewrite length_app in Hb. cbn in Hb.
      assert (i = length (element_keys st0)) as -> by lia.
      rewrite lookup_app_r, Nat.sub_diag in Hk by lia. injection Hk as <-.
      rewrite <- Hlen in Ha. rewrite lookup_app_r, Nat.sub_diag in Ha by lia.
      injection Ha as <-. exists bd. by rewrite lookup_insert_eq.
Qed.

End load_loops.

(** ** The outputs of load_data *)

Section load_outputs.
Import process_data.
Local Open Scope Z_scope.

Lemma insert_by_sorted {A} (leb : A -> A -> bool) (R : A -> A -> Prop) (a : A) (l : list A) :
  (forall a b, leb a b = true -> R a b) ->
  (forall a b, leb a b = false -> R b a) ->
  (forall a b c, R a b -> R b c -> R a c) ->
  StronglySorted R l -> StronglySorted R (insert_by leb a l).
Proof.
  intros Ht Hf Htrans. induction 1 as [|b l Hl IH Hb]; cbn [insert_by].
  - repeat constructor.
  - destruct (leb a b) eqn:Hab.
    + constructor; [by constructor|]. constructor; [by apply Ht|].
      eapply Forall_impl; [exact Hb|]. intros c Hc. eapply Htrans; [by apply Ht | done].
    + constructor; [done|]. rewrite insert_by_perm. constructor; [by apply Hf | done].
Qed.

Lemma sort_by_sorted {A} (leb : A -> A -> bool) (R : A -> A -> Prop) (l : list A) :
  (forall a b, leb a b = true -> R a b) ->
  (forall a b, leb a b = false -> R b a) ->
  (forall a b c, R a b -> R b c -> R a c) ->
  StronglySorted R (sort_by leb l).
Proof.
  intros Ht Hf Htrans. induction l as [|a l IH]; cbn; [constructor|].
  by apply insert_by_sorted.
Qed.

(** What [load_data] returns, from the state its loops end in. *)
Lemma load_data_inv locations block_info cal today load_paths
    month_year_start month_year_end day_start day_end out :
  load_data locations block_info cal today load_paths
    month_year_start month_year_end day_start day_end = Ok out ->
  exists date_start date_end st,
    for_loop (fun st load_path =>
        for_loop (load_block locations block_info (cal_holidays cal holidays_start today)
                    date_start date_end) st
          (sort_by (fun a b => fst a <=? fst b) load_path))
      {| avg_loads := []; gps_loc := []; element_keys := []; park_data := ∅ |}
      load_paths = Ok st
    /\ avg_loads st <> []
    /\ out_element_keys out = element_keys st
    /\ out_avg_loads out = avg_loads st
    /\ out_gps_loc out = gps_loc st
    /\ StronglySorted table_le (out_park_data out)
    /\ forall id r, (id, r) ∈ out_park_data out
                    <-> exists rows, park_data st !! id = Some rows /\ r ∈ rows.
Proof.
  unfold load_data. intros H.
  apply bind_Ok_inv in H as (day_end' & _ & H).
  apply bind_Ok_inv in H as (date_start & _ & H).
  apply bind_Ok_inv in H as (date_end & _ & H).
  apply bind_Ok_inv in H as (st & Hst & H).
  exists date_start, date_end, st. split; [done|].
  destruct (avg_loads st) as [|row rows_] eqn:Ha; [discriminate|]. injection H as <-. cbn.
  repeat split; try done.
  - apply sort_by_sorted.
    + intros [ia a] [ib b] Hab. unfold table_le. cbn in *.
      apply orb_true_iff in Hab as [Hab|Hab]; [left; lia|].
      apply andb_true_iff in Hab as [? ?]. right. lia.
    + intros [ia a] [ib b] Hab. unfold table_le. cbn in *.
      apply orb_false_iff in Hab as [Hlt Hab]. apply Z.ltb_ge in Hlt.
      apply andb_false_iff in Hab as [Hab|Hab]; [left; lia|].
      destruct (decide (Datetime b = Datetime a)); [right; lia | left; lia].
    + intros [ia a] [ib b] [ic c]. unfold table_le. cbn. lia.
  - intros Hr. rewrite sort_by_perm in Hr.
    apply list_elem_of_In, in_concat in Hr as (rs & Hl & Hr).
    apply list_elem_of_In in Hl, Hr.
    apply list_elem_of_fmap in Hl as ([id' rows] & -> & Hkv). cbn in Hr.
    apply list_elem_of_fmap in Hr as (r' & [= -> ->] & Hr').
    apply elem_of_map_to_list in Hkv. eauto.
  - intros (rows & Hid & Hr). rewrite sort_by_perm.
    apply list_elem_of_In, in_concat. exists (map (pair id) rows). split.
    + apply list_elem_of_In, list_elem_of_fmap. exists (id, rows). split; [done|].
      by apply elem_of_map_to_list.
    + apply list_elem_of_In, list_elem_of_fmap. by exists r.
Qed.

(** X17.  The arrays [load_data] returns fit together: as many rows of
    averages and coordinate pairs as block keys, at least one, every row of
    averages with 72 columns and every coordinate row with 2. *)
Theorem load_data_shapes locations block_info cal today load_paths
    month_year_start month_year_end day_start day_end out :
  load_data locations block_info cal today load_paths
    month_year_start month_year_end day_start day_end = Ok out ->
  out_element_keys out <> []
  /\ length (out_avg_loads out) = length (out_element_keys out)
  /\ length (out_gps_loc out) = length (out_element_keys out)
  /\ Forall (fun row => length row = 72%nat) (out_avg_loads out)
  /\ Forall (fun g => length g = 2%nat) (out_gps_loc out).
Proof.
  intros H. apply load_data_inv in H as (ds & de & st & Hst & Hne & -> & -> & -> & _).
  apply load_loops_state in Hst as ((Ha & Hg & H72 & H2) & _).
  repeat split; try done. intros Hk. rewrite Hk in Ha. by apply Hne, length_zero_iff_nil.
Qed.

Lemma load_data_shapes_witness :
  out_element_keys sample.july_2012_table <> []
  /\ length (out_avg_loads sample.july_2012_table)
     = length (out_element_keys sample.july_2012_table)
  /\ length (out_gps_loc sample.july_2012_table)
     = length (out_element_keys sample.july_2012_table)
  /\ Forall (fun row => length row = 72%nat) (out_avg_loads sample.july_2012_table)
  /\ Forall (fun g => length g = 2%nat) (out_gps_loc sample.july_2012_table).
Proof.
  apply (load_data_shapes sample.locations [] sample.fourth_of_july sample.today
           sample.july_2012 (7, 2012) (7, 2012) None None sample.july_2012_table).
  vm_compute. reflexivity.
Defined.

(** X18.  The table [load_data] returns is sorted by timestamp and, among
    the rows of one timestamp, by block key. *)
Theorem load_data_sorted locations block_info cal today load_paths
    month_year_start month_year_end day_start day_end out :
  load_data locations block_info cal today load_paths
    month_year_start month_year_end day_start day_end = Ok out ->
  StronglySorted table_le (out_park_data out).
Proof.
  intros H. by apply load_data_inv in H as (ds & de & st & _ & _ & _ & _ & _ & Hs & _).
Qed.

Lemma load_data_sorted_witness :
  StronglySorted table_le (out_park_data sample.july_2012_table).
Proof.
  apply (load_data_sorted sample.locations [] sample.fourth_of_july sample.today
           sample.july_2012 (7, 2012) (7, 2012) None None sample.july_2012_table).
  vm_compute. reflexivity.
Defined.

(** X19.  The block keys [load_data] returns are the keys of the blocks in
    the table it returns, and each of them has coordinates in the locations
    dictionary. *)
Theorem load_data_keys locations block_info cal today load_paths
    month_year_start month_year_end day_start day_end out :
  load_data locations block_info cal today load_paths
    month_year_start month_year_end day_start day_end = Ok out ->
  forall id, (id ∈ out_element_keys out <-> exists r, (id, r) ∈ out_park_data out)
             /\ (id ∈ out_element_keys out -> is_Some (locations !! id)).
Proof.
  intros H id. apply load_data_inv in H as (ds & de & st & Hst & _ & -> & _ & _ & _ & Hrows).
  apply load_loops_state in Hst as (_ & Hkeys & Hne & Hloc).
  split; [|apply Hloc]. rewrite Hkeys. split.
  - intros [rows Hid]. destruct rows as [|r rest] eqn:Hr; [by apply Hne in Hid|].
    exists r. apply Hrows. exists (r :: rest). split; [done | left].
  - intros (r & Hr). apply Hrows in Hr as (rows & -> & _). by eexists.
Qed.

Lemma load_data_keys_witness :
  (2759 ∈ out_element_keys sample.july_2012_table
   <-> exists r, (2759, r) ∈ out_park_data sample.july_2012_table)
  /\ (2759 ∈ out_element_keys sample.july_2012_table -> is_Some (sample.locations !! 2759)).
Proof.
  apply (load_data_keys sample.locations [] sample.fourth_of_july sample.today
           sample.july_2012 (7, 2012) (7, 2012) None None sample.july_2012_table).
  vm_compute. reflexivity.
Defined.

(** X20.  The operating-hour rules never blank a Saturday: every row of
    the returned table with weekday 5 has a load. *)
Theorem load_data_saturday_loads locations block_info cal today load_paths
    month_year_start month_year_end day_start day_end out :
  load_data locations block_info cal today load_paths
    month_year_start month_year_end day_start day_end = Ok out ->
  forall id r, (id, r) ∈ out_park_data out -> Day r = 5 -> is_Some (Load r).
Proof.
  intros H id r Hr. apply load_data_inv in H as (ds & de & st & Hst & _ & _ & _ & _ & _ & Hrows).
  apply Hrows in Hr as (rows & Hid & Hr).
  refine (load_loops_rows _ _ _ _ _ (fun r => Day r = 5 -> is_Some (Load r)) _ _ _ Hst
            id rows r Hid Hr).
  intros raws rules block_data r0 Hrules Hr0. by eapply stored_rows.
Qed.

Lemma load_data_saturday_loads_witness :
  is_Some (Load {| Datetime := 63477936000; Load := Some (3 # 2)%Q; Date := 734698;
                   Time := 28800; Day := 5; Hour := 8; Minute := 0 |}).
Proof.
  refine (load_data_saturday_loads sample.locations [] sample.fourth_of_july sample.today
            sample.july_2012 (7, 2012) (7, 2012) None None sample.july_2012_table _ 2759
            {| Datetime := 63477936000; Load := Some (3 # 2)%Q; Date := 734698;
               Time := 28800; Day := 5; Hour := 8; Minute := 0 |} _ _).
  - vm_compute. reflexivity.
  - vm_compute. repeat (first [left | right]).
  - reflexivity.
Defined.

(** X21.  In every row of the returned table the date, time, weekday, hour
    and minute are those of the row's timestamp; the weekday is between 0
    (Monday) and 5 (Saturday), the hour between 0 and 23 and the minute
    between 0 and 59. *)
Theorem load_data_derived_columns locations block_info cal today load_paths
    month_year_start month_year_end day_start day_end out :
  load_data locations block_info cal today load_paths
    month_year_start month_year_end day_start day_end = Ok out ->
  forall id r, (id, r) ∈ out_park_data out ->
    derived_columns r /\ 0 <= Day r <= 5 /\ 0 <= Hour r <= 23 /\ 0 <= Minute r <= 59.
Proof.
  intros H id r Hr. apply load_data_inv in H as (ds & de & st & Hst & _ & _ & _ & _ & _ & Hrows).
  apply Hrows in Hr as (rows & Hid & Hr).
  assert (derived_columns r /\ Day r <> 6) as [Hd Hday].
  { refine (load_loops_rows _ _ _ _ _ (fun r => derived_columns r /\ Day r <> 6) _ _ _ Hst
              id rows r Hid Hr).
    intros raws rules block_data r0 Hrules Hr0.
    destruct (stored_rows _ _ _ _ _ _ _ Hrules Hr0) as (? & ? & _). done. }
  split; [exact Hd|]. destruct Hd as (_ & _ & HD & HH & HM).
  rewrite HD in Hday |- *. rewrite HH, HM.
  unfold weekday_of, hour_of, minute_of, time_of in *.
  pose proof (Z.mod_pos_bound (date_of (Datetime r) + 6) 7 ltac:(lia)).
  pose proof (Z.mod_pos_bound (Datetime r) 86400 ltac:(lia)) as Ht.
  pose proof (Z.mod_pos_bound (Datetime r mod 86400) 3600 ltac:(lia)) as Hm.
  repeat split; try lia.
  - apply Z.div_pos; lia.
  - apply Z.lt_succ_r. apply Z.div_lt_upper_bound; lia.
  - apply Z.div_pos; lia.
  - apply Z.lt_succ_r. apply Z.div_lt_upper_bound; lia.
Qed.

Lemma load_data_derived_columns_witness :
  derived_columns {| Datetime := 63477504000; Load := Some (3 # 2)%Q; Date := 734693;
                     Time := 28800; Day := 0; Hour := 8; Minute := 0 |}
  /\ 0 <= 0 <= 5 /\ 0 <= 8 <= 23 /\ 0 <= 0 <= 59.
Proof.
  refine (load_data_derived_columns sample.locations [] sample.fourth_of_july sample.today
            sample.july_2012 (7, 2012) (7, 2012) None None sample.july_2012_table _ 2759
            {| Datetime := 63477504000; Load := Some (3 # 2)%Q; Date := 734693;
               Time := 28800; Day := 0; Hour := 8; Minute := 0 |} _).
  - vm_compute. reflexivity.
  - vm_compute. left.
Defined.

(** X22.  Every entry of the average-load matrix [load_data] returns is nan
    (no load left in the group) or a number that is at most 1.5; it is never
    an infinity. *)
Theorem load_data_averages locations block_info cal today load_paths
    month_year_start month_year_end day_start day_end out :
  load_data locations block_info cal today load_paths
    month_year_start month_year_end day_start day_end = Ok out ->
  Forall (Forall average_ok) (out_avg_loads out).
Proof.
  intros H. apply load_data_inv in H as (ds & de & st & Hst & _ & _ & -> & _).
  by eapply load_loops_averages.
Qed.

Lemma load_data_averages_witness :
  Forall (Forall average_ok) (out_avg_loads sample.july_2012_table).
Proof.
  apply (load_data_averages sample.locations [] sample.fourth_of_july sample.today
           sample.july_2012 (7, 2012) (7, 2012) None None sample.july_2012_table).
  vm_compute. reflexivity.
Defined.

(** X23.  [load_data] never returns empty arrays: when no file has its key
    in the locations dictionary (in particular when there is no file), it
    raises ValueError. *)
Theorem load_data_no_location locations block_info cal today load_paths
    month_year_start month_year_end day_start day_end :
  (forall load_path file, load_path ∈ load_paths -> file ∈ load_path ->
     locations !! fst file = None) ->
  load_data locations block_info cal today load_paths
    month_year_start month_year_end day_start day_end = Err ValueError.
Proof.
  intros Hnone. unfold load_data.
  destruct (match day_end with Some d => Ok d | None => _ end) as [de|e] eqn:Hde; cbn.
  2:{ destruct day_end; [discriminate Hde|]. unfold monthrange_days in Hde.
      destruct (_ && _); [discriminate Hde | by injection Hde as <-]. }
  destruct (mkdate _ _ (default 1 day_start)) as [ds|e] eqn:Hds; cbn.
  2:{ unfold mkdate in Hds. destruct (_ && _); [discriminate Hds | by injection Hds as <-]. }
  destruct (mkdate _ _ de) as [de'|e] eqn:Hde'; cbn.
  2:{ unfold mkdate in Hde'. destruct (_ && _); [discriminate Hde' | by injection Hde' as <-]. }
  by rewrite load_loops_no_location.
Qed.

Lemma load_data_no_location_witness :
  load_data ∅ [] sample.fourth_of_july sample.today sample.july_2012
    (7, 2012) (7, 2012) None None = Err ValueError.
Proof.
  apply load_data_no_location. intros load_path file _ _. apply lookup_empty.
Defined.

Lemma StronglySorted_sublist {A} (R : A -> A -> Prop) (l1 l2 : list A) :
  l1 `sublist_of` l2 -> StronglySorted R l2 -> StronglySorted R l1.
Proof.
  induction 1 as [|x l1 l2 Hsub IH|x l1 l2 Hsub IH]; intros Hs; [done|..].
  - apply StronglySorted_inv in Hs as [Hs Hx]. constructor; [by apply IH|].
    apply Forall_forall. intros y Hy. rewrite Forall_forall in Hx.
    apply Hx. by eapply elem_of_sublist.
  - apply StronglySorted_inv in Hs as [Hs _]. by apply IH.
Qed.

(** X24.  With one load directory the block keys come out in ascending
    order, the order of the sorted keys; they are distinct when the files of
    the directory have distinct keys. *)
Theorem load_data_keys_ascending locations block_info cal today load_path
    month_year_start month_year_end day_start day_end out :
  load_data locations block_info cal today [load_path]
    month_year_start month_year_end day_start day_end = Ok out ->
  StronglySorted Z.le (out_element_keys out)
  /\ (NoDup (map fst load_path) -> NoDup (out_element_keys out)).
Proof.
  intros H. apply load_data_inv in H as (ds & de & st & Hst & _ & -> & _).
  cbn [for_loop] in Hst. apply bind_Ok_inv in Hst as (st1 & Hfiles & Hst).
  injection Hst as <-. apply load_files_keys in Hfiles as (ks & -> & Hks). cbn.
  split.
  - eapply StronglySorted_sublist; [exact Hks|].
    apply (StronglySorted_fmap fst (fun a b => fst a <= fst b) Z.le); [done|].
    apply sort_by_sorted.
    + intros a b Hab. by apply Z.leb_le.
    + intros a b Hab. apply Z.leb_gt in Hab. lia.
    + intros a b c. lia.
  - intros Hnd. eapply sublist_NoDup; [|exact Hks].
    by rewrite sort_by_perm.
Qed.

Lemma load_data_keys_ascending_witness :
  StronglySorted Z.le (out_element_keys sample.july_2012_table)
  /\ (NoDup (map fst [(2759, sample.week_of_loads 734693 (2 # 1)%Q)])
      -> NoDup (out_element_keys sample.july_2012_table)).
Proof.
  apply (load_data_keys_ascending sample.locations [] sample.fourth_of_july sample.today
           [(2759, sample.week_of_loads 734693 (2 # 1)%Q)] (7, 2012) (7, 2012) None None
           sample.july_2012_table).
  vm_compute. reflexivity.
Defined.

(** X25.  When the returned block keys are distinct, row i of the average
    matrix holds the averages of the block of key i: the mean load of each
    (weekday, hour) group of the rows the returned table has for that key, the
    groups in ascending order. *)
Theorem load_data_average_rows locations block_info cal today load_paths
    month_year_start month_year_end day_start day_end out :
  load_data locations block_info cal today load_paths
    month_year_start month_year_end day_start day_end = Ok out ->
  NoDup (out_element_keys out) ->
  forall i key row,
    out_element_keys out !! i = Some key -> out_avg_loads out !! i = Some row ->
    exists rows, (forall r, r ∈ rows <-> (key, r) ∈ out_park_data out)
                 /\ row = map (group_mean rows) (day_hour_groups rows).
Proof.
  intros H Hnd i key row Hk Ha.
  apply load_data_inv in H as (ds & de & st & Hst & _ & Hke & Hae & _ & _ & Hrows).
  rewrite Hke in Hk, Hnd. rewrite Hae in Ha.
  destruct (load_loops_average_rows _ _ _ _ _ _ _ Hst i key row Hk Ha) as (rows & Hpd & Hrow).
  { intros j Hj Hkj. pose proof (NoDup_lookup _ _ _ _ Hnd Hk Hkj). lia. }
  exists rows. split; [|done]. intros r. rewrite Hrows. split.
  - intros Hr. by exists rows.
  - intros (rows' & Hpd' & Hr). rewrite Hpd in Hpd'. by injection Hpd' as <-.
Qed.

Lemma load_data_average_rows_witness :
  exists rows, (forall r, r ∈ rows <-> (2759, r) ∈ out_park_data sample.july_2012_table)
               /\ replicate 72 (Fin (3 # 2)%Q)
                  = map (group_mean rows) (day_hour_groups rows).
Proof.
  refine (load_data_average_rows sample.locations [] sample.fourth_of_july sample.today
            sample.july_2012 (7, 2012) (7, 2012) None None sample.july_2012_table _ _
            0%nat 2759 (replicate 72 (Fin (3 # 2)%Q)) _ _).
  - vm_compute. reflexivity.
  - vm_compute. repeat constructor. intros H. by apply elem_of_nil in H.
  - reflexivity.
  - vm_compute. reflexivity.
Defined.

End load_outputs.

(** ** The column index of load_data *)

Section column_index.
Import process_data.

Lemma foldl_insert_sound `{Countable K} {V X} (key : X -> K) (val : X -> V) (L : list X)
    (k : K) (v : V) :
  foldl (fun d x => <[key x := val x]> d) (∅ : gmap K V) L !! k = Some v ->
  exists x, x ∈ L /\ key x = k /\ val x = v.
Proof.
  induction L as [|x L IH] using rev_ind; [cbn; by rewrite lookup_empty|].
  rewrite foldl_snoc. destruct (decide (key x = k)) as [<-|Hne].
  - rewrite lookup_insert_eq. intros [= <-]. exists x. split; [|done].
    apply elem_of_app. right. left.
  - rewrite lookup_insert_ne by done. intros Hk.
    destruct (IH Hk) as (y & Hy & Hky & Hvy). exists y. split; [|done].
    apply elem_of_app. by left.
Qed.

Lemma foldl_insert_complete `{Countable K} {V X} (key : X -> K) (val : X -> V) (L : list X)
    (x : X) :
  (forall y z, y ∈ L -> z ∈ L -> key y = key z -> val y = val z) ->
  x ∈ L ->
  foldl (fun d x => <[key x := val x]> d) (∅ : gmap K V) L !! key x = Some (val x).
Proof.
  induction L as [|y L IH] using rev_ind; intros Hfun Hx; [by apply elem_of_nil in Hx|].
  rewrite foldl_snoc. destruct (decide (key y = key x)) as [Heq|Hne].
  - rewrite Heq, lookup_insert_eq. f_equal. apply Hfun; [| |done].
    + apply elem_of_app. right. left.
    + done.
  - rewrite lookup_insert_ne by done. apply IH.
    + intros a b Ha Hb. apply Hfun; apply elem_of_app; by left.
    + apply elem_of_app in Hx as [Hx|Hx]; [done|].
      apply list_elem_of_singleton in Hx. by subst.
Qed.

Lemma grid_injective (H i j i' j' : nat) :
  j < H -> j' < H -> i * H + j = i' * H + j' -> i = i' /\ j = j'.
Proof.
  intros Hj Hj' Heq.
  destruct (Nat.lt_trichotomy i i') as [Hlt|[->|Hlt]]; [|lia|].
  - pose proof (Nat.mul_le_mono_r (S i) i' H ltac:(lia)). lia.
  - pose proof (Nat.mul_le_mono_r (S i') i H ltac:(lia)). lia.
Qed.

Lemma sorted_unique_NoDup (l : list Z) : NoDup (sort_by Z.leb (pd_unique l)).
Proof. rewrite sort_by_perm. apply NoDup_pd_unique. Qed.

(** The first dictionary, entry by entry. *)
Lemma idx_to_day_hour_entries (block_data : list block_row) (c : nat) (dh : Z * Z) :
  let index := day_hour_groups block_data in
  let days := sort_by Z.leb (pd_unique (map fst index)) in
  let hours := sort_by Z.leb (pd_unique (map snd index)) in
  idx_to_day_hour (index_maps block_data) !! c = Some dh
  <-> exists i j, days !! i = Some (fst dh) /\ hours !! j = Some (snd dh)
                  /\ c = i * length hours + j.
Proof.
  intros index days hours. unfold index_maps. cbn [idx_to_day_hour].
  fold index. fold days. fold hours.
  set (key := fun ij : nat * nat => ij.1 * length hours + ij.2).
  set (val := fun ij : nat * nat => (default 0%Z (days !! ij.1), default 0%Z (hours !! ij.2))).
  split.
  - intros Hc. apply (foldl_insert_sound key val) in Hc as ([i j] & Hin & <- & <-).
    apply list_elem_of_In, in_prod_iff in Hin as [Hi%in_seq Hj%in_seq].
    exists i, j. unfold val, key. cbn.
    destruct (lookup_lt_is_Some_2 days i ltac:(lia)) as [d ->].
    destruct (lookup_lt_is_Some_2 hours j ltac:(lia)) as [h ->]. done.
  - intros (i & j & Hi & Hj & ->).
    pose proof (lookup_lt_Some _ _ _ Hi) as Hil. pose proof (lookup_lt_Some _ _ _ Hj) as Hjl.
    assert (dh = val (i, j)) as ->.
    { unfold val. cbn. rewrite Hi, Hj. by destruct dh. }
    apply (foldl_insert_complete key val _ (i, j)).
    + intros [a b] [a' b'] Ha Ha' Hk.
      apply list_elem_of_In, in_prod_iff in Ha as [_ Hb%in_seq].
      apply list_elem_of_In, in_prod_iff in Ha' as [_ Hb'%in_seq].
      unfold key in Hk. cbn in Hk.
      destruct (grid_injective (length hours) a b a' b') as [-> ->]; [lia..|done].
    + apply list_elem_of_In, in_prod_iff. split; apply in_seq; lia.
Qed.

Lemma idx_to_day_hour_injective (block_data : list block_row) (c c' : nat) (dh : Z * Z) :
  idx_to_day_hour (index_maps block_data) !! c = Some dh ->
  idx_to_day_hour (index_maps block_data) !! c' = Some dh -> c = c'.
Proof.
  intros Hc Hc'. apply idx_to_day_hour_entries in Hc as (i & j & Hi & Hj & ->).
  apply idx_to_day_hour_entries in Hc' as (i' & j' & Hi' & Hj' & ->).
  pose proof (sorted_unique_NoDup (map fst (day_hour_groups block_data))) as Hd.
  pose proof (sorted_unique_NoDup (map snd (day_hour_groups block_data))) as Hh.
  by rewrite (NoDup_lookup _ _ _ _ Hd Hi Hi'), (NoDup_lookup _ _ _ _ Hh Hj Hj').
Qed.

Lemma index_maps_inverse (block_data : list block_row) (c : nat) (dh : Z * Z) :
  idx_to_day_hour (index_maps block_data) !! c = Some dh
  <-> day_hour_to_idx (index_maps block_data) !! dh = Some c.
Proof.
  set (m := idx_to_day_hour (index_maps block_data)).
  assert (day_hour_to_idx (index_maps block_data)
          = foldl (fun d kv => <[snd kv := fst kv]> d) ∅ (map_to_list m)) as -> by done.
  split.
  - intros Hc. apply elem_of_map_to_list in Hc.
    apply (foldl_insert_complete snd fst _ (c, dh)); [|done].
    intros [a b] [a' b'] Ha Ha' Hk. cbn in Hk |- *. subst b'.
    apply elem_of_map_to_list in Ha, Ha'. by eapply idx_to_day_hour_injective.
  - intros Hd. apply (foldl_insert_sound snd fst) in Hd as ([c' dh'] & Hin & Hk & Hv).
    cbn in Hk, Hv. subst. by apply elem_of_map_to_list.
Qed.

(** X26.  The two dictionaries of [load_data] are inverse to each other,
    and every (weekday, hour) pair of a row of the block they are computed
    from has a column index, which is below len(days) * len(hours). *)
Theorem index_maps_round_trip (block_data : list block_row) :
  (forall c dh, idx_to_day_hour (index_maps block_data) !! c = Some dh
                <-> day_hour_to_idx (index_maps block_data) !! dh = Some c)
  /\ (forall r, r ∈ block_data ->
        exists c, day_hour_to_idx (index_maps block_data) !! (Day r, Hour r) = Some c
                  /\ c < length (pd_unique (map Day block_data))
                         * length (pd_unique (map Hour block_data))).
Proof.
  split; [apply index_maps_inverse|]. intros r Hr.
  set (index := day_hour_groups block_data).
  set (days := sort_by Z.leb (pd_unique (map fst index))).
  set (hours := sort_by Z.leb (pd_unique (map snd index))).
  assert (forall f : Z * Z -> Z, forall g : block_row -> Z,
            (forall r, f (Day r, Hour r) = g r) ->
            pd_unique (map f index) ≡ₚ pd_unique (map g block_data)) as Hperm.
  { intros f g Hfg. apply NoDup_Permutation; [apply NoDup_pd_unique..|].
    intros z. rewrite !elem_of_pd_unique, !list_elem_of_fmap. unfold index, day_hour_groups.
    split.
    - intros (p & -> & Hp). rewrite sort_by_perm in Hp.
      apply elem_of_pd_unique, list_elem_of_fmap in Hp as (r' & -> & Hr').
      exists r'. by rewrite Hfg.
    - intros (r' & -> & Hr'). exists (Day r', Hour r'). rewrite Hfg. split; [done|].
      rewrite sort_by_perm. apply elem_of_pd_unique, list_elem_of_fmap. by exists r'. }
  assert (Day r ∈ days) as Hd.
  { unfold days. rewrite sort_by_perm, (Hperm fst Day) by done.
    apply elem_of_pd_unique, list_elem_of_fmap. by exists r. }
  assert (Hour r ∈ hours) as Hh.
  { unfold hours. rewrite sort_by_perm, (Hperm snd Hour) by done.
    apply elem_of_pd_unique, list_elem_of_fmap. by exists r. }
  apply list_elem_of_lookup in Hd as [i Hi]. apply list_elem_of_lookup in Hh as [j Hj].
  exists (i * length hours + j). split.
  - apply index_maps_inverse, idx_to_day_hour_entries. by exists i, j.
  - apply lookup_lt_Some in Hi, Hj.
    assert (length days = length (pd_unique (map Day block_data))) as <-.
    { unfold days. by rewrite sort_by_perm, (Hperm fst Day). }
    assert (length hours = length (pd_unique (map Hour block_data))) as <-.
    { unfold hours. by rewrite sort_by_perm, (Hperm snd Hour). }
    nia.
Qed.

Lemma index_maps_round_trip_witness :
  exists c, day_hour_to_idx (index_maps (map snd (out_park_data sample.july_2012_table)))
              !! (0, 8)%Z = Some c
            /\ c < length (pd_unique (map Day (map snd (out_park_data sample.july_2012_table))))
                   * length (pd_unique (map Hour
                                          (map snd (out_park_data sample.july_2012_table)))).
Proof.
  refine (proj2 (index_maps_round_trip (map snd (out_park_data sample.july_2012_table)))
            {| Datetime := 63477504000; Load := Some (3 # 2)%Q; Date := 734693;
               Time := 28800; Day := 0; Hour := 8; Minute := 0 |} _).
  vm_compute. left.
Defined.

End column_index.

(** ** The entries of get_price_changes *)

Section price_entries.
Import process_data.
Local Open Scope Z_scope.








Lemma start_leb_total (a b : csv_row) : start_leb a b = false -> start_leb b a = true.
Proof.
  unfold start_leb.
  destruct (csv_EffectiveStartDate a) as [x|], (csv_EffectiveStartDate b) as [y|]; try done.
  intros Hxy. destruct (String.leb_total x y) as [H|H]; [congruence | done].
Qed.

Lemma insert_by_Sorted {A} (leb : A -> A -> bool) (a : A) (l : list A) :
  (forall a b, leb a b = false -> leb b a = true) ->
  Sorted (fun a b => leb a b = true) l ->
  Sorted (fun a b => leb a b = true) (insert_by leb a l).
Proof.
  intros Htot. induction 1 as [|b l Hl IH Hb]; cbn [insert_by]; [by repeat constructor|].
  destruct (leb a b) eqn:Hab.
  - constructor; [by constructor | by constructor].
  - constructor; [done|]. destruct Hb as [|c l' Hbc]; cbn [insert_by].
    + constructor. by apply Htot.
    + destruct (leb a c); constructor; [by apply Htot | done].
Qed.

Lemma sort_by_Sorted {A} (leb : A -> A -> bool) (l : list A) :
  (forall a b, leb a b = false -> leb b a = true) ->
  Sorted (fun a b => leb a b = true) (sort_by leb l).
Proof.
  intros Htot. induction l as [|a l IH]; cbn; [constructor|]. by apply insert_by_Sorted.
Qed.

Lemma Sorted_consecutive {A} (R : A -> A -> Prop) (l : list A) (a b : A) :
  Sorted R l -> (a, b) ∈ consecutive l -> R a b.
Proof.
  unfold consecutive. induction 1 as [|x l Hl IH Hx]; [by intros ?%elem_of_nil|].
  change (drop 1 (x :: l)) with l. destruct Hx as [|y l' Hxy]; [by intros ?%elem_of_nil|].
  cbn [zip_with]. intros Hin. apply elem_of_cons in Hin as [[= -> ->]|Hin]; [done|].
  by apply IH.
Qed.

Lemma consecutive_block_of (area : string) (block_info : list csv_row) (key : Z)
    (cur next : csv_row) :
  (cur, next) ∈ consecutive (block_of area block_info key) ->
  start_leb cur next = true
  /\ Forall (fun r => r ∈ block_info /\ csv_PaidParkingArea r = area
                      /\ csv_ElementKey r = key /\ is_Some (csv_WeekdayRate1 r)) [cur; next].
Proof.
  intros Hin. split.
  - eapply (Sorted_consecutive (fun a b => start_leb a b = true)); [|exact Hin].
    apply sort_by_Sorted, start_leb_total.
  - assert (forall r, r ∈ block_of area block_info key ->
              r ∈ block_info /\ csv_PaidParkingArea r = area
              /\ csv_ElementKey r = key /\ is_Some (csv_WeekdayRate1 r)) as Hrow.
    { intros r Hr. unfold block_of in Hr. rewrite sort_by_perm in Hr.
      apply elem_of_filter_bool in Hr as [Hr Hrate%bool_decide_eq_true].
      apply elem_of_filter_bool in Hr as [Hr Hkey%Z.eqb_eq].
      by apply elem_of_filter_bool in Hr as [Hr Harea%bool_decide_eq_true]. }
    constructor; [apply Hrow; by apply elem_of_zip_l in Hin|].
    constructor; [|constructor].
    apply Hrow. apply elem_of_zip_r in Hin.
    eapply elem_of_sublist; [exact Hin | apply sublist_drop].
Qed.


End price_entries.

Section price_change_reports.
Import process_data.
Local Open Scope Z_scope.



(** X29.  The rows [get_price_changes] compares are rows of the table in
    the area, with the key and with a first weekday rate, and the first of a
    pair never starts after the second (a row without a start date comes
    last). *)
Theorem get_price_changes_compares (area : string) (block_info : list csv_row) (key : Z)
    (cur next : csv_row) :
  (cur, next) ∈ consecutive (block_of area block_info key) ->
  start_leb cur next = true
  /\ Forall (fun r => r ∈ block_info /\ csv_PaidParkingArea r = area
                      /\ csv_ElementKey r = key /\ is_Some (csv_WeekdayRate1 r)) [cur; next].
Proof. apply consecutive_block_of. Qed.

Lemma get_price_changes_compares_witness :
  let newer := sample.price_row "Pike" 2759 (5 # 2) "2015-06-01" in
  let older := sample.price_row "Pike" 2759 (2 # 1) "2014-01-01" in
  start_leb older newer = true
  /\ Forall (fun r => r ∈ [newer; older] /\ csv_PaidParkingArea r = "Pike"
                      /\ csv_ElementKey r = 2759 /\ is_Some (csv_WeekdayRate1 r))
       [older; newer].
Proof.
  apply (get_price_changes_compares "Pike"
           [sample.price_row "Pike" 2759 (5 # 2) "2015-06-01";
            sample.price_row "Pike" 2759 (2 # 1) "2014-01-01"] 2759).
  vm_compute. left.
Defined.



End price_change_reports.
